(** * InfluxDB 3 MCP server: connection resolution and database dispatch

    A shallow embedding of
      - [src/services/base-connection.service.ts]   (module [BaseConnection]),
      - [src/services/http-client.service.ts]       (module [HttpClient]),
      - [src/services/database-management.service.ts] (module [DatabaseManagement]),
    followed by the properties of these services.

    Conventions.
      - An optional string field ([string | undefined]) is an [option string];
        JavaScript truthiness of such a field is [Js.truthy]: defined and not
        the empty string.
      - JavaScript numbers are doubles.  Every number the services compute
        with is a whole count (seconds, nanoseconds, limits) and is modelled
        by the [Z] it stands for.  The two arithmetic operations of the
        services, the product [x * 1000000000] and [Math.floor(x / 1000000000)],
        round as a double does ([Js.multiply], [Js.floorDivide]: to nearest,
        ties to even); they coincide with the exact product and the floored
        quotient of [Z] within the bounds of [multiply_exact] and
        [floorDivide_exact].  Numbers beyond the largest finite double are
        not modelled.
      - Code that may throw returns an [Outcome]; an [async] function is an
        [Async] computation over the state of the outside world. *)

From Stdlib Require Import ZArith String Ascii List Bool Lia DecimalString.
Import ListNotations.
Open Scope string_scope.
Open Scope Z_scope.

Set Implicit Arguments.

(* ===================================================================== *)
(** ** JavaScript primitives used by the services *)
(* ===================================================================== *)

Module Js.

(** Truthiness of a [string | undefined] value. *)
Definition truthy (o : option string) : bool :=
  match o with
  | Some s => negb (s =? "")%string
  | None => false
  end.

(** Truthiness of a [number | undefined] value (no NaN on integers). *)
Definition truthyNum (o : option Z) : bool :=
  match o with
  | Some n => negb (n =? 0)
  | None => false
  end.

(** The whole number of [d]s nearest to [n / d], the even one of two that
    are equally near ([0 <= n], [0 < d]): how a double keeps the last bit of
    its significand. *)
Definition nearestEven (n d : Z) : Z :=
  let q := n / d in
  let r := n mod d in
  if (d <? 2 * r) || ((2 * r =? d) && Z.odd q) then q + 1 else q.

(** The double nearest to a whole number [z]: [z] itself when it has at most
    53 significant bits, and otherwise [z] rounded to 53 significant bits. *)
Definition toDouble (z : Z) : Z :=
  let e := Z.log2 (Z.abs z) - 52 in
  if e <=? 0 then z
  else Z.sgn z * nearestEven (Z.abs z) (2 ^ e) * 2 ^ e.

(** [a * b] on whole numbers: the double nearest to the product. *)
Definition multiply (a b : Z) : Z := toDouble (a * b).

(** The binary exponent of [a / b], that is [floor(log2(a / b))], for
    positive [a] and [b]. *)
Definition log2Quotient (a b : Z) : Z :=
  let d := Z.log2 a - Z.log2 b in
  if a * 2 ^ Z.max 0 (- d) <? b * 2 ^ Z.max 0 d then d - 1 else d.

(** [Math.floor(a / b)] on whole numbers, [0 < b]: the quotient is the double
    nearest to [a / b], with a significand [m] of 53 bits at the exponent
    [e], and the floor is taken of that double. *)
Definition floorDivide (a b : Z) : Z :=
  if a =? 0 then 0
  else
    let e := log2Quotient (Z.abs a) b - 52 in
    let m := nearestEven (Z.abs a * 2 ^ Z.max 0 (- e)) (b * 2 ^ Z.max 0 e) in
    (Z.sgn a * m * 2 ^ Z.max 0 e) / 2 ^ Z.max 0 (- e).

(** [a || b] on [string | undefined] values. *)
Definition or (a b : option string) : option string :=
  if truthy a then a else b.

(** [a || ""], the idiom the services use to force a string. *)
Definition orEmpty (a : option string) : string :=
  match Js.or a (Some "") with Some s => s | None => "" end.

(** Interpolation [`${x}`] of a [string | undefined] value. *)
Definition interp (o : option string) : string :=
  match o with Some s => s | None => "undefined" end.

(** [String(n)] / [`${n}`] for an integral number. *)
Definition showNum (n : Z) : string := NilZero.string_of_int (Z.to_int n).

(** Interpolation of a [number | undefined] value. *)
Definition interpNum (o : option Z) : string :=
  match o with Some n => showNum n | None => "undefined" end.

(** [s.includes(sub)]. *)
Fixpoint includes (sub s : string) : bool :=
  if String.prefix sub s then true
  else match s with
       | EmptyString => false
       | String _ rest => includes sub rest
       end.

(** [xs.join(sep)]. *)
Fixpoint join (sep : string) (xs : list string) : string :=
  match xs with
  | [] => ""
  | [x] => x
  | x :: rest => x ++ sep ++ join sep rest
  end.

(** [s.replace(/\/$/, "")]: drop one trailing slash. *)
Fixpoint stripTrailingSlash (s : string) : string :=
  match s with
  | EmptyString => EmptyString
  | String c rest =>
      match rest with
      | EmptyString => if (c =? "/")%char then EmptyString else s
      | _ => String c (stripTrailingSlash rest)
      end
  end.

(** White space as [String.prototype.trim] sees it.  A string is a sequence
    of UTF-8 bytes; [dropSpace s] removes one leading white-space or
    line-terminator code point when there is one. *)
Definition dropSpace (s : string) : option string :=
  match s with
  | String c rest =>
      let n := N_of_ascii c in
      if ((9 <=? n) && (n <=? 13) || (n =? 32))%N then Some rest
      else
        match rest with
        | String d rest1 =>
            let m := N_of_ascii d in
            if ((n =? 194) && (m =? 160))%N then Some rest1      (* U+00A0 *)
            else
              match rest1 with
              | String e rest2 =>
                  let k := N_of_ascii e in
                  if ((n =? 225) && (m =? 154) && (k =? 128)        (* U+1680 *)
                      || (n =? 226) && (m =? 128)
                         && ((128 <=? k) && (k <=? 138)            (* U+2000-200A *)
                             || (k =? 168) || (k =? 169)           (* U+2028/9 *)
                             || (k =? 175))                        (* U+202F *)
                      || (n =? 226) && (m =? 129) && (k =? 159)     (* U+205F *)
                      || (n =? 227) && (m =? 128) && (k =? 128)     (* U+3000 *)
                      || (n =? 239) && (m =? 187) && (k =? 191))%N  (* U+FEFF *)
                  then Some rest2 else None
              | EmptyString => None
              end
        | EmptyString => None
        end
  | EmptyString => None
  end.

(** [!!s.trim()]: some code point of [s] is not white space.  The fuel is
    the length of [s], enough to scan all of it. *)
Fixpoint nonBlankFuel (fuel : nat) (s : string) : bool :=
  match s with
  | EmptyString => false
  | _ =>
      match dropSpace s with
      | None => true
      | Some rest =>
          match fuel with
          | O => false
          | S fuel' => nonBlankFuel fuel' rest
          end
      end
  end.

Definition trimTruthy (s : string) : bool := nonBlankFuel (String.length s) s.

(** [encodeURIComponent] on a well-formed (UTF-8) string: every byte outside
    [A-Z a-z 0-9 - _ . ! ~ * ' ( )] becomes [%XX]. *)
Definition unreserved (c : ascii) : bool :=
  let n := N_of_ascii c in
  ((65 <=? n) && (n <=? 90) || (97 <=? n) && (n <=? 122)
   || (48 <=? n) && (n <=? 57)
   || (n =? 45) || (n =? 95) || (n =? 46) || (n =? 33) || (n =? 126)
   || (n =? 42) || (n =? 39) || (n =? 40) || (n =? 41))%N.

Definition hexDigit (n : N) : ascii :=
  ascii_of_N (if (n <? 10)%N then 48 + n else 55 + n)%N.

Fixpoint encodeURIComponent (s : string) : string :=
  match s with
  | EmptyString => EmptyString
  | String c rest =>
      if unreserved c then String c (encodeURIComponent rest)
      else
        let n := N_of_ascii c in
        String "%" (String (hexDigit (n / 16)) (String (hexDigit (n mod 16))
               (encodeURIComponent rest)))
  end.

(** A thrown value.  [new Error(m)] carries only a message; an error of the
    HTTP library may also carry a [code] and the [response] it received. *)
Record ErrorData := {
  data_message : option string;   (* response.data.message *)
  data_error   : option string;   (* response.data.error *)
  data_json    : string           (* JSON.stringify(response.data) *)
}.

Record ErrorResponse := {
  status     : option Z;
  statusText : option string;
  data       : option ErrorData   (* [None]: a falsy body *)
}.

Record Error := {
  message  : option string;
  code     : option string;
  response : option ErrorResponse
}.

Definition newError (m : string) : Error :=
  {| message := Some m; code := None; response := None |}.

(** The outcome of running code that may throw. *)
Inductive Outcome (A : Type) : Type :=
| Ok (a : A)
| Throw (e : Error).

Arguments Ok {A} a.
Arguments Throw {A} e.

(** An [async] computation: it runs against the outside world [W] (the
    backends reached over the network), which it may change, and ends by
    resolving or by throwing. *)
Definition Async (W A : Type) : Type := W -> Outcome A * W.

Section Async.
Context {W : Type}.

Definition ret {A} (a : A) : Async W A := fun w => (Ok a, w).

Definition throw {A} (e : Error) : Async W A := fun w => (Throw e, w).

Definition bind {A B} (p : Async W A) (k : A -> Async W B) : Async W B :=
  fun w =>
    match p w with
    | (Ok a, w') => k a w'
    | (Throw e, w') => (Throw e, w')
    end.

(** Synchronous code that may throw, run inside an [async] function. *)
Definition lift {A} (o : Outcome A) : Async W A := fun w => (o, w).

(** [try { body } catch (error) { handler(error) }]. *)
Definition tryCatch {A} (body : Async W A) (handler : Error -> Async W A)
  : Async W A :=
  fun w =>
    match body w with
    | (Ok a, w') => (Ok a, w')
    | (Throw e, w') => handler e w'
    end.
End Async.

End Js.

Import Js.

Declare Scope js_scope.
Delimit Scope js_scope with js.
Notation "'await' x <- p ; k" := (Js.bind p (fun x => k))
  (at level 10, x name, p at level 100, k at level 200) : js_scope.
Notation "'run' p ; k" := (Js.bind p (fun _ => k))
  (at level 10, p at level 100, k at level 200) : js_scope.
Open Scope js_scope.

(* ===================================================================== *)
(** ** Product types and configuration *)
(* ===================================================================== *)

(** Modelled from the spec: the enumeration [InfluxProductType] of
    [helpers/enums/influx-product-types.enum.ts] is imported by every service
    but is not among the sources; the specification gives it as the closed set
    [Core], [Enterprise], [CloudDedicated], [Clustered], [CloudServerless]. *)
Inductive InfluxProductType : Type :=
| Core
| Enterprise
| CloudDedicated
| CloudServerless
| Clustered.

Definition InfluxProductType_eqb (a b : InfluxProductType) : bool :=
  match a, b with
  | Core, Core | Enterprise, Enterprise | CloudDedicated, CloudDedicated
  | CloudServerless, CloudServerless | Clustered, Clustered => true
  | _, _ => false
  end.

(** Modelled from the spec: the interface [InfluxConfig] of [config.ts], the
    [influx] part of [McpServerConfig], is not among the sources; the
    specification gives the connection configuration as [type], [url?],
    [token?], [managementToken?], [clusterId?], [accountId?].  The fields
    carry the names under which the services read them. *)
Record InfluxConfig := {
  type             : InfluxProductType;
  url              : option string;
  token            : option string;
  management_token : option string;
  cluster_id       : option string;
  account_id       : option string
}.

(** The same configuration under another product type. *)
Definition withType (t : InfluxProductType) (c : InfluxConfig) : InfluxConfig :=
  {| type := t; url := url c; token := token c;
     management_token := management_token c;
     cluster_id := cluster_id c; account_id := account_id c |}.

(* ===================================================================== *)
(** ** [http-client.service.ts] *)
(* ===================================================================== *)

Module HttpClient.

(** JSON objects are association lists from keys to strings where the
    services only build or copy them (headers, request options). *)
Definition Dict := list (string * string).

(** [{ ...d, k: v }]: an existing key keeps its place and takes the new
    value, a new key goes last. *)
Fixpoint setKey (k v : string) (d : Dict) : Dict :=
  match d with
  | [] => [(k, v)]
  | (k', v') :: rest =>
      if (k' =? k)%string then (k, v) :: rest else (k', v') :: setKey k v rest
  end.

(** The per-request [config] argument of the verbs. *)
Record RequestConfig := {
  req_headers : option Dict;   (* config.headers *)
  req_rest    : Dict           (* every other option of the request *)
}.

(** The argument of [axios.create]. *)
Record InstanceConfig := {
  baseURL : option string;
  timeout : Z;
  headers : Dict
}.

(** Create authentication headers with the format of the product type. *)
Definition createAuthHeaders (token : option string)
           (influxType : option InfluxProductType) : Dict :=
  let headers :=
    [("Content-Type", "application/json"); ("Accept", "application/json")] in
  match token with
  | Some tok =>
      if trimTruthy tok then
        match influxType with
        | Some CloudServerless => setKey "Authorization" ("Token " ++ tok) headers
        | _ => setKey "Authorization" ("Bearer " ++ tok) headers
        end
      else headers
  | None => headers
  end.

(** The service object: the instance configuration its constructor hands to
    [axios.create]. *)
Record HttpClientService := { axiosInstance : InstanceConfig }.

Definition new (baseURL : option string) (token : option string)
           (influxType : option InfluxProductType) : HttpClientService :=
  {| axiosInstance :=
       {| baseURL := option_map stripTrailingSlash baseURL;
          timeout := 30000;
          headers := createAuthHeaders token influxType |} |}.

Definition createInfluxClient (baseUrl token : string)
           (influxType : option InfluxProductType) : HttpClientService :=
  new (Some baseUrl) (Some token) influxType.

(** What a [delete] call resolves to: the body of the response, or the
    empty object [{}] of the catch clause. *)
Inductive DeleteResult (T : Type) : Type :=
| ResponseData (d : T)
| EmptyObject.

Arguments ResponseData {T} d.
Arguments EmptyObject {T}.

Inductive Verb := GET | POST | PUT | DELETE | PATCH.

(** One call of the HTTP library: [instance.<verb>(url, data, config)] on
    the instance created from [req_instance]. *)
Record Request (D : Type) := {
  req_instance : InstanceConfig;
  req_verb     : Verb;
  req_url      : string;
  req_data     : option D;
  req_config   : option RequestConfig
}.

Section Verbs.
(** [D] is the type of request bodies and [T] of response bodies.  The
    HTTP library is the environment: [axios r] performs the request [r]
    and resolves to the body [response.data], or throws. *)
Context {W D T : Type}.
Variable axios : Request D -> Async W T.

Definition get (self : HttpClientService) (url : string)
           (config : option RequestConfig) : Async W T :=
  await response <- axios {| req_instance := axiosInstance self; req_verb := GET;
                             req_url := url; req_data := None;
                             req_config := config |};
  ret response.

Definition post (self : HttpClientService) (url : string) (data : option D)
           (config : option RequestConfig) : Async W T :=
  await response <- axios {| req_instance := axiosInstance self; req_verb := POST;
                             req_url := url; req_data := data;
                             req_config := config |};
  ret response.

Definition put (self : HttpClientService) (url : string) (data : option D)
           (config : option RequestConfig) : Async W T :=
  await response <- axios {| req_instance := axiosInstance self; req_verb := PUT;
                             req_url := url; req_data := data;
                             req_config := config |};
  ret response.

(** The request options of a delete: those of the caller, with the header
    [Connection: close] set. *)
Definition deleteConfig (config : option RequestConfig) : RequestConfig :=
  {| req_headers :=
       Some (setKey "Connection" "close"
               (match config with
                | Some c => match req_headers c with Some h => h | None => [] end
                | None => []
                end));
     req_rest := match config with Some c => req_rest c | None => [] end |}.

Definition deleteRequest (self : HttpClientService) (url : string)
           (config : option RequestConfig) : Request D :=
  {| req_instance := axiosInstance self; req_verb := DELETE;
     req_url := url; req_data := None;
     req_config := Some (deleteConfig config) |}.

Definition delete (self : HttpClientService) (url : string)
           (config : option RequestConfig) : Async W (DeleteResult T) :=
  tryCatch
    (await response <- axios (deleteRequest self url config);
     ret (ResponseData response))
    (fun error =>
       match message error with
       | Some m => if includes "aborted" m then ret EmptyObject
                   else throw error
       | None => throw error
       end).

Definition patch (self : HttpClientService) (url : string) (data : option D)
           (config : option RequestConfig) : Async W T :=
  await response <- axios {| req_instance := axiosInstance self; req_verb := PATCH;
                             req_url := url; req_data := data;
                             req_config := config |};
  ret response.
End Verbs.

End HttpClient.

(* ===================================================================== *)
(** ** [base-connection.service.ts] *)
(* ===================================================================== *)

Module BaseConnection.

Import HttpClient.

Record ConnectionInfo := {
  isDataClientInitialized : bool;
  ci_url   : string;
  hasToken : bool;
  ci_type  : InfluxProductType
}.

(** The service: its configuration, and whether [this.client] is set. *)
Record BaseConnectionService := {
  config : InfluxConfig;
  client : bool
}.

Notation "a === b" := (InfluxProductType_eqb a b) (at level 70, no associativity).

(** Get the host for query/write operations (data plane). *)
Definition getDataHost (influx : InfluxConfig) : option string :=
  if (type influx === CloudDedicated) && truthy (cluster_id influx) then
    Some ("https://" ++ interp (cluster_id influx) ++ ".a.influxdb.io")
  else if type influx === CloudServerless then url influx
  else url influx.

(** Get the host for management operations (control plane). *)
Definition getManagementHost (influx : InfluxConfig) : option string :=
  if type influx === CloudDedicated then Some "https://console.influxdata.com"
  else if type influx === CloudServerless then url influx
  else url influx.

(** Check if the configuration is valid for data operations. *)
Definition isValidConfig (config : InfluxConfig) : bool :=
  if type config === CloudDedicated then
    truthy (cluster_id config) && truthy (token config)
  else if type config === CloudServerless then
    truthy (url config) && truthy (token config)
  else truthy (url config) && truthy (token config).

(** The constructor; [clientCreated] says whether the database client
    library accepted the host and token (its constructor did not throw). *)
Definition new (config : InfluxConfig) (clientCreated : bool)
  : BaseConnectionService :=
  {| config := config;
     client := if isValidConfig config then clientCreated else false |}.

Definition hasDataCapabilities (config : InfluxConfig) : bool :=
  isValidConfig config.

Definition hasManagementCapabilities (config : InfluxConfig) : bool :=
  if type config === CloudDedicated then
    truthy (cluster_id config) && truthy (account_id config)
    && truthy (management_token config)
  else if type config === Clustered then truthy (management_token config)
  else if type config === CloudServerless then
    truthy (url config) && truthy (token config)
  else truthy (url config) && truthy (token config).

(** [const missing = []; if (!x) missing.push(..)] three times. *)
Definition missingManagementFields (config : InfluxConfig) : list string :=
  (if negb (truthy (cluster_id config)) then ["cluster_id"] else [])
  ++ (if negb (truthy (account_id config)) then ["account_id"] else [])
  ++ (if negb (truthy (management_token config)) then ["management_token"] else []).

Definition validateManagementCapabilities (config : InfluxConfig) : Outcome unit :=
  if negb (hasManagementCapabilities config) then
    if (type config === CloudDedicated) || (type config === Clustered) then
      Throw (newError
        ("Cloud Dedicated/Clustered management operations require: "
         ++ join ", " (missingManagementFields config)))
    else if type config === CloudServerless then
      if negb (truthy (url config)) then
        Throw (newError "Cloud Serverless management operations require url (region-specific endpoint) in configuration")
      else if negb (truthy (token config)) then
        Throw (newError "Cloud Serverless management operations require database token in configuration")
      else Ok tt
    else
      if negb (truthy (url config)) then
        Throw (newError "Core/Enterprise management operations require url in configuration")
      else if negb (truthy (token config)) then
        Throw (newError "Core/Enterprise management operations require token with management permissions")
      else Ok tt
  else Ok tt.

(** The [switch] inside [supportedTypes.map].  Its [default] case, the raw
    value of a type outside the enumeration, has no value to apply to. *)
Definition supportedName (t : InfluxProductType) : string :=
  match t with
  | Core => "Core"
  | Enterprise => "Enterprise"
  | CloudDedicated => "Cloud Dedicated"
  | CloudServerless => "Cloud Serverless"
  | Clustered => "Clustered"
  end.

(** The chain of conditionals computing [currentName]; the last alternative,
    the raw value, is again out of reach of a value of the enumeration. *)
Definition currentName (currentType : InfluxProductType) : string :=
  if currentType === Core then "Core"
  else if currentType === Enterprise then "Enterprise"
  else if currentType === CloudDedicated then "Cloud Dedicated"
  else if currentType === CloudServerless then "Cloud Serverless"
  else "Clustered".

(** [supportedTypes.includes(currentType)]. *)
Definition includesType (supportedTypes : list InfluxProductType)
           (t : InfluxProductType) : bool :=
  existsb (fun s => s === t) supportedTypes.

(** Validate that the operation is supported for the current product type. *)
Definition validateOperationSupport (config : InfluxConfig) (operation : string)
           (supportedTypes : list InfluxProductType) : Outcome unit :=
  let currentType := type config in
  if negb (includesType supportedTypes currentType) then
    let supportedNames := join ", " (map supportedName supportedTypes) in
    Throw (newError
      ("Operation '" ++ operation ++ "' is not supported for "
       ++ currentName currentType ++ ". Supported types: " ++ supportedNames))
  else Ok tt.

Definition getConnectionInfo (service : BaseConnectionService) : ConnectionInfo :=
  let influxConfig := config service in
  {| isDataClientInitialized := client service;
     ci_url := orEmpty (getDataHost influxConfig);
     hasToken := truthy (token influxConfig);
     ci_type := type influxConfig |}.

(** Get the pre-configured HTTP client: data host and database token, or,
    for management, the management host and (for the two cluster products)
    the management token. *)
Definition getInfluxHttpClient (influxConfig : InfluxConfig) (forManagement : bool)
  : HttpClientService :=
  let host :=
    orEmpty (if forManagement then getManagementHost influxConfig
             else getDataHost influxConfig) in
  let token :=
    if forManagement
       && ((type influxConfig === CloudDedicated) || (type influxConfig === Clustered))
    then orEmpty (management_token influxConfig)
    else orEmpty (token influxConfig) in
  HttpClient.createInfluxClient host token (Some (type influxConfig)).

(** Validate that data operations (query/write) can be performed. *)
Definition validateDataCapabilities (config : InfluxConfig) : Outcome unit :=
  if negb (hasDataCapabilities config) then
    if type config === CloudDedicated then
      if negb (truthy (cluster_id config)) then
        Throw (newError "Cloud Dedicated data operations require cluster_id in configuration")
      else if negb (truthy (token config)) then
        Throw (newError "Cloud Dedicated data operations require database token in configuration")
      else Ok tt
    else if type config === CloudServerless then
      if negb (truthy (url config)) then
        Throw (newError "Cloud Serverless data operations require url (region-specific endpoint) in configuration")
      else if negb (truthy (token config)) then
        Throw (newError "Cloud Serverless data operations require database token in configuration")
      else Ok tt
    else
      if negb (truthy (url config)) then
        Throw (newError "Core/Enterprise data operations require url in configuration")
      else if negb (truthy (token config)) then
        Throw (newError "Core/Enterprise data operations require token in configuration")
      else Ok tt
  else Ok tt.

(** [x || undefined]. *)
Definition orUndefined (x : option string) : option string :=
  if truthy x then x else None.

(** One call of the global [fetch], and what it resolves to: the response
    with the two headers the service reads ([headers.get] gives null, here
    [None], for a header that is not there) and the outcome of
    [response.json()]. *)
Record FetchRequest := {
  fetch_url     : string;
  fetch_headers : Dict
}.

Record FetchResponse (J : Type) := {
  resp_ok      : bool;
  resp_status  : Z;
  resp_version : option string;   (* headers.get("x-influxdb-version") *)
  resp_build   : option string;   (* headers.get("x-influxdb-build") *)
  resp_json    : Outcome J        (* await response.json() *)
}.

Record PingResult := {
  ok           : bool;
  version      : option string;
  build        : option string;
  ping_message : option string
}.

(** What [getHealthStatus] resolves to: the parsed body of the health
    endpoint, or a bare status. *)
Inductive HealthStatus (J : Type) : Type :=
| HealthData (body : J)
| Status (status : string).

Arguments HealthData {J} body.
Arguments Status {J} status.

Section Probes.
(** [fetch] is the environment.  What it throws is an [Error] (a TypeError of
    the network layer), so [error instanceof Error ? error.message : ...] is
    the message of the error. *)
Context {W J : Type}.
Variable fetch : FetchRequest -> Async W (FetchResponse J).

(** The headers both probes send. *)
Definition probeHeaders (service : BaseConnectionService) : Dict :=
  [("Authorization", "Token " ++ interp (token (config service)))].

(** Ping the instance (version and build when available). *)
Definition ping (service : BaseConnectionService) : Async W PingResult :=
  let url := getDataHost (config service) in
  if negb (truthy url) then
    ret {| ok := false; version := None; build := None;
           ping_message := Some "No data host configured" |}
  else
    tryCatch
      (await response <-
         fetch {| fetch_url := stripTrailingSlash (interp url) ++ "/ping";
                  fetch_headers := probeHeaders service |};
       if resp_ok response then
         let version := orUndefined (resp_version response) in
         let build := orUndefined (resp_build response) in
         let build :=
           if negb (truthy build) then
             if truthy version then Some "Other" else build
           else build in
         ret {| ok := true; version := version; build := build;
                ping_message := None |}
       else
         ret {| ok := false; version := None; build := None;
                ping_message :=
                  Some ("Ping failed with status "
                        ++ showNum (resp_status response)) |})
      (fun error =>
         ret {| ok := false; version := None; build := None;
                ping_message := message error |}).

(** Get the health status. *)
Definition getHealthStatus (service : BaseConnectionService)
  : Async W (HealthStatus J) :=
  let url := getDataHost (config service) in
  if negb (truthy url) || negb (client service) then ret (Status "fail")
  else
    tryCatch
      (await response <-
         fetch {| fetch_url := stripTrailingSlash (interp url) ++ "/health";
                  fetch_headers := probeHeaders service |};
       if resp_ok response then
         match resp_json response with
         | Ok healthData => ret (HealthData healthData)
         | Throw _ => ret (Status "pass")
         end
       else ret (Status "fail"))
      (fun _error => ret (Status "fail")).
End Probes.

End BaseConnection.

(* ===================================================================== *)
(** ** [database-management.service.ts] *)
(* ===================================================================== *)

Module DatabaseManagement.

Import HttpClient BaseConnection.

(** *** Data *)

(** The canonical database, with the pass-through metadata that
    [listDatabasesCloudServerless] adds to it. *)
Record DatabaseInfo := {
  name               : string;
  maxTables          : option Z;
  maxColumnsPerTable : option Z;
  retentionPeriod    : option Z;     (* nanoseconds *)
  bucketId           : option string;
  organizationId     : option string;
  storageType        : option string;
  createdAt          : option string;
  updatedAt          : option string;
  description        : option string;
  retentionPolicy    : option string
}.

(** [{ name }]. *)
Definition named (n : string) : DatabaseInfo :=
  {| name := n; maxTables := None; maxColumnsPerTable := None;
     retentionPeriod := None; bucketId := None; organizationId := None;
     storageType := None; createdAt := None; updatedAt := None;
     description := None; retentionPolicy := None |}.

(** The optional [config] argument of create and update: the union of
    [CloudDedicatedDatabaseConfig] and [CloudServerlessBucketConfig], which
    the dispatcher passes on under either type. *)
Record DatabaseConfig := {
  cfg_name               : option string;
  cfg_description        : option string;
  cfg_maxTables          : option Z;
  cfg_maxColumnsPerTable : option Z;
  cfg_retentionPeriod    : option Z
}.

Record RetentionRule := {
  rule_type    : option string;
  everySeconds : option Z
}.

(** Request bodies, one shape per request the service builds. *)
Inductive Payload :=
| CoreCreate (db : string)
| DedicatedCreate (name : string) (maxTables maxColumnsPerTable retentionPeriod : Z)
| DedicatedUpdate (maxTables maxColumnsPerTable retentionPeriod : option Z)
| BucketCreate (name : string) (orgID : option string)
               (retentionRules : list RetentionRule) (description : option string)
| BucketUpdate (name description : option string)
               (retentionRules : list RetentionRule).

(** Response bodies.  The source types them [any]; the model keeps every
    shape the service tells apart and, of a JSON object, the properties the
    service reads. *)
Record Entry := {
  e_name               : option string;
  e_iox_database       : option string;   (* item["iox::database"] *)
  e_type               : option string;
  e_maxTables          : option Z;
  e_maxColumnsPerTable : option Z;
  e_retentionPeriod    : option Z;
  e_retentionRules     : option (list RetentionRule);
  e_id                 : option string;
  e_orgID              : option string;
  e_storageType        : option string;
  e_createdAt          : option string;
  e_updatedAt          : option string;
  e_description        : option string;
  e_rp                 : option string
}.

(** An element of a response array. *)
Inductive Item :=
| INull                       (* null: reading a property of it throws *)
| IString (s : string)        (* typeof item === "string" *)
| IObject (o : Entry)         (* a JSON object *)
| IOther (shown : string).    (* a number, boolean or array; String(item) *)

(** The value under a key that should hold an array. *)
Inductive Slot :=
| SFalsy                      (* undefined, null, false, 0 *)
| SString (s : string)        (* a string *)
| SValue                      (* another truthy value that is not an array *)
| SArray (items : list Item).

Record Envelope := {
  databases        : Slot;
  buckets          : Slot;
  orgs             : Slot;
  data_databases   : Slot;    (* response.data?.databases *)
  result_databases : Slot;    (* response.result?.databases *)
  data_buckets     : Slot;
  result_buckets   : Slot;
  json             : string   (* JSON.stringify(response) *)
}.

Inductive Body :=
| BNotObject                  (* falsy, or typeof response !== "object" *)
| BArray (items : list Item)
| BObject (o : Envelope).

Definition slotTruthy (a : Slot) : bool :=
  match a with
  | SFalsy => false
  | SString s => negb (s =? "")%string
  | SValue | SArray _ => true
  end.

(** [a || b] on slots. *)
Definition slotOr (a b : Slot) : Slot :=
  if slotTruthy a then a else b.

(** The error the engine throws on [null.<property>]. *)
Definition nullRead (property : string) : Error :=
  newError ("Cannot read properties of null (reading '" ++ property ++ "')").

(** The error the engine throws on calling [find] of a non-array. *)
Definition notAFunction (what : string) : Error :=
  newError (what ++ " is not a function").

(** *** Common error handling *)

Definition handleDatabaseError (error : Error) (operation : string) : Error :=
  let status := match response error with Some r => Js.status r | None => None end in
  let responseData := match response error with Some r => data r | None => None end in
  let rawStatusText :=
    match response error with Some r => Js.statusText r | None => None end in
  let originalMessage :=
    Js.or (Js.or (match responseData with Some d => data_message d | None => None end)
                 (match responseData with Some d => data_error d | None => None end))
          rawStatusText in
  let statusText := orEmpty rawStatusText in
  let formatError (userMessage : string) : string :=
    let parts := ["HTTP " ++ interpNum status; userMessage] in
    let parts :=
      if truthy originalMessage
         && negb (interp originalMessage =? statusText)%string
      then app parts [("Server message: " ++ interp originalMessage)%string]
      else parts in
    join " - " parts in
  let codeIs (c : string) : bool :=
    match code error with Some c' => (c' =? c)%string | None => false end in
  let default :=
    if codeIs "ECONNREFUSED" then
      newError "Connection refused: Check if InfluxDB is running and URL is correct"
    else if codeIs "ENOTFOUND" then
      newError "Host not found: Check your InfluxDB URL"
    else match responseData with
         | Some d =>
             let text :=
               if truthy originalMessage then interp originalMessage
               else data_json d in
             newError ("HTTP " ++ interpNum status ++ " - InfluxDB API error: " ++ text)
         | None =>
             newError ("Failed to " ++ operation ++ ": " ++ interp (Js.message error))
         end in
  match status with
  | Some 400 => newError (formatError "Bad Request: Invalid request parameters or malformed request")
  | Some 401 => newError (formatError "Unauthorized: Check your InfluxDB token permissions")
  | Some 403 => newError (formatError "Forbidden: Token does not have sufficient permissions for this operation")
  | Some 404 => newError (formatError "Not Found: Resource does not exist or endpoint not available")
  | Some 409 => newError (formatError "Conflict: Resource already exists or operation conflicts with current state")
  | Some 500 => newError (formatError "Internal Server Error: InfluxDB server encountered an error")
  | _ => default
  end.

(** *** Pure parts of the product strategies *)

(** [/api/v0/accounts/{account_id}/clusters/{cluster_id}/databases]. *)
Definition clusterDatabasesEndpoint (influx : InfluxConfig) : string :=
  "/api/v0/accounts/" ++ interp (account_id influx)
  ++ "/clusters/" ++ interp (cluster_id influx) ++ "/databases".

(** The [databases.map] of [listDatabasesCloudDedicated]. *)
Definition dedicatedItem (item : Item) : DatabaseInfo :=
  match item with
  | IString s => named s
  | IObject o =>
      if truthy (e_name o) then
        {| name := interp (e_name o);
           maxTables := e_maxTables o;
           maxColumnsPerTable := e_maxColumnsPerTable o;
           retentionPeriod := e_retentionPeriod o;
           bucketId := None; organizationId := None; storageType := None;
           createdAt := None; updatedAt := None; description := None;
           retentionPolicy := None |}
      else named "[object Object]"
  | INull => named "null"
  | IOther shown => named shown
  end.

(** The [databases.map] of [listDatabasesCoreEnterprise]. *)
Definition coreItem (item : Item) : DatabaseInfo :=
  match item with
  | IString s => named s
  | IObject o =>
      if truthy (e_iox_database o) then named (interp (e_iox_database o))
      else if truthy (e_name o) then named (interp (e_name o))
      else named "[object Object]"
  | INull => named "null"
  | IOther shown => named shown
  end.

(** [bucket.type], as read by the filter of the bucket list. *)
Definition itemType (bucket : Item) : Outcome (option string) :=
  match bucket with
  | INull => Throw (nullRead "type")
  | IObject o => Ok (e_type o)
  | IString _ | IOther _ => Ok None
  end.

(** [value !== "system"]. *)
Definition notSystem (t : option string) : bool :=
  match t with
  | Some s => negb (s =? "system")%string
  | None => true
  end.

(** [buckets.filter((bucket) => bucket.type !== "system")]. *)
Fixpoint filterBuckets (buckets : list Item) : Outcome (list Item) :=
  match buckets with
  | [] => Ok []
  | bucket :: rest =>
      match itemType bucket with
      | Throw e => Throw e
      | Ok t =>
          match filterBuckets rest with
          | Throw e => Throw e
          | Ok kept => Ok (if notSystem t then bucket :: kept else kept)
          end
      end
  end.

(** [bucket.retentionRules?.[0]?.everySeconds]. *)
Definition firstEverySeconds (o : Entry) : option Z :=
  match e_retentionRules o with
  | Some (rule :: _) => everySeconds rule
  | _ => None
  end.

(** [x ? x * 1000000000 : undefined]. *)
Definition secondsToNanoseconds (seconds : option Z) : option Z :=
  match seconds with
  | Some s => if truthyNum seconds then Some (multiply s 1000000000) else None
  | None => None
  end.

(** [if (x) target = x]. *)
Definition whenTruthy (x : option string) : option string :=
  if truthy x then x else None.

(** The [.map] of [listDatabasesCloudServerless]. *)
Definition bucketItem (bucket : Item) : DatabaseInfo :=
  match bucket with
  | IString s => named s
  | IObject o =>
      if truthy (e_name o) then
        {| name := interp (e_name o);
           maxTables := None;
           maxColumnsPerTable := None;
           retentionPeriod := secondsToNanoseconds (firstEverySeconds o);
           bucketId := whenTruthy (e_id o);
           organizationId := whenTruthy (e_orgID o);
           storageType := whenTruthy (e_storageType o);
           createdAt := whenTruthy (e_createdAt o);
           updatedAt := whenTruthy (e_updatedAt o);
           description := whenTruthy (e_description o);
           retentionPolicy := whenTruthy (e_rp o) |}
      else named "[object Object]"
  | INull => named "null"
  | IOther shown => named shown
  end.

(** The payload of [createDatabaseCloudDedicated]. *)
Definition dedicatedCreatePayload (name : string) (config : option DatabaseConfig)
  : Payload :=
  let field (get : DatabaseConfig -> option Z) :=
    match config with Some c => get c | None => None end in
  DedicatedCreate name
    (match field cfg_maxTables with Some v => v | None => 500 end)
    (match field cfg_maxColumnsPerTable with Some v => v | None => 200 end)
    (match field cfg_retentionPeriod with Some v => v | None => 0 end).

(** [Math.floor(ns / 1000000000)]. *)
Definition nanosecondsToSeconds (ns : Z) : Z := floorDivide ns 1000000000.

(** [config?.retentionPeriod ? Math.floor(config.retentionPeriod / 1e9) : 2592000]. *)
Definition createEverySeconds (config : option DatabaseConfig) : Z :=
  match config with
  | Some c =>
      match cfg_retentionPeriod c with
      | Some ns => if truthyNum (Some ns) then nanosecondsToSeconds ns else 2592000
      | None => 2592000
      end
  | None => 2592000
  end.

Definition expire (seconds : Z) : RetentionRule :=
  {| rule_type := Some "expire"; everySeconds := Some seconds |}.

(** The payload of [createDatabaseCloudServerless]. *)
Definition bucketCreatePayload (name : string) (orgID : option string)
           (config : option DatabaseConfig) : Payload :=
  BucketCreate name orgID [expire (createEverySeconds config)]
    (match config with
     | Some c => whenTruthy (cfg_description c)
     | None => None
     end).

(** [buckets.find((b) => b.name === name && b.type !== "system")]. *)
Fixpoint findBucket (name : string) (buckets : list Item) : Outcome (option Entry) :=
  match buckets with
  | [] => Ok None
  | INull :: _ => Throw (nullRead "name")
  | IObject o :: rest =>
      if match e_name o with Some n => (n =? name)%string | None => false end
         && notSystem (e_type o)
      then Ok (Some o)
      else findBucket name rest
  | (IString _ | IOther _) :: rest => findBucket name rest
  end.

(** [bucketsResponse?.buckets] followed by [find]: the bucket of that name,
    if there is one. *)
Definition lookupBucket (name : string) (bucketsResponse : Body)
  : Outcome (option Entry) :=
  match bucketsResponse with
  | BObject o =>
      match buckets o with
      | SArray items => findBucket name items
      | other =>
          if slotTruthy other
          then Throw (notAFunction "bucketsResponse.buckets.find")
          else Ok None
      end
  | BNotObject | BArray _ => Ok None
  end.

(** The payload of [updateDatabaseCloudServerless]. *)
Definition bucketUpdatePayload (bucket : Entry) (config : DatabaseConfig) : Payload :=
  let newName :=
    if truthy (cfg_name config)
       && negb (match e_name bucket with
                | Some n => (interp (cfg_name config) =? n)%string
                | None => false
                end)
    then cfg_name config else None in
  let rules :=
    match cfg_retentionPeriod config with
    | Some ns => [expire (nanosecondsToSeconds ns)]
    | None =>
        match e_retentionRules bucket with
        | Some rules => rules
        | None => [expire 2592000]
        end
    end in
  let rules := match rules with [] => [expire 2592000] | _ => rules end in
  BucketUpdate newName (cfg_description config) rules.

(** *** The service *)

Section Service.
(** The network: the HTTP library, acting on the state [W] of the
    backends.  [baseService] is the connection service the database
    service is constructed with. *)
Context {W : Type}.
Variable axios : Request Payload -> Async W Body.
Variable baseService : BaseConnectionService.

(** List databases for cloud-dedicated. *)
Definition listDatabasesCloudDedicated : Async W (list DatabaseInfo) :=
  tryCatch
    (let httpClient := getInfluxHttpClient (config baseService) true in
     let endpoint := clusterDatabasesEndpoint (config baseService) in
     await response <- HttpClient.get axios httpClient endpoint None;
     match response with
     | BNotObject =>
         throw (newError "Invalid response format from InfluxDB Cloud API")
     | BArray items => ret (map dedicatedItem items)
     | BObject o =>
         match databases o with
         | SArray items => ret (map dedicatedItem items)
         | _ =>
             let possibleDatabases :=
               slotOr (slotOr (data_databases o) (result_databases o))
                      (databases o) in
             match possibleDatabases with
             | SArray items => ret (map dedicatedItem items)
             | _ => throw (newError ("Unexpected response structure: " ++ json o))
             end
         end
     end)
    (fun error => throw (handleDatabaseError error "list databases")).

(** Create database for cloud-dedicated. *)
Definition createDatabaseCloudDedicated (name : string)
           (config : option DatabaseConfig) : Async W bool :=
  tryCatch
    (let httpClient := getInfluxHttpClient (BaseConnection.config baseService) true in
     let endpoint := clusterDatabasesEndpoint (BaseConnection.config baseService) in
     let payload := dedicatedCreatePayload name config in
     run HttpClient.post axios httpClient endpoint (Some payload) None;
     ret true)
    (fun error =>
       throw (handleDatabaseError error ("create database '" ++ name ++ "'"))).

(** Update database configuration for cloud-dedicated. *)
Definition updateDatabaseCloudDedicated (name : string)
           (config : DatabaseConfig) : Async W bool :=
  tryCatch
    (let httpClient := getInfluxHttpClient (BaseConnection.config baseService) true in
     let endpoint :=
       clusterDatabasesEndpoint (BaseConnection.config baseService)
       ++ "/" ++ encodeURIComponent name in
     match cfg_maxTables config, cfg_maxColumnsPerTable config,
           cfg_retentionPeriod config with
     | None, None, None =>
         throw (newError "No configuration parameters provided for update")
     | t, c, r =>
         run HttpClient.patch axios httpClient endpoint
               (Some (DedicatedUpdate t c r)) None;
         ret true
     end)
    (fun error =>
       throw (handleDatabaseError error ("update database '" ++ name ++ "'"))).

(** Delete database for cloud-dedicated. *)
Definition deleteDatabaseCloudDedicated (name : string) : Async W bool :=
  tryCatch
    (let httpClient := getInfluxHttpClient (config baseService) true in
     let endpoint :=
       clusterDatabasesEndpoint (config baseService)
       ++ "/" ++ encodeURIComponent name in
     run HttpClient.delete axios httpClient endpoint None;
     ret true)
    (fun error =>
       throw (handleDatabaseError error ("delete database '" ++ name ++ "'"))).

(** List databases for core/enterprise. *)
Definition listDatabasesCoreEnterprise : Async W (list DatabaseInfo) :=
  tryCatch
    (let httpClient := getInfluxHttpClient (config baseService) false in
     await response <-
       HttpClient.get axios httpClient "/api/v3/configure/database?format=json" None;
     match response with
     | BNotObject => throw (newError "Invalid response format from InfluxDB API")
     | BArray items => ret (map coreItem items)
     | BObject o =>
         match databases o with
         | SArray items => ret (map coreItem items)
         | _ =>
             let possibleDatabases :=
               slotOr (slotOr (data_databases o) (result_databases o))
                      (databases o) in
             match possibleDatabases with
             | SArray items => ret (map coreItem items)
             | _ => throw (newError ("Unexpected response structure: " ++ json o))
             end
         end
     end)
    (fun error => throw (handleDatabaseError error "list databases")).

(** Create database for core/enterprise. *)
Definition createDatabaseCoreEnterprise (name : string) : Async W bool :=
  tryCatch
    (let httpClient := getInfluxHttpClient (config baseService) false in
     run HttpClient.post axios httpClient "/api/v3/configure/database"
           (Some (CoreCreate name)) None;
     ret true)
    (fun error =>
       throw (handleDatabaseError error ("create database '" ++ name ++ "'"))).

(** Delete database for core/enterprise. *)
Definition deleteDatabaseCoreEnterprise (name : string) : Async W bool :=
  tryCatch
    (let httpClient := getInfluxHttpClient (config baseService) false in
     run HttpClient.delete axios httpClient
           ("/api/v3/configure/database?db=" ++ encodeURIComponent name) None;
     ret true)
    (fun error =>
       throw (handleDatabaseError error ("delete database '" ++ name ++ "'"))).

(** The canonical databases of an array of buckets. *)
Definition bucketsToDatabases (buckets : list Item) : Outcome (list DatabaseInfo) :=
  match filterBuckets buckets with
  | Ok kept => Ok (map bucketItem kept)
  | Throw e => Throw e
  end.

(** List databases for cloud-serverless (buckets of [/api/v2]). *)
Definition listDatabasesCloudServerless : Async W (list DatabaseInfo) :=
  tryCatch
    (let httpClient := getInfluxHttpClient (config baseService) true in
     await response <- HttpClient.get axios httpClient "/api/v2/buckets" None;
     match response with
     | BNotObject =>
         throw (newError "Invalid response format from InfluxDB Cloud Serverless API")
     | BArray items => lift (bucketsToDatabases items)
     | BObject o =>
         match buckets o with
         | SArray items => lift (bucketsToDatabases items)
         | _ =>
             let possibleBuckets :=
               slotOr (slotOr (data_buckets o) (result_buckets o)) (buckets o) in
             match possibleBuckets with
             | SArray items => lift (bucketsToDatabases items)
             | _ => throw (newError ("Unexpected response structure: " ++ json o))
             end
         end
     end)
    (fun error => throw (handleDatabaseError error "list databases (buckets)")).

(** [orgsResponse.orgs[0].id] when [orgs] is there and not empty. *)
Definition firstOrgId (orgsResponse : Body) : Outcome (option string) :=
  let notFound := Throw (newError "Could not find organization ID for bucket creation") in
  match orgsResponse with
  | BObject o =>
      match orgs o with
      | SArray (INull :: _) => Throw (nullRead "id")
      | SArray (IObject org :: _) => Ok (e_id org)
      | SArray ((IString _ | IOther _) :: _) => Ok None
      | SArray [] => notFound
      | SString s => if (s =? "")%string then notFound else Ok None
      | SValue | SFalsy => notFound
      end
  | BNotObject | BArray _ => notFound
  end.

(** Create database for cloud-serverless (create a bucket). *)
Definition createDatabaseCloudServerless (name : string)
           (config : option DatabaseConfig) : Async W bool :=
  tryCatch
    (let httpClient := getInfluxHttpClient (BaseConnection.config baseService) true in
     await orgsResponse <- HttpClient.get axios httpClient "/api/v2/orgs" None;
     await orgID <- lift (firstOrgId orgsResponse);
     let payload := bucketCreatePayload name orgID config in
     run HttpClient.post axios httpClient "/api/v2/buckets" (Some payload) None;
     ret true)
    (fun error =>
       throw (handleDatabaseError error
                ("create database (bucket) '" ++ name ++ "'"))).

(** Delete database for cloud-serverless (delete a bucket). *)
Definition deleteDatabaseCloudServerless (name : string) : Async W bool :=
  tryCatch
    (let httpClient := getInfluxHttpClient (config baseService) true in
     await bucketsResponse <- HttpClient.get axios httpClient "/api/v2/buckets" None;
     await bucket <- lift (lookupBucket name bucketsResponse);
     let bucketID := match bucket with Some b => e_id b | None => None end in
     if negb (truthy bucketID) then
       throw (newError ("Database (bucket) '" ++ name ++ "' not found"))
     else
       run HttpClient.delete axios httpClient
             ("/api/v2/buckets/" ++ interp bucketID) None;
       ret true)
    (fun error =>
       throw (handleDatabaseError error
                ("delete database (bucket) '" ++ name ++ "'"))).

(** Update database (bucket) for cloud-serverless. *)
Definition updateDatabaseCloudServerless (name : string)
           (config : DatabaseConfig) : Async W bool :=
  tryCatch
    (let httpClient := getInfluxHttpClient (BaseConnection.config baseService) true in
     await bucketsResponse <- HttpClient.get axios httpClient "/api/v2/buckets" None;
     await found <- lift (lookupBucket name bucketsResponse);
     match found with
     | None => throw (newError ("Database (bucket) '" ++ name ++ "' not found"))
     | Some bucket =>
         let updatePayload := bucketUpdatePayload bucket config in
         run HttpClient.patch axios httpClient
               ("/api/v2/buckets/" ++ interp (e_id bucket))
               (Some updatePayload) None;
         ret true
     end)
    (fun error =>
       throw (handleDatabaseError error
                ("update database (bucket) '" ++ name ++ "'"))).

(** *** The entry points

    Each [switch] is on an [InfluxProductType]; its [default] case
    (an unsupported product type) has no value to run on. *)

(** List all databases. *)
Definition listDatabases : Async W (list DatabaseInfo) :=
  run lift (validateManagementCapabilities (config baseService));
  let connectionInfo := getConnectionInfo baseService in
  match ci_type connectionInfo with
  | CloudDedicated | Clustered => listDatabasesCloudDedicated
  | CloudServerless => listDatabasesCloudServerless
  | Core | Enterprise => listDatabasesCoreEnterprise
  end.

(** Create a new database. *)
Definition createDatabase (name : string) (config : option DatabaseConfig)
  : Async W bool :=
  if (name =? "")%string then throw (newError "Database name is required")
  else
    run lift (validateManagementCapabilities (BaseConnection.config baseService));
    let connectionInfo := getConnectionInfo baseService in
    match ci_type connectionInfo with
    | CloudDedicated | Clustered => createDatabaseCloudDedicated name config
    | CloudServerless => createDatabaseCloudServerless name config
    | Core | Enterprise => createDatabaseCoreEnterprise name
    end.

(** Update database configuration. *)
Definition updateDatabase (name : string) (config : DatabaseConfig)
  : Async W bool :=
  if (name =? "")%string then throw (newError "Database name is required")
  else
    run lift (validateOperationSupport (BaseConnection.config baseService)
                "update_database" [CloudDedicated; CloudServerless; Clustered]);
    run lift (validateManagementCapabilities (BaseConnection.config baseService));
    let connectionInfo := getConnectionInfo baseService in
    match ci_type connectionInfo with
    | CloudDedicated | Clustered => updateDatabaseCloudDedicated name config
    | CloudServerless => updateDatabaseCloudServerless name config
    | Core | Enterprise =>
        throw (newError "Database update is not supported for core/enterprise InfluxDB")
    end.

(** Delete a database. *)
Definition deleteDatabase (name : string) : Async W bool :=
  if (name =? "")%string then throw (newError "Database name is required")
  else
    run lift (validateManagementCapabilities (config baseService));
    let connectionInfo := getConnectionInfo baseService in
    match ci_type connectionInfo with
    | CloudDedicated | Clustered => deleteDatabaseCloudDedicated name
    | CloudServerless => deleteDatabaseCloudServerless name
    | Core | Enterprise => deleteDatabaseCoreEnterprise name
    end.

End Service.

End DatabaseManagement.

(* ===================================================================== *)
(** ** [serverless-schema-management.service.ts]: the support check *)
(* ===================================================================== *)

Module SchemaManagement.

Import BaseConnection.

Section Support.
(** Modelled from the spec: the string values of the members of
    [InfluxProductType] are declared in the enumeration file, which is not
    among the sources; [typeValue t] is the value that [`${connectionInfo.type}`]
    prints for [t]. *)
Variable typeValue : InfluxProductType -> string.

(** Validate that schema operations are supported (Cloud Serverless only). *)
Definition validateSchemaOperationSupport (service : BaseConnectionService)
  : Outcome unit :=
  let connectionInfo := getConnectionInfo service in
  if negb (InfluxProductType_eqb (ci_type connectionInfo) CloudServerless) then
    Throw (newError
      ("Schema management is only supported for Cloud Serverless. Current type: "
       ++ typeValue (ci_type connectionInfo)))
  else validateManagementCapabilities (config service).
End Support.

End SchemaManagement.

(* ===================================================================== *)
(** ** Vocabulary of the specification *)
(* ===================================================================== *)

Module Spec.

Import HttpClient BaseConnection DatabaseManagement.

(** A configuration field is present when it holds a non-empty value, which
    is how the services test it. *)
Definition present (field : option string) : Prop := truthy field = true.

Definition absent (field : option string) : Prop := truthy field = false.

(** A host is empty or undefined. *)
Definition noHost (host : option string) : Prop := host = None \/ host = Some "".

(** The fields the specification requires for data operations. *)
Definition requiredDataFields (t : InfluxProductType)
  : list (InfluxConfig -> option string) :=
  match t with
  | CloudDedicated => [cluster_id; token]
  | Core | Enterprise | CloudServerless | Clustered => [url; token]
  end.

(** [sub] occurs in [s]. *)
Definition occursIn (sub s : string) : Prop :=
  exists before after, s = before ++ sub ++ after.

(** An operation raised. *)
Definition raises {A} (o : Outcome A) : Prop := exists e, o = Throw e.

Definition raisesWith {A} (o : Outcome A) (text : string) : Prop :=
  o = Throw (newError text).

(** Configurations used as examples. *)
Definition emptyConfig (t : InfluxProductType) : InfluxConfig :=
  {| type := t; url := None; token := None; management_token := None;
     cluster_id := None; account_id := None |}.

(** Clustered, with a management token and nothing else. *)
Definition clusteredTokenOnly : InfluxConfig :=
  {| type := Clustered; url := Some "https://cluster.example.com";
     token := None; management_token := Some "mgmt-token";
     cluster_id := None; account_id := None |}.

(** Clustered, with every field but the management token. *)
Definition clusteredNoToken : InfluxConfig :=
  {| type := Clustered; url := Some "https://cluster.example.com";
     token := Some "db-token"; management_token := None;
     cluster_id := Some "c1"; account_id := Some "a1" |}.

(** Cloud Dedicated, with a url but no cluster id. *)
Definition dedicatedUrlOnly : InfluxConfig :=
  {| type := CloudDedicated; url := Some "http://localhost:8181";
     token := Some "db-token"; management_token := None;
     cluster_id := None; account_id := None |}.

Definition dedicatedAbc123 : InfluxConfig :=
  {| type := CloudDedicated; url := None; token := Some "db-token";
     management_token := None; cluster_id := Some "abc123";
     account_id := None |}.

(** A bucket of type "system". *)
Definition isSystem (bucket : Item) : bool :=
  match bucket with
  | IObject o =>
      match e_type o with
      | Some t => (t =? "system")%string
      | None => false
      end
  | INull | IString _ | IOther _ => false
  end.

(** The requests of the service, as the HTTP library receives them. *)
Definition getRequest (client : HttpClientService) (path : string)
  : Request Payload :=
  {| req_instance := axiosInstance client; req_verb := GET; req_url := path;
     req_data := None; req_config := None |}.

Definition postRequest (client : HttpClientService) (path : string)
           (payload : Payload) : Request Payload :=
  {| req_instance := axiosInstance client; req_verb := POST; req_url := path;
     req_data := Some payload; req_config := None |}.

(** The retention a caller provides, in the optional [config] of a create. *)
Definition provided (config : option DatabaseConfig)
           (field : DatabaseConfig -> option Z) : option Z :=
  match config with
  | Some c => field c
  | None => None
  end.

Definition noConfig : DatabaseConfig :=
  {| cfg_name := None; cfg_description := None; cfg_maxTables := None;
     cfg_maxColumnsPerTable := None; cfg_retentionPeriod := None |}.

Definition withRetention (r : option Z) (c : DatabaseConfig) : DatabaseConfig :=
  {| cfg_name := cfg_name c; cfg_description := cfg_description c;
     cfg_maxTables := cfg_maxTables c;
     cfg_maxColumnsPerTable := cfg_maxColumnsPerTable c;
     cfg_retentionPeriod := r |}.

(** [retentionRules[0].everySeconds] of a create-bucket payload. *)
Definition payloadSeconds (p : Payload) : option Z :=
  match p with
  | BucketCreate _ _ (rule :: _) _ => everySeconds rule
  | _ => None
  end.

(** Canonical nanoseconds to the seconds of the create payload. *)
Definition createdSeconds (ns : Z) : option Z :=
  payloadSeconds
    (bucketCreatePayload "db" (Some "org") (Some (withRetention (Some ns) noConfig))).

(** A JSON object with the given name, type and retention rules only. *)
Definition bucket (name : string) (type : option string)
           (rules : option (list RetentionRule)) : Entry :=
  {| e_name := Some name; e_iox_database := None; e_type := type;
     e_maxTables := None; e_maxColumnsPerTable := None;
     e_retentionPeriod := None; e_retentionRules := rules;
     e_id := None; e_orgID := None; e_storageType := None;
     e_createdAt := None; e_updatedAt := None; e_description := None;
     e_rp := None |}.

(** The canonical retention read back from a bucket whose first retention
    rule has [everySeconds = seconds]. *)
Definition readBack (seconds : option Z) : option Z :=
  retentionPeriod
    (bucketItem
       (IObject (bucket "db" (Some "user")
                   (Some [{| rule_type := Some "expire"; everySeconds := seconds |}])))).

Definition roundTrip (ns : Z) : option Z := readBack (createdSeconds ns).

(** A response [{ buckets: items }]. *)
Definition bucketsEnvelope (items : list Item) : Envelope :=
  {| databases := SFalsy; buckets := SArray items; orgs := SFalsy;
     data_databases := SFalsy; result_databases := SFalsy;
     data_buckets := SFalsy; result_buckets := SFalsy;
     json := "{...}" |}.

(** The two buckets of the specification's example. *)
Definition exampleBuckets : list Item :=
  [IObject (bucket "a" (Some "user") None);
   IObject (bucket "_monitoring" (Some "system") None)].

(** A backend that answers every request with the same body and keeps no
    state. *)
Definition answering (body : Body) : Request Payload -> Async unit Body :=
  fun _ w => (Ok body, w).

(** A transport whose every request fails with the given error. *)
Definition failing (e : Error) : Request Payload -> Async unit Body :=
  fun _ w => (Throw e, w).

Definition serverlessService : BaseConnectionService :=
  BaseConnection.new
    {| type := CloudServerless; url := Some "https://eu-central-1-1.aws.cloud2.influxdata.com";
       token := Some "token"; management_token := None;
       cluster_id := None; account_id := None |} true.

Definition clusteredService : BaseConnectionService :=
  BaseConnection.new
    {| type := Clustered; url := Some "https://cluster.example.com";
       token := Some "db-token"; management_token := Some "mgmt-token";
       cluster_id := Some "c1"; account_id := Some "a1" |} true.

(** The same service under the product type Cloud Dedicated. *)
Definition asDedicated (service : BaseConnectionService) : BaseConnectionService :=
  {| config := withType CloudDedicated (config service);
     client := client service |}.

(** A network that does not look at the base URL of a request: two requests
    that differ only there get the same answer. *)
Definition hostBlind {W} (axios : Request Payload -> Async W Body) : Prop :=
  forall r r' w,
    HttpClient.timeout (req_instance r) = HttpClient.timeout (req_instance r') ->
    headers (req_instance r) = headers (req_instance r') ->
    req_verb r = req_verb r' ->
    req_url r = req_url r' ->
    req_data r = req_data r' ->
    req_config r = req_config r' ->
    axios r w = axios r' w.

(** The value under a key of a dictionary. *)
Fixpoint lookupKey (k : string) (d : Dict) : option string :=
  match d with
  | [] => None
  | (k', v) :: rest => if (k' =? k)%string then Some v else lookupKey k rest
  end.

(** Every character of a string satisfies a test. *)
Fixpoint allChars (p : ascii -> bool) (s : string) : bool :=
  match s with
  | EmptyString => true
  | String c rest => p c && allChars p rest
  end.

(** ASCII white space: tab, line feed, vertical tab, form feed, carriage
    return and space. *)
Definition asciiSpace (c : ascii) : bool :=
  let n := N_of_ascii c in ((9 <=? n) && (n <=? 13) || (n =? 32))%N.

(** A printable ASCII character other than the space. *)
Definition visible (c : ascii) : bool :=
  let n := N_of_ascii c in ((33 <=? n) && (n <=? 126))%N.

(** The authentication scheme of a product type. *)
Definition scheme (t : option InfluxProductType) : string :=
  match t with
  | Some CloudServerless => "Token "
  | _ => "Bearer "
  end.

(** A string ends with a slash. *)
Definition endsWithSlash (s : string) : Prop := exists p, s = (p ++ "/")%string.

(** The same configuration with another database token, or another
    management token. *)
Definition withToken (t : option string) (c : InfluxConfig) : InfluxConfig :=
  {| type := type c; url := url c; token := t;
     management_token := management_token c;
     cluster_id := cluster_id c; account_id := account_id c |}.

Definition withManagementToken (t : option string) (c : InfluxConfig)
  : InfluxConfig :=
  {| type := type c; url := url c; token := token c;
     management_token := t;
     cluster_id := cluster_id c; account_id := account_id c |}.

(** The statuses [handleDatabaseError] has a message of its own for. *)
Definition knownStatus (s : Z) : bool :=
  (s =? 400) || (s =? 401) || (s =? 403) || (s =? 404) || (s =? 409) || (s =? 500).

(** A network that records every request it is sent and answers it by
    [respond]. *)
Definition recording (respond : Request Payload -> Outcome Body)
  : Request Payload -> Async (list (Request Payload)) Body :=
  fun r log => (respond r, app log [r]).

(** A [fetch] that resolves to the same response whatever it is asked. *)
Definition fetching (response : FetchResponse unit)
  : FetchRequest -> Async unit (FetchResponse unit) :=
  fun _ w => (Ok response, w).

Definition coreService : BaseConnectionService :=
  BaseConnection.new
    {| type := Core; url := Some "http://localhost:8181/";
       token := Some "apiv3_token"; management_token := None;
       cluster_id := None; account_id := None |} true.

Definition dedicatedService : BaseConnectionService :=
  BaseConnection.new
    {| type := CloudDedicated; url := None;
       token := Some "db-token"; management_token := Some "mgmt-token";
       cluster_id := Some "c1"; account_id := Some "a1" |} true.

(** Some character of a string satisfies a test. *)
Fixpoint anyChar (p : ascii -> bool) (s : string) : bool :=
  match s with
  | EmptyString => false
  | String c rest => p c || anyChar p rest
  end.

(** A character that [encodeURIComponent] may put out: an unreserved one or
    the percent sign. *)
Definition urlSafe (c : ascii) : bool := unreserved c || (c =? "%")%char.

(** The value of a hexadecimal digit (upper case). *)
Definition hexValue (c : ascii) : N :=
  let n := N_of_ascii c in
  (if n <? 58 then n - 48 else n - 55)%N.

(** The request of a PATCH. *)
Definition patchRequest (client : HttpClientService) (path : string)
           (payload : Payload) : Request Payload :=
  {| req_instance := axiosInstance client; req_verb := PATCH; req_url := path;
     req_data := Some payload; req_config := None |}.

(** A response [{ orgs: items }]. *)
Definition orgsEnvelope (items : list Item) : Envelope :=
  {| databases := SFalsy; buckets := SFalsy; orgs := SArray items;
     data_databases := SFalsy; result_databases := SFalsy;
     data_buckets := SFalsy; result_buckets := SFalsy;
     json := "{...}" |}.


(** An error of the transport with the given message and nothing else. *)
Definition aborted : Error := newError "Request aborted".

(** The error of a request that the backend answered with 404. *)
Definition notFoundResponse : ErrorResponse :=
  {| Js.status := Some 404; Js.statusText := Some "Not Found";
     data := Some {| data_message := Some "bucket not found";
                     data_error := None; data_json := "{...}" |} |}.

Definition notFoundError : Error :=
  {| message := Some "Request failed with status code 404";
     code := Some "ERR_BAD_REQUEST";
     response := Some notFoundResponse |}.

(** On the recording network, a computation sends at most [k] requests, each
    of which satisfies [P]: whatever was recorded before, it only adds to the
    record, at most [k] requests, all in [P]. *)
Definition sends {A} (P : Request Payload -> Prop) (k : nat)
           (p : Async (list (Request Payload)) A) : Prop :=
  forall log,
    exists sent,
      snd (p log) = app log sent /\ (length sent <= k)%nat /\ Forall P sent.

(** The verb of a request is one of those listed. *)
Definition verbIn (verbs : list Verb) (r : Request Payload) : Prop :=
  In (req_verb r) verbs.

(** The largest number of seconds up to which the nanoseconds of every whole
    number of seconds are a double: 2^53 / 5^9 rounded down, some 146
    years. *)
Definition maxExactSeconds : Z := 4611686018.

(** A whole number that a double tells apart from its neighbours
    ([Number.isSafeInteger]). *)
Definition safeInteger (n : Z) : Prop := Z.abs n <= 9007199254740991.

(** The array of buckets that a response holds, at one of the places where
    the listing looks for it: [response.buckets], the response itself when it
    is an array, [response.data.buckets], or [response.result.buckets] when
    [response.data.buckets] is falsy. *)
Definition holdsBuckets (response : Body) (items : list Item) : Prop :=
  match response with
  | BNotObject => False
  | BArray found => found = items
  | BObject env =>
      buckets env = SArray items
      \/ (forall found, buckets env <> SArray found)
         /\ (data_buckets env = SArray items
             \/ slotTruthy (data_buckets env) = false
                /\ result_buckets env = SArray items)
  end.

(** An organization with the given id. *)
Definition organization (id : string) : Entry :=
  {| e_name := Some "org"; e_iox_database := None; e_type := None;
     e_maxTables := None; e_maxColumnsPerTable := None;
     e_retentionPeriod := None; e_retentionRules := None;
     e_id := Some id; e_orgID := None; e_storageType := None;
     e_createdAt := None; e_updatedAt := None; e_description := None;
     e_rp := None |}.

(** The request of a probe of the data host. *)
Definition probeRequest (service : BaseConnectionService) (path : string)
  : FetchRequest :=
  {| fetch_url :=
       stripTrailingSlash (interp (getDataHost (config service))) ++ path;
     fetch_headers := probeHeaders service |}.

(** The answer of a reachable instance: ok, with the given version and build
    headers. *)
Definition pong (version build : option string) : FetchResponse unit :=
  {| resp_ok := true; resp_status := 200; resp_version := version;
     resp_build := build; resp_json := Ok tt |}.

End Spec.

(* ===================================================================== *)
(** ** Properties *)
(* ===================================================================== *)

Import HttpClient BaseConnection DatabaseManagement Spec.

Unset Implicit Arguments.

(** *** Strings *)

Lemma append_assoc (a b c : string) : ((a ++ b) ++ c = a ++ b ++ c)%string.
Proof. induction a as [|ch a IH]; simpl; [reflexivity | now rewrite IH]. Qed.

Lemma append_empty_r (a : string) : (a ++ "" = a)%string.
Proof. induction a as [|ch a IH]; simpl; [reflexivity | now rewrite IH]. Qed.

Lemma occursIn_refl (s : string) : occursIn s s.
Proof. exists "", "". simpl. now rewrite append_empty_r. Qed.

Lemma occursIn_append_l (sub a b : string) : occursIn sub a -> occursIn sub (a ++ b).
Proof.
  intros (p & q & ->). exists p, (q ++ b)%string.
  now rewrite !append_assoc.
Qed.

Lemma occursIn_append_r (sub a b : string) : occursIn sub b -> occursIn sub (a ++ b).
Proof.
  intros (p & q & ->). exists (a ++ p)%string, q.
  now rewrite !append_assoc.
Qed.

(** Every element of a joined list occurs in the result. *)
Lemma occursIn_join (sep x : string) (xs : list string) :
  In x xs -> occursIn x (join sep xs).
Proof.
  induction xs as [|y ys IH]; simpl; [tauto|].
  intros [-> | Hin].
  - destruct ys; [apply occursIn_refl | apply occursIn_append_l, occursIn_refl].
  - destruct ys as [|z zs]; [destruct Hin|].
    apply occursIn_append_r, occursIn_append_r, IH, Hin.
Qed.

Lemma prefix_spec (sub s : string) :
  String.prefix sub s = true <-> exists after, s = (sub ++ after)%string.
Proof.
  revert s. induction sub as [|c sub IH]; intros s; simpl.
  - split; [intros _; now exists s | intros _; now destruct s].
  - destruct s as [|d s].
    + split; [discriminate | intros (after & H); discriminate].
    + simpl. destruct (Ascii.ascii_dec c d) as [->|Hne].
      * split.
        -- intros H. apply IH in H as (after & ->). now exists after.
        -- intros (after & H). injection H as ->. apply IH. now exists after.
      * split; [discriminate | intros (after & H); congruence].
Qed.

(** [includes] decides occurrence. *)
Lemma includes_spec (sub s : string) : includes sub s = true <-> occursIn sub s.
Proof.
  induction s as [|c s IH]; cbn [includes].
  - destruct (String.prefix sub "") eqn:P.
    + split; [intros _ | reflexivity].
      apply prefix_spec in P as (after & H). now exists "", after.
    + split; [discriminate|]. intros (p & q & H).
      destruct p; [|discriminate]. simpl in H.
      assert (String.prefix sub "" = true) by (apply prefix_spec; now exists q).
      congruence.
  - destruct (String.prefix sub (String c s)) eqn:P.
    + split; [intros _ | reflexivity].
      apply prefix_spec in P as (after & H). now exists "", after.
    + rewrite IH. split.
      * intros (p & q & ->). now exists (String c p), q.
      * intros (p & q & H). destruct p as [|d p]; simpl in H.
        -- assert (String.prefix sub (String c s) = true)
             by (apply prefix_spec; now exists q).
           congruence.
        -- injection H as _ ->. now exists p, q.
Qed.

(** *** Product types *)

Lemma InfluxProductType_eqb_spec (a b : InfluxProductType) :
  InfluxProductType_eqb a b = true <-> a = b.
Proof. destruct a, b; simpl; split; intro H; congruence. Qed.

Lemma includesType_spec (ts : list InfluxProductType) (t : InfluxProductType) :
  includesType ts t = true <-> In t ts.
Proof.
  unfold includesType. rewrite existsb_exists. split.
  - intros (x & Hin & Heq). apply InfluxProductType_eqb_spec in Heq. now subst.
  - intros Hin. exists t. split; [assumption|]. now apply InfluxProductType_eqb_spec.
Qed.

(** The two ways the source spells a product name agree. *)
Lemma currentName_supportedName (t : InfluxProductType) :
  currentName t = supportedName t.
Proof. now destruct t. Qed.

(** *** Capabilities and endpoints ([base-connection.service.ts]) *)

Lemma truthy_cases (o : option string) : present o \/ absent o.
Proof. unfold present, absent. destruct (truthy o); auto. Qed.

Lemma absent_not_present (o : option string) : absent o <-> ~ present o.
Proof. unfold present, absent. destruct (truthy o); split; congruence. Qed.

(** What [missingManagementFields] lists. *)
Lemma missingManagementFields_spec (c : InfluxConfig) (f : string) :
  In f (missingManagementFields c) <->
  (f = "cluster_id" /\ absent (cluster_id c))
  \/ (f = "account_id" /\ absent (account_id c))
  \/ (f = "management_token" /\ absent (management_token c)).
Proof.
  unfold missingManagementFields, absent.
  destruct (truthy (cluster_id c)), (truthy (account_id c)),
    (truthy (management_token c)); simpl; split; intro H;
    repeat match goal with
      | H : _ \/ _ |- _ => destruct H
      | H : _ /\ _ |- _ => destruct H
      | H : False |- _ => destruct H
      end; subst; try discriminate; auto 6.
Qed.

(** C1, as the code has it: for a Clustered configuration,
    [hasManagementCapabilities] holds exactly when the management token is
    present (cluster id and account id are not looked at);
    [validateManagementCapabilities] returns when it is present and raises
    when it is absent, and the message then names exactly those of
    cluster_id, account_id and management_token that are absent. *)
Theorem clustered_management_capabilities (c : InfluxConfig) :
  type c = Clustered ->
  (hasManagementCapabilities c = true <-> present (management_token c))
  /\ (present (management_token c) -> validateManagementCapabilities c = Ok tt)
  /\ (absent (management_token c) ->
      exists missing,
        raisesWith (validateManagementCapabilities c)
          ("Cloud Dedicated/Clustered management operations require: "
           ++ join ", " missing)
        /\ (forall f, In f missing <->
              (f = "cluster_id" /\ absent (cluster_id c))
              \/ (f = "account_id" /\ absent (account_id c))
              \/ (f = "management_token" /\ absent (management_token c)))).
Proof.
  intros Ht.
  assert (Hhas : hasManagementCapabilities c = truthy (management_token c))
    by (unfold hasManagementCapabilities; now rewrite Ht).
  unfold present, absent. repeat split.
  - now rewrite Hhas.
  - now rewrite Hhas.
  - intros Hp. unfold validateManagementCapabilities. now rewrite Hhas, Hp.
  - intros Ha. exists (missingManagementFields c). split.
    + unfold raisesWith, validateManagementCapabilities.
      now rewrite Hhas, Ha, Ht.
    + apply missingManagementFields_spec.
Qed.

Lemma clustered_management_capabilities_witness :
  (hasManagementCapabilities clusteredNoToken = true
   <-> present (management_token clusteredNoToken))
  /\ (present (management_token clusteredNoToken) ->
      validateManagementCapabilities clusteredNoToken = Ok tt)
  /\ (absent (management_token clusteredNoToken) ->
      exists missing,
        raisesWith (validateManagementCapabilities clusteredNoToken)
          ("Cloud Dedicated/Clustered management operations require: "
           ++ join ", " missing)
        /\ (forall f, In f missing <->
              (f = "cluster_id" /\ absent (cluster_id clusteredNoToken))
              \/ (f = "account_id" /\ absent (account_id clusteredNoToken))
              \/ (f = "management_token"
                  /\ absent (management_token clusteredNoToken)))).
Proof. apply (clustered_management_capabilities clusteredNoToken). reflexivity. Defined.

(** C1 as stated fails: a Clustered configuration with a management token but
    neither cluster id nor account id has management capabilities, and its
    validation does not raise although two of the three fields are absent. *)
Lemma clustered_management_counterexample :
  ~ (forall c, type c = Clustered ->
       (hasManagementCapabilities c = true <->
        present (cluster_id c) /\ present (account_id c)
        /\ present (management_token c)))
  /\ ~ (forall c, type c = Clustered -> absent (cluster_id c) ->
          raises (validateManagementCapabilities c)).
Proof.
  split.
  - intros H. destruct (H clusteredTokenOnly eq_refl) as [H1 _].
    destruct (H1 eq_refl) as [Hc _]. discriminate Hc.
  - intros H. destruct (H clusteredTokenOnly eq_refl eq_refl) as [e He].
    discriminate He.
Qed.

(** C2, as the code has it: for a Cloud Dedicated configuration the management
    host is the fixed console origin whatever the other fields are; with a
    cluster id present the data host is https://{cluster id}.a.influxdb.io;
    with the cluster id absent the data host is the configured url (undefined
    when there is none).  Both hosts are total functions of the configuration:
    nothing is sent and nothing is raised. *)
Theorem dedicated_endpoints (c : InfluxConfig) :
  type c = CloudDedicated ->
  getManagementHost c = Some "https://console.influxdata.com"
  /\ (forall id, cluster_id c = Some id -> id <> "" ->
        getDataHost c = Some ("https://" ++ id ++ ".a.influxdb.io"))
  /\ (absent (cluster_id c) -> getDataHost c = url c).
Proof.
  intros Ht. unfold getManagementHost, getDataHost, absent. rewrite Ht. simpl.
  repeat split.
  - intros id Hid Hne. rewrite Hid. simpl.
    apply String.eqb_neq in Hne. now rewrite Hne.
  - intros Ha. now rewrite Ha.
Qed.

Lemma dedicated_endpoints_witness :
  getManagementHost dedicatedAbc123 = Some "https://console.influxdata.com"
  /\ (forall id, cluster_id dedicatedAbc123 = Some id -> id <> "" ->
        getDataHost dedicatedAbc123 = Some ("https://" ++ id ++ ".a.influxdb.io"))
  /\ (absent (cluster_id dedicatedAbc123) ->
      getDataHost dedicatedAbc123 = url dedicatedAbc123).
Proof. apply (dedicated_endpoints dedicatedAbc123). reflexivity. Defined.

(** C2 as stated fails: a Cloud Dedicated configuration without cluster id
    but with a url resolves its data host to that url, not to an empty or
    undefined host. *)
Lemma dedicated_data_host_counterexample :
  ~ (forall c, type c = CloudDedicated -> absent (cluster_id c) ->
       noHost (getDataHost c)).
Proof.
  intros H. destruct (H dedicatedUrlOnly eq_refl eq_refl) as [E | E];
    discriminate E.
Qed.

(** C3: [hasDataCapabilities] is false exactly when one of the fields required
    for the product type is absent: cluster id and token for Cloud Dedicated,
    url and token for every other type. *)
Theorem data_capabilities_required_fields (c : InfluxConfig) :
  hasDataCapabilities c = false <->
  exists field, In field (requiredDataFields (type c)) /\ absent (field c).
Proof.
  unfold hasDataCapabilities, isValidConfig, absent.
  destruct (type c); simpl;
    rewrite andb_false_iff; split;
    try (intros [H | H]; eexists; (split; [| exact H]); simpl; auto);
    intros (f & [<- | [<- | []]] & H); auto.
Qed.

Lemma Throw_inj {A} {e1 e2 : Error} : @Throw A e1 = Throw e2 -> e1 = e2.
Proof. intros H. now injection H. Qed.

(** The text [validateOperationSupport] raises with. *)
Lemma validateOperationSupport_cases (c : InfluxConfig) (operation : string)
      (supported : list InfluxProductType) :
  (In (type c) supported /\ validateOperationSupport c operation supported = Ok tt)
  \/ (~ In (type c) supported
      /\ raisesWith (validateOperationSupport c operation supported)
           ("Operation '" ++ operation ++ "' is not supported for "
            ++ currentName (type c) ++ ". Supported types: "
            ++ join ", " (map supportedName supported))).
Proof.
  unfold validateOperationSupport, raisesWith.
  destruct (includesType supported (type c)) eqn:E; simpl.
  - left. split; [now apply includesType_spec | reflexivity].
  - right. split; [| reflexivity].
    intros Hin. apply includesType_spec in Hin. congruence.
Qed.

(** C7: [validateOperationSupport] raises exactly when the current product
    type is not in the supported list; the message it raises with contains the
    name of the current type and the name of every supported type; and for
    "update_database", supported on Cloud Dedicated, Cloud Serverless and
    Clustered, a Core configuration gets the message naming Core and those
    three. *)
Theorem operation_support (c : InfluxConfig) (operation : string)
        (supported : list InfluxProductType) :
  (raises (validateOperationSupport c operation supported)
   <-> ~ In (type c) supported)
  /\ (forall e, validateOperationSupport c operation supported = Throw e ->
        exists text,
          e = newError text
          /\ occursIn operation text
          /\ occursIn (supportedName (type c)) text
          /\ (forall t, In t supported -> occursIn (supportedName t) text))
  /\ (type c = Core ->
      raisesWith
        (validateOperationSupport c "update_database"
           [CloudDedicated; CloudServerless; Clustered])
        "Operation 'update_database' is not supported for Core. Supported types: Cloud Dedicated, Cloud Serverless, Clustered").
Proof.
  repeat split.
  - intros [e He].
    destruct (validateOperationSupport_cases c operation supported)
      as [[_ Hok] | [Hnot _]]; [congruence | exact Hnot].
  - intros Hnot.
    destruct (validateOperationSupport_cases c operation supported)
      as [[Hin _] | [_ Hr]]; [contradiction | eexists; exact Hr].
  - intros e He.
    destruct (validateOperationSupport_cases c operation supported)
      as [[_ Hok] | [_ Hr]]; [congruence|].
    rewrite (Throw_inj (eq_trans (eq_sym He) Hr)).
    eexists. split; [reflexivity|]. repeat split.
    + apply occursIn_append_r, occursIn_append_l, occursIn_refl.
    + rewrite <- currentName_supportedName.
      do 3 apply occursIn_append_r. apply occursIn_append_l, occursIn_refl.
    + intros t Hin. do 5 apply occursIn_append_r.
      apply occursIn_join, in_map, Hin.
  - intros Ht. unfold raisesWith, validateOperationSupport. now rewrite Ht.
Qed.

(** *** Transport ([http-client.service.ts]) *)

(** A verb other than delete does what its request does. *)
Lemma get_run {W D T} (axios : Request D -> Async W T)
      (self : HttpClientService) (url : string) (config : option RequestConfig)
      (w : W) :
  HttpClient.get axios self url config w
  = axios {| req_instance := axiosInstance self; req_verb := GET;
             req_url := url; req_data := None; req_config := config |} w.
Proof.
  unfold HttpClient.get, bind, ret.
  now destruct (axios _ w) as [[a|e] w'].
Qed.

Lemma post_run {W D T} (axios : Request D -> Async W T)
      (self : HttpClientService) (url : string) (data : option D)
      (config : option RequestConfig) (w : W) :
  HttpClient.post axios self url data config w
  = axios {| req_instance := axiosInstance self; req_verb := POST;
             req_url := url; req_data := data; req_config := config |} w.
Proof.
  unfold HttpClient.post, bind, ret.
  now destruct (axios _ w) as [[a|e] w'].
Qed.

Lemma patch_run {W D T} (axios : Request D -> Async W T)
      (self : HttpClientService) (url : string) (data : option D)
      (config : option RequestConfig) (w : W) :
  HttpClient.patch axios self url data config w
  = axios {| req_instance := axiosInstance self; req_verb := PATCH;
             req_url := url; req_data := data; req_config := config |} w.
Proof.
  unfold HttpClient.patch, bind, ret.
  now destruct (axios _ w) as [[a|e] w'].
Qed.

(** Unfolding of the control operators at a state. *)
Lemma bind_run {W A B} (p : Async W A) (k : A -> Async W B) (w : W) :
  Js.bind p k w
  = match p w with
    | (Ok a, w') => k a w'
    | (Throw e, w') => (Throw e, w')
    end.
Proof. reflexivity. Qed.

Lemma tryCatch_run {W A} (body : Async W A) (handler : Error -> Async W A) (w : W) :
  tryCatch body handler w
  = match body w with
    | (Ok a, w') => (Ok a, w')
    | (Throw e, w') => handler e w'
    end.
Proof. reflexivity. Qed.

(** A delete whose request resolves hands back the body of the response. *)
Lemma delete_resolved {W D T} (axios : Request D -> Async W T)
      (self : HttpClientService) (url : string) (config : option RequestConfig)
      (w w' : W) (body : T) :
  axios (deleteRequest self url config) w = (Ok body, w') ->
  HttpClient.delete axios self url config w = (Ok (ResponseData body), w').
Proof.
  intros H. unfold HttpClient.delete, tryCatch, bind, ret. now rewrite H.
Qed.

(** What [delete] does with an error of the request. *)
Lemma delete_thrown {W D T} (axios : Request D -> Async W T)
      (self : HttpClientService) (url : string) (config : option RequestConfig)
      (w w' : W) (e : Error) :
  axios (deleteRequest self url config) w = (Throw e, w') ->
  HttpClient.delete axios self url config w =
  (match message e with
   | Some m => if includes "aborted" m then Ok EmptyObject else Throw e
   | None => Throw e
   end, w').
Proof.
  intros H. unfold HttpClient.delete, tryCatch, bind, ret, throw. rewrite H.
  destruct (message e) as [m|]; [destruct (includes "aborted" m) |]; reflexivity.
Qed.

(** C8: when the request of a delete throws an error whose message contains
    "aborted", the call resolves to the empty object; when it throws any other
    error, the call throws that same error. *)
Theorem delete_tolerates_aborted {W D T} (axios : Request D -> Async W T)
        (self : HttpClientService) (url : string) (config : option RequestConfig)
        (w w' : W) (e : Error) :
  axios (deleteRequest self url config) w = (Throw e, w') ->
  ((exists m, message e = Some m /\ occursIn "aborted" m) ->
   HttpClient.delete axios self url config w = (Ok EmptyObject, w'))
  /\ (~ (exists m, message e = Some m /\ occursIn "aborted" m) ->
      HttpClient.delete axios self url config w = (Throw e, w')).
Proof.
  intros H. rewrite (delete_thrown axios self url config w w' e H). split.
  - intros (m & -> & Hocc). apply includes_spec in Hocc. now rewrite Hocc.
  - intros Hnot. destruct (message e) as [m|]; [|reflexivity].
    destruct (includes "aborted" m) eqn:E; [|reflexivity].
    exfalso. apply Hnot. exists m. split; [reflexivity|].
    now apply includes_spec.
Qed.

Lemma delete_tolerates_aborted_witness :
  HttpClient.delete (failing (newError "socket hang up: aborted"))
    (getInfluxHttpClient (config serverlessService) true)
    "/api/v2/buckets/0123" None tt
  = (Ok EmptyObject, tt).
Proof.
  apply (@delete_tolerates_aborted unit Payload Body
           (failing (newError "socket hang up: aborted"))
           (getInfluxHttpClient (config serverlessService) true)
           "/api/v2/buckets/0123" None tt tt
           (newError "socket hang up: aborted") eq_refl).
  exists "socket hang up: aborted". split; [reflexivity|].
  apply includes_spec. reflexivity.
Defined.

(** *** Numbers *)

(** Nothing is rounded when the division is exact. *)
Lemma nearestEven_multiple (n d : Z) :
  0 < d -> n mod d = 0 -> nearestEven n d = n / d.
Proof.
  intros Hd Hr. unfold nearestEven. rewrite Hr. cbn [Z.mul].
  replace (d <? 0) with false by (symmetry; apply Z.ltb_ge; lia).
  replace (0 =? d) with false by (symmetry; apply Z.eqb_neq; lia).
  reflexivity.
Qed.

(** Rounding goes to the quotient or to the next whole number, and up only
    from the half on. *)
Lemma nearestEven_cases (n d : Z) :
  nearestEven n d = n / d
  \/ nearestEven n d = n / d + 1 /\ d <= 2 * (n mod d).
Proof.
  unfold nearestEven.
  destruct (d <? 2 * (n mod d)) eqn:L; cbn [orb].
  - right. apply Z.ltb_lt in L. split; [reflexivity | lia].
  - destruct (2 * (n mod d) =? d) eqn:E; cbn [andb]; [|now left].
    destruct (Z.odd (n / d)); [|now left].
    right. apply Z.eqb_eq in E. split; [reflexivity | lia].
Qed.

(** Above the half, rounding goes up. *)
Lemma nearestEven_up (n d : Z) :
  d < 2 * (n mod d) -> nearestEven n d = n / d + 1.
Proof.
  intros H. unfold nearestEven. apply Z.ltb_lt in H. now rewrite H.
Qed.

(** A whole number with at most 53 significant bits is a double. *)
Lemma toDouble_exact (m k : Z) :
  Z.abs m < 2 ^ 53 -> 0 <= k -> toDouble (m * 2 ^ k) = m * 2 ^ k.
Proof.
  intros Hm Hk. unfold toDouble.
  destruct (Z.log2 (Z.abs (m * 2 ^ k)) - 52 <=? 0) eqn:E; [reflexivity|].
  apply Z.leb_gt in E.
  assert (Hp : 0 < 2 ^ k) by (apply Z.pow_pos_nonneg; lia).
  destruct (Z.eq_dec m 0) as [-> | Hm0].
  { rewrite Z.mul_0_l in E. cbn in E. lia. }
  assert (Habs : Z.abs (m * 2 ^ k) = Z.abs m * 2 ^ k).
  { rewrite Z.abs_mul, (Z.abs_eq (2 ^ k)) by lia. reflexivity. }
  rewrite Habs in *.
  rewrite Z.log2_mul_pow2 in * by lia.
  assert (Hl : Z.log2 (Z.abs m) < 53) by (apply Z.log2_lt_pow2; lia).
  set (e := k + Z.log2 (Z.abs m) - 52) in *.
  assert (He : 0 < e <= k) by lia.
  assert (Hpe : 0 < 2 ^ e) by (apply Z.pow_pos_nonneg; lia).
  assert (Hsplit : 2 ^ k = 2 ^ (k - e) * 2 ^ e).
  { rewrite <- Z.pow_add_r by lia. f_equal. lia. }
  assert (Hmod : (Z.abs m * 2 ^ k) mod 2 ^ e = 0).
  { rewrite Hsplit, Z.mul_assoc. apply Z.mod_mul. lia. }
  rewrite nearestEven_multiple by lia.
  rewrite <- Z.mul_assoc.
  replace (Z.abs m * 2 ^ k / 2 ^ e * 2 ^ e) with (Z.abs m * 2 ^ k)
    by (pose proof (Z.div_mod (Z.abs m * 2 ^ k) (2 ^ e) ltac:(lia)); lia).
  rewrite Z.sgn_mul, (Z.sgn_pos (2 ^ k)) by lia. rewrite Z.mul_1_r.
  rewrite Z.mul_assoc. f_equal. rewrite Z.mul_comm. apply Z.abs_sgn.
Qed.

(** Seconds to nanoseconds: the product is exact up to [maxExactSeconds],
    since [s * 1000000000] is [s * 5^9] shifted by 9 bits. *)
Lemma multiply_exact (s : Z) :
  Z.abs s <= maxExactSeconds -> multiply s 1000000000 = s * 1000000000.
Proof.
  unfold maxExactSeconds. intros Hs. unfold multiply.
  replace (s * 1000000000) with ((s * 1953125) * 2 ^ 9) by (change (2 ^ 9) with 512; lia).
  apply toDouble_exact; [|lia].
  change (2 ^ 53) with 9007199254740992. lia.
Qed.

(** The exponent of a quotient below [2^c] is below [c]. *)
Lemma log2Quotient_lt (a b c : Z) :
  0 < a -> 0 < b -> 0 <= c -> a < b * 2 ^ c -> log2Quotient a b < c.
Proof.
  intros Ha Hb Hc Hlt. unfold log2Quotient.
  set (d := Z.log2 a - Z.log2 b).
  destruct (Z_lt_le_dec d c) as [Hd | Hd].
  - destruct (_ <? _); lia.
  - rewrite (Z.max_l 0 (- d)), (Z.max_r 0 d) by lia.
    assert (H2 : 2 ^ c <= 2 ^ d) by (apply Z.pow_le_mono_r; lia).
    replace (a * 2 ^ 0 <? b * 2 ^ d) with true
      by (symmetry; apply Z.ltb_lt; change (2 ^ 0) with 1; nia).
    assert (Hla : 2 ^ Z.log2 a <= a) by (apply Z.log2_spec; lia).
    assert (Hlb : b < 2 ^ (Z.log2 b + 1)).
    { replace (Z.log2 b + 1) with (Z.succ (Z.log2 b)) by lia.
      apply Z.log2_spec; lia. }
    assert (Hpc : 0 < 2 ^ c) by (apply Z.pow_pos_nonneg; lia).
    assert (H3 : 2 ^ Z.log2 a < 2 ^ (Z.log2 b + 1 + c)).
    { rewrite Z.pow_add_r by (pose proof (Z.log2_nonneg b); lia). nia. }
    apply Z.pow_lt_mono_r_iff in H3; [|lia|pose proof (Z.log2_nonneg b); lia].
    unfold d in *. lia.
Qed.

(** The heart of [floorDivide]: with at least 29 binary places kept after the
    point, rounding the quotient by 1000000000 does not reach the next whole
    number. *)
Lemma nearest_floor (A P : Z) :
  0 <= A -> 536870912 <= P ->
  nearestEven (A * P) 1000000000 / P = A / 1000000000
  /\ (- nearestEven (A * P) 1000000000) / P = (- A) / 1000000000.
Proof.
  intros HA HP.
  pose proof (Z.div_mod A 1000000000 ltac:(lia)) as HAd.
  pose proof (Z.mod_pos_bound A 1000000000 ltac:(lia)) as HAr.
  pose proof (Z.div_mod (A * P) 1000000000 ltac:(lia)) as HXd.
  pose proof (Z.mod_pos_bound (A * P) 1000000000 ltac:(lia)) as HXr.
  set (n := A / 1000000000) in *. set (r := A mod 1000000000) in *.
  set (m := A * P / 1000000000) in *. set (r2 := (A * P) mod 1000000000) in *.
  assert (HX : A * P = 1000000000 * (n * P) + r * P) by (rewrite HAd; ring).
  assert (HrP : 0 <= r * P <= 999999999 * P) by nia.
  assert (HrP1 : 1 <= r -> P <= r * P) by nia.
  assert (HrP0 : r = 0 -> r * P = 0) by (intros ->; ring).
  assert (Hneg : (- A) / 1000000000 = if r =? 0 then - n else - (n + 1)).
  { destruct (r =? 0) eqn:E.
    - apply Z.eqb_eq in E. symmetry.
      apply (Z.div_unique (- A) 1000000000 (- n) 0); lia.
    - apply Z.eqb_neq in E. symmetry.
      apply (Z.div_unique (- A) 1000000000 (- (n + 1)) (1000000000 - r)); lia. }
  rewrite Hneg.
  destruct (nearestEven_cases (A * P) 1000000000) as [Hne | [Hne Hup]];
    rewrite Hne; fold m; fold m in Hne; try fold r2 in Hup.
  - split.
    + symmetry. apply (Z.div_unique m P n (m - n * P)); lia.
    + destruct (r =? 0) eqn:E.
      * apply Z.eqb_eq in E. symmetry.
        apply (Z.div_unique (- m) P (- n) 0); lia.
      * apply Z.eqb_neq in E.
        assert (Hm : m <> n * P).
        { intros Hm.
          assert (Hnear : nearestEven (A * P) 1000000000 = m + 1).
          { apply nearestEven_up. fold r2. lia. }
          lia. }
        symmetry.
        apply (Z.div_unique (- m) P (- (n + 1)) ((n + 1) * P - m)); lia.
  - split.
    + symmetry. apply (Z.div_unique (m + 1) P n (m + 1 - n * P)); lia.
    + destruct (r =? 0) eqn:E.
      * apply Z.eqb_eq in E. lia.
      * apply Z.eqb_neq in E. symmetry.
        apply (Z.div_unique (- (m + 1)) P (- (n + 1)) ((n + 1) * P - (m + 1))); lia.
Qed.

(** Nanoseconds to seconds: on every whole number below 2^53 in magnitude,
    [Math.floor(a / 1000000000)] is the floored division. *)
Lemma floorDivide_exact (a : Z) :
  Z.abs a < 2 ^ 53 -> floorDivide a 1000000000 = a / 1000000000.
Proof.
  intros Ha. unfold floorDivide.
  destruct (a =? 0) eqn:E; [apply Z.eqb_eq in E; now subst|].
  apply Z.eqb_neq in E.
  assert (Hl : log2Quotient (Z.abs a) 1000000000 < 24).
  { apply log2Quotient_lt; lia. }
  set (e := log2Quotient (Z.abs a) 1000000000 - 52) in *.
  rewrite (Z.max_l 0 e), (Z.max_r 0 (- e)) by lia.
  change (2 ^ 0) with 1. rewrite !Z.mul_1_r.
  assert (HP : 536870912 <= 2 ^ (- e)).
  { change 536870912 with (2 ^ 29). apply Z.pow_le_mono_r; lia. }
  destruct (nearest_floor (Z.abs a) (2 ^ (- e)) ltac:(lia) HP) as [Hpos Hneg].
  destruct (Z.lt_total a 0) as [Hs | [Hs | Hs]]; [| lia |].
  - rewrite Z.sgn_neg by lia.
    replace (-1 * nearestEven (Z.abs a * 2 ^ (- e)) 1000000000)
      with (- nearestEven (Z.abs a * 2 ^ (- e)) 1000000000) by lia.
    rewrite Hneg. f_equal. lia.
  - rewrite Z.sgn_pos by lia. rewrite Z.mul_1_l, Hpos. f_equal. lia.
Qed.

(** A whole number of seconds below 2^53 is recovered from its
    nanoseconds. *)
Lemma floorDivide_multiple (k : Z) :
  Z.abs k < 2 ^ 53 -> floorDivide (k * 1000000000) 1000000000 = k.
Proof.
  intros Hk. unfold floorDivide.
  destruct (k * 1000000000 =? 0) eqn:E; [apply Z.eqb_eq in E; lia|].
  apply Z.eqb_neq in E.
  assert (Habs : Z.abs (k * 1000000000) = Z.abs k * 1000000000) by lia.
  rewrite Habs.
  assert (Hl : log2Quotient (Z.abs k * 1000000000) 1000000000 < 53).
  { apply log2Quotient_lt; lia. }
  set (e := log2Quotient (Z.abs k * 1000000000) 1000000000 - 52) in *.
  rewrite (Z.max_l 0 e), (Z.max_r 0 (- e)) by lia.
  change (2 ^ 0) with 1. rewrite !Z.mul_1_r.
  assert (HP : 0 < 2 ^ (- e)) by (apply Z.pow_pos_nonneg; lia).
  rewrite nearestEven_multiple; [|lia|].
  - replace (Z.abs k * 1000000000 * 2 ^ (- e))
      with (Z.abs k * 2 ^ (- e) * 1000000000) by ring.
    rewrite Z.div_mul by lia.
    rewrite Z.mul_assoc, Z.div_mul by lia.
    rewrite Z.sgn_mul, (Z.sgn_pos 1000000000) by lia. rewrite Z.mul_1_r.
    rewrite Z.mul_comm. apply Z.abs_sgn.
  - replace (Z.abs k * 1000000000 * 2 ^ (- e))
      with (Z.abs k * 2 ^ (- e) * 1000000000) by ring.
    apply Z.mod_mul. lia.
Qed.

(** Where the exact arithmetic ends: the first number of seconds whose
    nanoseconds are not a double, and a number of nanoseconds whose quotient
    rounds up to the next whole number of seconds. *)
Lemma multiply_rounds :
  multiply (maxExactSeconds + 1) 1000000000 = 4611686019000000512
  /\ (maxExactSeconds + 1) * 1000000000 = 4611686019000000000.
Proof. split; reflexivity. Qed.

Lemma floorDivide_rounds :
  floorDivide 9223372036999999488 1000000000 = 9223372037
  /\ 9223372036999999488 / 1000000000 = 9223372036.
Proof. split; reflexivity. Qed.

(** *** Databases ([database-management.service.ts]) *)

Lemma notSystem_isSystem (b : Item) (t : option string) :
  itemType b = Ok t -> notSystem t = negb (isSystem b).
Proof.
  destruct b as [|s|o|shown]; simpl; intros H; try discriminate;
    injection H as <-; try reflexivity.
  now destruct (e_type o).
Qed.

(** On an array without null elements the filter of the bucket list does not
    throw, and keeps the buckets that are not of type "system", in order. *)
Lemma filterBuckets_filter (items : list Item) :
  ~ In INull items ->
  filterBuckets items = Ok (filter (fun b => negb (isSystem b)) items).
Proof.
  induction items as [|b rest IH]; simpl; intros Hnull; [reflexivity|].
  rewrite IH by tauto.
  destruct (itemType b) as [t|e] eqn:E.
  - rewrite (notSystem_isSystem b t E). now destruct (isSystem b).
  - destruct b; simpl in E; try discriminate. exfalso. apply Hnull. now left.
Qed.

(** A null element makes the filter throw. *)
Lemma filterBuckets_null (items : list Item) :
  In INull items -> raisesWith (filterBuckets items)
                      "Cannot read properties of null (reading 'type')".
Proof.
  unfold raisesWith.
  induction items as [|b rest IH]; simpl; intros Hin; [destruct Hin|].
  destruct b as [|s|o|shown]; simpl; try reflexivity;
    (destruct Hin as [Heq | Hin]; [discriminate Heq|]); now rewrite IH.
Qed.

(** No bucket of type "system" is left after the filter. *)
Lemma filter_excludes_system (items : list Item) (b : Item) :
  In b (filter (fun b => negb (isSystem b)) items) -> isSystem b = false.
Proof. intros H. apply filter_In in H as [_ H]. now apply negb_true_iff. Qed.

(** The retention of the canonical database of a named bucket. *)
Lemma bucketItem_named (o : Entry) :
  present (e_name o) ->
  name (bucketItem (IObject o)) = interp (e_name o)
  /\ retentionPeriod (bucketItem (IObject o)) =
     match firstEverySeconds o with
     | Some seconds =>
         if seconds =? 0 then None else Some (multiply seconds 1000000000)
     | None => None
     end.
Proof.
  unfold present. intros Hn. cbn -[multiply]. rewrite Hn. cbn -[multiply].
  split; [reflexivity|].
  destruct (firstEverySeconds o) as [s|]; [|reflexivity].
  cbn -[multiply]. now destruct (s =? 0).
Qed.

(** The listing finds the array of buckets that the response holds. *)
Lemma listDatabasesCloudServerless_run {W} (axios : Request Payload -> Async W Body)
      (service : BaseConnectionService) (w w' : W) (response : Body)
      (items : list Item) :
  axios (getRequest (getInfluxHttpClient (config service) true) "/api/v2/buckets") w
  = (Ok response, w') ->
  holdsBuckets response items ->
  listDatabasesCloudServerless axios service w
  = match bucketsToDatabases items with
    | Ok listed => (Ok listed, w')
    | Throw e => (Throw (handleDatabaseError e "list databases (buckets)"), w')
    end.
Proof.
  intros Hget Hholds.
  unfold listDatabasesCloudServerless. cbv zeta.
  rewrite tryCatch_run, bind_run, get_run.
  unfold getRequest in Hget. rewrite Hget.
  destruct response as [| found | env]; cbn [holdsBuckets] in Hholds.
  - destruct Hholds.
  - subst found. unfold lift. now destruct (bucketsToDatabases items).
  - destruct Hholds as [Hb | [Hnot [Hd | [Hd Hr]]]].
    + rewrite Hb. unfold lift. now destruct (bucketsToDatabases items).
    + destruct (buckets env) as [| t | | found];
        [| | | exfalso; now apply (Hnot found)];
        unfold slotOr; rewrite Hd; cbn [slotTruthy];
        unfold lift; now destruct (bucketsToDatabases items).
    + destruct (buckets env) as [| t | | found];
        [| | | exfalso; now apply (Hnot found)];
        unfold slotOr; rewrite Hd, Hr; cbn [slotTruthy];
        unfold lift; now destruct (bucketsToDatabases items).
Qed.

(** C4, as the code has it: when the bucket request resolves to a response
    that holds an array of buckets ([response.buckets], the response itself,
    [data.buckets] or [result.buckets]) with no null among them, the listing
    resolves to the canonical databases of the buckets that are not of type
    "system", in order.  The database of a bucket object with a name carries
    that name; its retentionPeriod is undefined when there is no retention
    rule or [everySeconds] is 0, and otherwise the double product
    [everySeconds * 1000000000], which is the exact product for every whole
    number of seconds up to [maxExactSeconds] (4611686018) in magnitude. *)
Theorem serverless_list {W} (axios : Request Payload -> Async W Body)
        (service : BaseConnectionService) (w w' : W) (response : Body)
        (items : list Item) :
  axios (getRequest (getInfluxHttpClient (config service) true) "/api/v2/buckets") w
  = (Ok response, w') ->
  holdsBuckets response items ->
  ~ In INull items ->
  listDatabasesCloudServerless axios service w
  = (Ok (map bucketItem (filter (fun b => negb (isSystem b)) items)), w')
  /\ (forall b, In b (filter (fun b => negb (isSystem b)) items) ->
        isSystem b = false)
  /\ (forall o, In (IObject o) (filter (fun b => negb (isSystem b)) items) ->
        present (e_name o) ->
        name (bucketItem (IObject o)) = interp (e_name o)
        /\ (forall seconds,
              firstEverySeconds o = Some seconds -> seconds <> 0 ->
              retentionPeriod (bucketItem (IObject o))
              = Some (multiply seconds 1000000000)
              /\ (Z.abs seconds <= maxExactSeconds ->
                  retentionPeriod (bucketItem (IObject o))
                  = Some (seconds * 1000000000)))
        /\ (firstEverySeconds o = None \/ firstEverySeconds o = Some 0 ->
            retentionPeriod (bucketItem (IObject o)) = None)).
Proof.
  intros Hget Hholds Hnull. split; [|split].
  - rewrite (listDatabasesCloudServerless_run axios service w w' response items
               Hget Hholds).
    unfold bucketsToDatabases. now rewrite (filterBuckets_filter _ Hnull).
  - apply filter_excludes_system.
  - intros o _ Hname.
    destruct (bucketItem_named o Hname) as [Hn Hr].
    split; [exact Hn|]. split.
    + intros seconds Hs Hnz. rewrite Hr, Hs.
      destruct (seconds =? 0) eqn:E; [apply Z.eqb_eq in E; contradiction|].
      split; [reflexivity|].
      intros Hbound. now rewrite multiply_exact.
    + intros [Hs | Hs]; rewrite Hr, Hs; reflexivity.
Qed.

Lemma serverless_list_witness :
  listDatabasesCloudServerless
    (answering (BObject (bucketsEnvelope exampleBuckets))) serverlessService tt
  = (Ok [named "a"], tt).
Proof.
  refine (proj1 (@serverless_list unit
                   (answering (BObject (bucketsEnvelope exampleBuckets)))
                   serverlessService tt tt
                   (BObject (bucketsEnvelope exampleBuckets))
                   exampleBuckets eq_refl _ _)).
  - left. reflexivity.
  - intros [H | [H | []]]; discriminate H.
Defined.

(** C4 as stated fails for a retention rule of 0 seconds: the listed database
    has no retentionPeriod, where C4 gives it 0 * 1000000000. *)
Lemma serverless_zero_retention_counterexample :
  exists d,
    listDatabasesCloudServerless
      (answering
         (BObject (bucketsEnvelope
                     [IObject (bucket "a" (Some "user") (Some [expire 0]))])))
      serverlessService tt
    = (Ok [d], tt)
    /\ name d = "a"
    /\ firstEverySeconds (bucket "a" (Some "user") (Some [expire 0])) = Some 0
    /\ retentionPeriod d = None
    /\ retentionPeriod d <> Some (0 * 1000000000).
Proof.
  eexists. split; [reflexivity|]. repeat split. discriminate.
Qed.

(** What [createDatabaseCloudDedicated] does: one POST to the databases of the
    cluster, carrying the payload of the dedicated create. *)
Lemma createDatabaseCloudDedicated_run {W} (axios : Request Payload -> Async W Body)
      (service : BaseConnectionService) (name : string)
      (config : option DatabaseConfig) (w : W) :
  createDatabaseCloudDedicated axios service name config w
  = match axios (postRequest (getInfluxHttpClient (BaseConnection.config service) true)
                   (clusterDatabasesEndpoint (BaseConnection.config service))
                   (dedicatedCreatePayload name config)) w with
    | (Ok _, w') => (Ok true, w')
    | (Throw e, w') =>
        (Throw (handleDatabaseError e ("create database '" ++ name ++ "'")), w')
    end.
Proof.
  unfold createDatabaseCloudDedicated. cbv zeta.
  rewrite tryCatch_run, bind_run, post_run. unfold postRequest.
  now destruct (axios _ w) as [[a|e] w'].
Qed.

(** C5: the payload that [createDatabaseCloudDedicated] posts holds, for each
    of maxTables, maxColumnsPerTable and retentionPeriod, the value of the
    caller when the caller gave one (whatever it is, 0 included) and
    otherwise the default 500, 200 and 0. *)
Theorem dedicated_create_defaults {W} (axios : Request Payload -> Async W Body)
        (service : BaseConnectionService) (name : string)
        (config : option DatabaseConfig) (w : W) :
  exists tables columns retention,
    dedicatedCreatePayload name config
    = DedicatedCreate name tables columns retention
    /\ createDatabaseCloudDedicated axios service name config w
       = match axios (postRequest
                        (getInfluxHttpClient (BaseConnection.config service) true)
                        (clusterDatabasesEndpoint (BaseConnection.config service))
                        (DedicatedCreate name tables columns retention)) w with
         | (Ok _, w') => (Ok true, w')
         | (Throw e, w') =>
             (Throw (handleDatabaseError e ("create database '" ++ name ++ "'")), w')
         end
    /\ (forall v, provided config cfg_maxTables = Some v -> tables = v)
    /\ (provided config cfg_maxTables = None -> tables = 500)
    /\ (forall v, provided config cfg_maxColumnsPerTable = Some v -> columns = v)
    /\ (provided config cfg_maxColumnsPerTable = None -> columns = 200)
    /\ (forall v, provided config cfg_retentionPeriod = Some v -> retention = v)
    /\ (provided config cfg_retentionPeriod = None -> retention = 0).
Proof.
  do 3 eexists. split; [reflexivity|]. split.
  - apply createDatabaseCloudDedicated_run.
  - unfold provided.
    destruct config as [c|]; simpl;
      [destruct (cfg_maxTables c), (cfg_maxColumnsPerTable c),
         (cfg_retentionPeriod c) |];
      repeat split; intros; congruence.
Qed.

(** C6, as the code has it: for every non-zero whole number of seconds [k]
    up to [maxExactSeconds] (4611686018) in magnitude, the create payload of a
    retention of [k * 1000000000] nanoseconds carries [everySeconds = k], a
    bucket with [everySeconds = k] is listed with retention [k * 1000000000],
    and the two compose to the identity.  (Beyond that bound
    [k * 1000000000] is rounded to a double, see [multiply_rounds].) *)
Theorem retention_round_trip (k : Z) :
  k <> 0 ->
  Z.abs k <= maxExactSeconds ->
  createdSeconds (k * 1000000000) = Some k
  /\ readBack (Some k) = Some (k * 1000000000)
  /\ roundTrip (k * 1000000000) = Some (k * 1000000000).
Proof.
  intros Hk Hbound.
  assert (Hc : createdSeconds (k * 1000000000) = Some k).
  { unfold createdSeconds, bucketCreatePayload, createEverySeconds,
      nanosecondsToSeconds, truthyNum.
    cbn -[Z.mul Z.eqb floorDivide].
    destruct (k * 1000000000 =? 0) eqn:E.
    - apply Z.eqb_eq in E. lia.
    - cbn -[Z.mul floorDivide]. rewrite floorDivide_multiple; [reflexivity|].
      unfold maxExactSeconds in Hbound. lia. }
  assert (Hr : readBack (Some k) = Some (k * 1000000000)).
  { unfold readBack. cbn -[Z.mul Z.eqb multiply].
    destruct (k =? 0) eqn:E; [apply Z.eqb_eq in E; lia|].
    now rewrite multiply_exact. }
  repeat split; try assumption.
  unfold roundTrip. now rewrite Hc.
Qed.

Lemma retention_round_trip_witness :
  createdSeconds 86400000000000 = Some 86400
  /\ readBack (Some 86400) = Some 86400000000000
  /\ roundTrip 86400000000000 = Some 86400000000000.
Proof.
  apply (retention_round_trip 86400); [discriminate|].
  unfold maxExactSeconds. simpl. lia.
Defined.

(** C6 as stated fails at 0, which is second-aligned: a retention of 0
    nanoseconds is created as 2592000 seconds and read back as
    2592000000000000 nanoseconds. *)
Lemma retention_round_trip_counterexample :
  ~ (forall ns, ns mod 1000000000 = 0 -> roundTrip ns = Some ns).
Proof. intros H. specialize (H 0 eq_refl). discriminate H. Qed.

(** What [createDatabaseCloudServerless] does once the organization lookup
    has answered with an organization: one POST to the buckets, carrying the
    payload of the bucket create under the id of that organization. *)
Lemma createDatabaseCloudServerless_run {W} (axios : Request Payload -> Async W Body)
      (service : BaseConnectionService) (name : string)
      (config : option DatabaseConfig) (w w1 : W) (env : Envelope)
      (org : Entry) (others : list Item) :
  axios (getRequest (getInfluxHttpClient (BaseConnection.config service) true)
           "/api/v2/orgs") w
  = (Ok (BObject env), w1) ->
  orgs env = SArray (IObject org :: others) ->
  createDatabaseCloudServerless axios service name config w
  = match axios (postRequest
                   (getInfluxHttpClient (BaseConnection.config service) true)
                   "/api/v2/buckets"
                   (bucketCreatePayload name (e_id org) config)) w1 with
    | (Ok _, w2) => (Ok true, w2)
    | (Throw e, w2) =>
        (Throw (handleDatabaseError e
                  ("create database (bucket) '" ++ name ++ "'")), w2)
    end.
Proof.
  intros Hget Horgs.
  unfold createDatabaseCloudServerless. cbv zeta.
  rewrite tryCatch_run, bind_run, get_run.
  unfold getRequest in Hget. rewrite Hget. rewrite bind_run. unfold lift.
  unfold firstOrgId. rewrite Horgs.
  rewrite bind_run, post_run. unfold postRequest.
  now destruct (axios _ w1) as [[b|e] w2].
Qed.

(** C9: a create under Cloud Serverless with a retention of exactly 0 does,
    on every network and from every state, what the same create without
    retention does.  Once the organization lookup has answered with an
    organization, both send one POST to [/api/v2/buckets] whose body holds
    the single retention rule [{type: "expire", everySeconds: 2592000}], the
    30-day default and not 0, and resolve or fail as that request does.  Only
    0 is taken for an omitted retention: any other (safe) whole number of
    nanoseconds is posted as its floored quotient by 1000000000. *)
Theorem zero_retention_is_default {W} (axios : Request Payload -> Async W Body)
        (service : BaseConnectionService) (name : string)
        (config : DatabaseConfig) (w : W) :
  createDatabaseCloudServerless axios service name
    (Some (withRetention (Some 0) config)) w
  = createDatabaseCloudServerless axios service name
      (Some (withRetention None config)) w
  /\ (forall (w1 : W) (env : Envelope) (org : Entry) (others : list Item)
             (retention : option Z),
        axios (getRequest (getInfluxHttpClient (BaseConnection.config service) true)
                 "/api/v2/orgs") w
        = (Ok (BObject env), w1) ->
        orgs env = SArray (IObject org :: others) ->
        retention = Some 0 \/ retention = None ->
        createDatabaseCloudServerless axios service name
          (Some (withRetention retention config)) w
        = match axios (postRequest
                         (getInfluxHttpClient (BaseConnection.config service) true)
                         "/api/v2/buckets"
                         (BucketCreate name (e_id org)
                            [{| rule_type := Some "expire";
                                everySeconds := Some 2592000 |}]
                            (whenTruthy (cfg_description config)))) w1 with
          | (Ok _, w2) => (Ok true, w2)
          | (Throw e, w2) =>
              (Throw (handleDatabaseError e
                        ("create database (bucket) '" ++ name ++ "'")), w2)
          end)
  /\ (forall (w1 : W) (env : Envelope) (org : Entry) (others : list Item)
             (ns : Z),
        axios (getRequest (getInfluxHttpClient (BaseConnection.config service) true)
                 "/api/v2/orgs") w
        = (Ok (BObject env), w1) ->
        orgs env = SArray (IObject org :: others) ->
        ns <> 0 -> safeInteger ns ->
        createDatabaseCloudServerless axios service name
          (Some (withRetention (Some ns) config)) w
        = match axios (postRequest
                         (getInfluxHttpClient (BaseConnection.config service) true)
                         "/api/v2/buckets"
                         (BucketCreate name (e_id org)
                            [{| rule_type := Some "expire";
                                everySeconds := Some (ns / 1000000000) |}]
                            (whenTruthy (cfg_description config)))) w1 with
          | (Ok _, w2) => (Ok true, w2)
          | (Throw e, w2) =>
              (Throw (handleDatabaseError e
                        ("create database (bucket) '" ++ name ++ "'")), w2)
          end).
Proof.
  split; [reflexivity|]. split.
  - intros w1 env org others retention Hget Horgs Hcase.
    rewrite (createDatabaseCloudServerless_run axios service name _ w w1 env org
               others Hget Horgs).
    destruct Hcase as [-> | ->]; reflexivity.
  - intros w1 env org others ns Hget Horgs Hnz Hsafe.
    rewrite (createDatabaseCloudServerless_run axios service name _ w w1 env org
               others Hget Horgs).
    unfold bucketCreatePayload, createEverySeconds, withRetention, expire,
      nanosecondsToSeconds, truthyNum.
    cbn [cfg_retentionPeriod cfg_description].
    destruct (ns =? 0) eqn:E; [apply Z.eqb_eq in E; contradiction|].
    cbn [negb]. rewrite floorDivide_exact; [reflexivity|].
    unfold safeInteger in Hsafe. lia.
Qed.

Lemma zero_retention_is_default_witness :
  createDatabaseCloudServerless
    (recording (fun _ => Ok (BObject (orgsEnvelope [IObject (organization "o1")]))))
    serverlessService "metrics" (Some (withRetention (Some 0) noConfig)) []
  = (Ok true,
     [getRequest (getInfluxHttpClient (config serverlessService) true)
        "/api/v2/orgs";
      postRequest (getInfluxHttpClient (config serverlessService) true)
        "/api/v2/buckets"
        (BucketCreate "metrics" (Some "o1")
           [{| rule_type := Some "expire"; everySeconds := Some 2592000 |}]
           None)]).
Proof.
  refine (proj1 (proj2 (zero_retention_is_default
                   (recording
                      (fun _ => Ok (BObject (orgsEnvelope [IObject (organization "o1")]))))
                   serverlessService "metrics" noConfig []))
            [getRequest (getInfluxHttpClient (config serverlessService) true)
               "/api/v2/orgs"]
            (orgsEnvelope [IObject (organization "o1")])
            (organization "o1") [] (Some 0) eq_refl eq_refl _).
  now left.
Defined.

(** *** Dispatch on the product type *)

Lemma delete_run {W D T} (axios : Request D -> Async W T)
      (self : HttpClientService) (url : string) (config : option RequestConfig)
      (w : W) :
  HttpClient.delete axios self url config w
  = match axios (deleteRequest self url config) w with
    | (Ok body, w') => (Ok (ResponseData body), w')
    | (Throw e, w') =>
        (match message e with
         | Some m => if includes "aborted" m then Ok EmptyObject else Throw e
         | None => Throw e
         end, w')
    end.
Proof.
  destruct (axios (deleteRequest self url config) w) as [[body|e] w'] eqn:E.
  - now apply delete_resolved.
  - now apply delete_thrown.
Qed.

(** Once its validations have passed, every entry point of a Cloud Dedicated or Clustered
    service runs the Cloud Dedicated strategy. *)
Lemma cluster_products_dispatch {W} (axios : Request Payload -> Async W Body)
      (service : BaseConnectionService) (name : string)
      (config : option DatabaseConfig) (update : DatabaseConfig) (w : W) :
  type (BaseConnection.config service) = CloudDedicated
  \/ type (BaseConnection.config service) = Clustered ->
  name <> "" ->
  validateManagementCapabilities (BaseConnection.config service) = Ok tt ->
  listDatabases axios service w = listDatabasesCloudDedicated axios service w
  /\ createDatabase axios service name config w
     = createDatabaseCloudDedicated axios service name config w
  /\ updateDatabase axios service name update w
     = updateDatabaseCloudDedicated axios service name update w
  /\ deleteDatabase axios service name w
     = deleteDatabaseCloudDedicated axios service name w.
Proof.
  intros Ht Hname Hvalid. apply String.eqb_neq in Hname.
  unfold listDatabases, createDatabase, updateDatabase, deleteDatabase.
  rewrite Hname, !bind_run. unfold validateOperationSupport, lift, getConnectionInfo.
  rewrite Hvalid. cbn [ci_type].
  destruct Ht as [-> | ->]; repeat split; reflexivity.
Qed.

(** The management client of a Clustered configuration carries the same
    headers, the authorization among them, and the same timeout as under
    Cloud Dedicated. *)
Lemma cluster_products_client (c : InfluxConfig) :
  type c = Clustered ->
  headers (axiosInstance (getInfluxHttpClient c true))
  = headers (axiosInstance (getInfluxHttpClient (withType CloudDedicated c) true))
  /\ HttpClient.timeout (axiosInstance (getInfluxHttpClient c true))
     = HttpClient.timeout
         (axiosInstance (getInfluxHttpClient (withType CloudDedicated c) true)).
Proof.
  intros Ht. unfold getInfluxHttpClient, createInfluxClient, HttpClient.new.
  cbn [axiosInstance headers HttpClient.timeout type management_token token withType].
  rewrite Ht. cbn [InfluxProductType_eqb andb orb].
  unfold createAuthHeaders.
  split; [|reflexivity].
  now destruct (trimTruthy (orEmpty (management_token c))).
Qed.

(** So a network that does not look at the base URL answers the requests of
    both alike. *)
Lemma cluster_products_request {W} (axios : Request Payload -> Async W Body)
      (c : InfluxConfig) (verb : Verb) (path : string) (data : option Payload)
      (options : option RequestConfig) (w : W) :
  hostBlind axios -> type c = Clustered ->
  axios {| req_instance := axiosInstance (getInfluxHttpClient c true);
           req_verb := verb; req_url := path; req_data := data;
           req_config := options |} w
  = axios {| req_instance :=
               axiosInstance (getInfluxHttpClient (withType CloudDedicated c) true);
             req_verb := verb; req_url := path; req_data := data;
             req_config := options |} w.
Proof.
  intros Hblind Ht. destruct (cluster_products_client c Ht) as [Hh Hto].
  apply Hblind; cbn [req_instance req_verb req_url req_data req_config];
    auto.
Qed.

(** The four Cloud Dedicated strategies of a Clustered service do what they do
    for the same service under Cloud Dedicated, on such a network. *)
Lemma cluster_products_strategies {W} (axios : Request Payload -> Async W Body)
      (service : BaseConnectionService) (name : string)
      (config : option DatabaseConfig) (update : DatabaseConfig) (w : W) :
  hostBlind axios ->
  type (BaseConnection.config service) = Clustered ->
  listDatabasesCloudDedicated axios service w
  = listDatabasesCloudDedicated axios (asDedicated service) w
  /\ createDatabaseCloudDedicated axios service name config w
     = createDatabaseCloudDedicated axios (asDedicated service) name config w
  /\ updateDatabaseCloudDedicated axios service name update w
     = updateDatabaseCloudDedicated axios (asDedicated service) name update w
  /\ deleteDatabaseCloudDedicated axios service name w
     = deleteDatabaseCloudDedicated axios (asDedicated service) name w.
Proof.
  intros Hblind Ht.
  unfold listDatabasesCloudDedicated, createDatabaseCloudDedicated,
    updateDatabaseCloudDedicated, deleteDatabaseCloudDedicated.
  cbv zeta.
  change (BaseConnection.config (asDedicated service))
    with (withType CloudDedicated (BaseConnection.config service)).
  change (clusterDatabasesEndpoint
            (withType CloudDedicated (BaseConnection.config service)))
    with (clusterDatabasesEndpoint (BaseConnection.config service)).
  repeat split.
  - rewrite !tryCatch_run, !bind_run, !get_run.
    now rewrite (cluster_products_request axios _ _ _ _ _ w Hblind Ht).
  - rewrite !tryCatch_run, !bind_run, !post_run.
    now rewrite (cluster_products_request axios _ _ _ _ _ w Hblind Ht).
  - rewrite !tryCatch_run.
    destruct (cfg_maxTables update), (cfg_maxColumnsPerTable update),
      (cfg_retentionPeriod update); try reflexivity;
      rewrite !bind_run, !patch_run;
      now rewrite (cluster_products_request axios _ _ _ _ _ w Hblind Ht).
  - rewrite !tryCatch_run, !bind_run, !delete_run. unfold deleteRequest.
    now rewrite (cluster_products_request axios _ _ _ _ _ w Hblind Ht).
Qed.

(** C10: for list, create, update and delete, a Clustered service whose
    capability validation has passed runs exactly the Cloud Dedicated strategy,
    as the same service under Cloud Dedicated does after its own validation; the
    strategy addresses the same account/cluster endpoint and sends the same
    headers (the management token as bearer) under both types; and on a
    network that does not look at the base URL the strategies, and behind
    their validations the entry points, give the same outcome under both
    types. *)
Theorem clustered_dispatch {W} (axios : Request Payload -> Async W Body)
        (service : BaseConnectionService) (name : string)
        (config : option DatabaseConfig) (update : DatabaseConfig) (w : W) :
  type (BaseConnection.config service) = Clustered ->
  name <> "" ->
  (validateManagementCapabilities (BaseConnection.config service) = Ok tt ->
   listDatabases axios service w = listDatabasesCloudDedicated axios service w
   /\ createDatabase axios service name config w
      = createDatabaseCloudDedicated axios service name config w
   /\ updateDatabase axios service name update w
      = updateDatabaseCloudDedicated axios service name update w
   /\ deleteDatabase axios service name w
      = deleteDatabaseCloudDedicated axios service name w)
  /\ (validateManagementCapabilities (BaseConnection.config (asDedicated service))
      = Ok tt ->
      listDatabases axios (asDedicated service) w
      = listDatabasesCloudDedicated axios (asDedicated service) w
      /\ createDatabase axios (asDedicated service) name config w
         = createDatabaseCloudDedicated axios (asDedicated service) name config w
      /\ updateDatabase axios (asDedicated service) name update w
         = updateDatabaseCloudDedicated axios (asDedicated service) name update w
      /\ deleteDatabase axios (asDedicated service) name w
         = deleteDatabaseCloudDedicated axios (asDedicated service) name w)
  /\ clusterDatabasesEndpoint (BaseConnection.config service)
     = clusterDatabasesEndpoint (BaseConnection.config (asDedicated service))
  /\ headers (axiosInstance
                (getInfluxHttpClient (BaseConnection.config service) true))
     = headers (axiosInstance
                  (getInfluxHttpClient
                     (BaseConnection.config (asDedicated service)) true))
  /\ (hostBlind axios ->
      listDatabasesCloudDedicated axios service w
      = listDatabasesCloudDedicated axios (asDedicated service) w
      /\ createDatabaseCloudDedicated axios service name config w
         = createDatabaseCloudDedicated axios (asDedicated service) name config w
      /\ updateDatabaseCloudDedicated axios service name update w
         = updateDatabaseCloudDedicated axios (asDedicated service) name update w
      /\ deleteDatabaseCloudDedicated axios service name w
         = deleteDatabaseCloudDedicated axios (asDedicated service) name w)
  /\ (hostBlind axios ->
      validateManagementCapabilities (BaseConnection.config service) = Ok tt ->
      validateManagementCapabilities (BaseConnection.config (asDedicated service))
      = Ok tt ->
      listDatabases axios service w = listDatabases axios (asDedicated service) w
      /\ createDatabase axios service name config w
         = createDatabase axios (asDedicated service) name config w
      /\ updateDatabase axios service name update w
         = updateDatabase axios (asDedicated service) name update w
      /\ deleteDatabase axios service name w
         = deleteDatabase axios (asDedicated service) name w).
Proof.
  intros Ht Hname.
  assert (D1 := fun G =>
    cluster_products_dispatch axios service name config update w
      (or_intror Ht) Hname G).
  assert (D2 := fun G =>
    cluster_products_dispatch axios (asDedicated service) name config update w
      (or_introl eq_refl) Hname G).
  assert (S := fun B =>
    cluster_products_strategies axios service name config update w B Ht).
  split; [exact D1|]. split; [exact D2|]. split; [reflexivity|].
  split; [exact (proj1 (cluster_products_client _ Ht))|].
  split; [exact S|].
  intros B G1 G2.
  destruct (D1 G1) as (-> & -> & -> & ->).
  destruct (D2 G2) as (-> & -> & -> & ->).
  exact (S B).
Qed.

Lemma clustered_dispatch_witness :
  (listDatabases (answering BNotObject) clusteredService tt
   = listDatabasesCloudDedicated (answering BNotObject) clusteredService tt
   /\ createDatabase (answering BNotObject) clusteredService "db" None tt
      = createDatabaseCloudDedicated (answering BNotObject) clusteredService "db" None tt
   /\ updateDatabase (answering BNotObject) clusteredService "db"
        (withRetention (Some 86400000000000) noConfig) tt
      = updateDatabaseCloudDedicated (answering BNotObject) clusteredService "db"
          (withRetention (Some 86400000000000) noConfig) tt
   /\ deleteDatabase (answering BNotObject) clusteredService "db" tt
      = deleteDatabaseCloudDedicated (answering BNotObject) clusteredService "db" tt)
  /\ (listDatabases (answering BNotObject) clusteredService tt
      = listDatabases (answering BNotObject) (asDedicated clusteredService) tt
      /\ createDatabase (answering BNotObject) clusteredService "db" None tt
         = createDatabase (answering BNotObject) (asDedicated clusteredService)
             "db" None tt
      /\ updateDatabase (answering BNotObject) clusteredService "db"
           (withRetention (Some 86400000000000) noConfig) tt
         = updateDatabase (answering BNotObject) (asDedicated clusteredService) "db"
             (withRetention (Some 86400000000000) noConfig) tt
      /\ deleteDatabase (answering BNotObject) clusteredService "db" tt
         = deleteDatabase (answering BNotObject) (asDedicated clusteredService)
             "db" tt).
Proof.
  assert (Hname : "db" <> "") by discriminate.
  assert (Hblind : hostBlind (answering BNotObject))
    by (intros r r' w _ _ _ _ _ _; reflexivity).
  pose proof (clustered_dispatch (answering BNotObject) clusteredService "db"
                None (withRetention (Some 86400000000000) noConfig) tt
                eq_refl Hname) as (Hd & _ & _ & _ & _ & Hsame).
  split; [exact (Hd eq_refl) | exact (Hsame Hblind eq_refl eq_refl)].
Defined.

(** What is not the same for the two cluster products lies outside the
    dispatch: the management host of a Clustered configuration is its url, not
    the console, and its capability validation asks for the management token
    only. *)
Lemma cluster_products_differences :
  getManagementHost (config clusteredService) = Some "https://cluster.example.com"
  /\ getManagementHost (config (asDedicated clusteredService))
     = Some "https://console.influxdata.com"
  /\ validateManagementCapabilities clusteredTokenOnly = Ok tt
  /\ raises (validateManagementCapabilities (withType CloudDedicated clusteredTokenOnly)).
Proof. repeat split. eexists. reflexivity. Qed.

(* ===================================================================== *)
(** ** Further properties of the services *)
(* ===================================================================== *)

(** *** Validation and clients ([base-connection.service.ts]) *)

(** X1: [validateManagementCapabilities] returns exactly when
    [hasManagementCapabilities] holds; for no product type does a
    configuration without management capabilities slip through the chain of
    tests. *)
Theorem management_validation_agrees (c : InfluxConfig) :
  validateManagementCapabilities c = Ok tt
  <-> hasManagementCapabilities c = true.
Proof.
  unfold validateManagementCapabilities.
  destruct (hasManagementCapabilities c) eqn:H; simpl; [tauto|].
  unfold hasManagementCapabilities in H.
  destruct (type c); simpl in *; try (split; discriminate);
    destruct (truthy (url c)), (truthy (token c)); simpl in *;
    try discriminate H; split; discriminate.
Qed.

(** X2: [validateDataCapabilities] returns exactly when [hasDataCapabilities]
    holds.  The first missing field decides the message: a Cloud Dedicated
    configuration without cluster id is told about the cluster id whatever its
    token is, and a Clustered configuration without url gets the Core/Enterprise
    wording. *)
Theorem data_validation_agrees (c : InfluxConfig) :
  (validateDataCapabilities c = Ok tt <-> hasDataCapabilities c = true)
  /\ (type c = CloudDedicated -> absent (cluster_id c) ->
      raisesWith (validateDataCapabilities c)
        "Cloud Dedicated data operations require cluster_id in configuration")
  /\ (type c = Clustered -> absent (url c) ->
      raisesWith (validateDataCapabilities c)
        "Core/Enterprise data operations require url in configuration").
Proof.
  unfold validateDataCapabilities, hasDataCapabilities, isValidConfig,
    raisesWith, absent.
  repeat split.
  - destruct (type c); simpl;
      destruct (truthy (url c)), (truthy (cluster_id c)), (truthy (token c));
      simpl; congruence.
  - destruct (type c); simpl;
      destruct (truthy (url c)), (truthy (cluster_id c)), (truthy (token c));
      simpl; congruence.
  - intros -> ->. reflexivity.
  - intros -> ->. reflexivity.
Qed.

(** X3: the data-plane client does not depend on the management token; for
    Cloud Dedicated and Clustered the management client does not depend on the
    database token; and for the other product types the management client is
    the data client. *)
Theorem client_token_separation (c : InfluxConfig) (other : option string) :
  getInfluxHttpClient (withManagementToken other c) false
  = getInfluxHttpClient c false
  /\ (type c = CloudDedicated \/ type c = Clustered ->
      getInfluxHttpClient (withToken other c) true = getInfluxHttpClient c true)
  /\ (type c = Core \/ type c = Enterprise \/ type c = CloudServerless ->
      getInfluxHttpClient c true = getInfluxHttpClient c false).
Proof.
  unfold getInfluxHttpClient, getManagementHost, getDataHost.
  repeat split.
  - intros [H | H]; cbn [type withToken management_token url cluster_id];
      rewrite H; reflexivity.
  - intros [H | [H | H]]; rewrite H; reflexivity.
Qed.

Lemma orEmpty_truthy (o : option string) :
  truthy o = true -> orEmpty o <> "" /\ o = Some (orEmpty o).
Proof.
  unfold orEmpty, Js.or. intros H. rewrite H.
  destruct o as [s|]; [|discriminate]. simpl in *.
  split; [|reflexivity]. intros ->. discriminate.
Qed.

(** X4: a service built by the constructor has a data client only when its
    configuration has data capabilities; its connection info then reports a
    token and a data host that is not empty. *)
Theorem data_client_invariant (c : InfluxConfig) (created : bool) :
  isDataClientInitialized (getConnectionInfo (BaseConnection.new c created)) = true ->
  hasDataCapabilities c = true
  /\ hasToken (getConnectionInfo (BaseConnection.new c created)) = true
  /\ ci_url (getConnectionInfo (BaseConnection.new c created)) <> "".
Proof.
  unfold getConnectionInfo, BaseConnection.new, hasDataCapabilities.
  cbn [isDataClientInitialized hasToken ci_url client config].
  destruct (isValidConfig c) eqn:V; [|discriminate]. intros _.
  split; [reflexivity|].
  unfold isValidConfig in V. unfold getDataHost.
  destruct (type c); simpl in *; apply andb_true_iff in V as [V1 V2];
    (split; [exact V2|]); try rewrite V1; simpl;
    try (apply orEmpty_truthy; exact V1).
  apply orEmpty_truthy. reflexivity.
Qed.

Lemma data_client_invariant_witness :
  hasDataCapabilities (config dedicatedService) = true
  /\ hasToken (getConnectionInfo dedicatedService) = true
  /\ ci_url (getConnectionInfo dedicatedService) <> "".
Proof. apply (data_client_invariant (config dedicatedService) true). reflexivity. Defined.

(** The request of a probe. *)
Lemma ping_run {W J} (fetch : FetchRequest -> Async W (FetchResponse J))
      (service : BaseConnectionService) (w : W) :
  present (getDataHost (config service)) ->
  ping fetch service w
  = match fetch {| fetch_url :=
                     stripTrailingSlash (interp (getDataHost (config service)))
                     ++ "/ping";
                   fetch_headers := probeHeaders service |} w with
    | (Ok response, w') =>
        (Ok (if resp_ok response then
               {| ok := true;
                  version := orUndefined (resp_version response);
                  build :=
                    if negb (truthy (orUndefined (resp_build response))) then
                      if truthy (orUndefined (resp_version response))
                      then Some "Other"
                      else orUndefined (resp_build response)
                    else orUndefined (resp_build response);
                  ping_message := None |}
             else
               {| ok := false; version := None; build := None;
                  ping_message :=
                    Some ("Ping failed with status "
                          ++ showNum (resp_status response)) |}), w')
    | (Throw e, w') =>
        (Ok {| ok := false; version := None; build := None;
               ping_message := message e |}, w')
    end.
Proof.
  unfold present, ping. intros ->. cbn [negb]. cbv zeta.
  rewrite tryCatch_run, bind_run.
  destruct (fetch _ w) as [[response|e] w']; [|reflexivity].
  now destruct (resp_ok response).
Qed.

(** X5: [ping] never rejects, whatever [fetch] does, and without a data host
    it sends nothing: the state of the network is untouched and the answer is
    "No data host configured".  It answers [ok] exactly when the request
    resolved to a response that is ok. *)
Theorem ping_never_rejects {W J} (fetch : FetchRequest -> Async W (FetchResponse J))
        (service : BaseConnectionService) (w : W) :
  exists result w',
    ping fetch service w = (Ok result, w')
    /\ (absent (getDataHost (config service)) ->
        w' = w /\ ok result = false
        /\ ping_message result = Some "No data host configured")
    /\ (ok result = true <->
        present (getDataHost (config service))
        /\ exists response,
             fetch {| fetch_url :=
                        stripTrailingSlash (interp (getDataHost (config service)))
                        ++ "/ping";
                      fetch_headers := probeHeaders service |} w
             = (Ok response, w')
             /\ resp_ok response = true).
Proof.
  destruct (truthy_cases (getDataHost (config service))) as [Hp | Ha].
  - rewrite (ping_run fetch service w Hp).
    destruct (fetch _ w) as [[response|e] w'] eqn:F.
    + do 2 eexists. split; [reflexivity|]. split.
      * intros Ha. unfold present, absent in *. congruence.
      * destruct (resp_ok response) eqn:R; cbn [ok]; split.
        -- intros _. split; [exact Hp|]. now exists response.
        -- reflexivity.
        -- discriminate.
        -- intros (_ & r & E & Hr). congruence.
    + do 2 eexists. split; [reflexivity|]. split.
      * intros Ha. unfold present, absent in *. congruence.
      * cbn [ok]. split; [discriminate|]. intros (_ & r & E & _). discriminate E.
  - unfold ping. cbv zeta. unfold absent in Ha. rewrite Ha. cbn [negb].
    do 2 eexists. split; [reflexivity|]. cbn [ok ping_message]. split.
    + intros _. repeat split.
    + split; [discriminate|]. intros (Hp & _). unfold present in Hp. congruence.
Qed.

(** X6: which version and build [ping] reports.  For an answer that is ok,
    the version is the version header when that is not empty and undefined
    otherwise; the build is the build header when that is not empty, "Other"
    when it is missing or empty and there is a version, and undefined when
    both are missing or empty.  So whenever [ping] reports a version it
    reports a build too, and it never reports an empty version or build. *)
Theorem ping_build_default {W J} (fetch : FetchRequest -> Async W (FetchResponse J))
        (service : BaseConnectionService) (w : W) :
  exists result w',
    ping fetch service w = (Ok result, w')
    /\ (present (version result) -> present (build result))
    /\ version result <> Some ""
    /\ build result <> Some ""
    /\ (forall response,
          present (getDataHost (config service)) ->
          fetch (probeRequest service "/ping") w = (Ok response, w') ->
          resp_ok response = true ->
          ok result = true
          /\ ping_message result = None
          /\ (present (resp_version response) ->
              version result = resp_version response)
          /\ (absent (resp_version response) -> version result = None)
          /\ (present (resp_build response) ->
              build result = resp_build response)
          /\ (absent (resp_build response) ->
              present (resp_version response) -> build result = Some "Other")
          /\ (absent (resp_build response) ->
              absent (resp_version response) -> build result = None)).
Proof.
  destruct (truthy_cases (getDataHost (config service))) as [Hp | Ha].
  - rewrite (ping_run fetch service w Hp).
    unfold probeRequest.
    destruct (fetch _ w) as [[response|e] w0] eqn:F.
    + destruct (resp_ok response) eqn:R.
      * do 2 eexists. split; [reflexivity|]. cbn [version build ok ping_message].
        unfold present, absent, orUndefined.
        split; [|split; [|split]].
        -- destruct (resp_version response) as [v|], (resp_build response) as [b|];
             simpl;
             repeat match goal with
               | |- context [(?s =? "")%string] =>
                   destruct (String.eqb_spec s ""); subst; simpl
               end; congruence.
        -- destruct (resp_version response) as [v|]; simpl;
             [destruct (String.eqb_spec v ""); subst; simpl|]; congruence.
        -- destruct (resp_version response) as [v|], (resp_build response) as [b|];
             simpl;
             repeat match goal with
               | |- context [(?s =? "")%string] =>
                   destruct (String.eqb_spec s ""); subst; simpl
               end; congruence.
        -- intros response' _ E _. injection E as <-.
           split; [reflexivity|]. split; [reflexivity|].
           destruct (truthy (resp_version response)) eqn:V,
                    (truthy (resp_build response)) eqn:B;
             cbn [negb truthy]; rewrite ?V, ?B; cbn [negb truthy];
             repeat split; intros; congruence.
      * do 2 eexists. split; [reflexivity|]. cbn [version build ok ping_message].
        split; [discriminate|]. split; [discriminate|]. split; [discriminate|].
        intros response' _ E R'. injection E as <-. congruence.
    + do 2 eexists. split; [reflexivity|]. cbn [version build ok ping_message].
      split; [discriminate|]. split; [discriminate|]. split; [discriminate|].
      intros response' _ E. discriminate E.
  - unfold ping. cbv zeta. unfold absent in Ha. rewrite Ha. cbn [negb].
    do 2 eexists. split; [reflexivity|]. cbn [version build ok ping_message].
    split; [discriminate|]. split; [discriminate|]. split; [discriminate|].
    intros response' Hp. unfold present in Hp. congruence.
Qed.

Lemma ping_build_default_witness :
  ping (fetching (pong (Some "3.0.1") None)) coreService tt
  = (Ok {| ok := true; version := Some "3.0.1"; build := Some "Other";
           ping_message := None |}, tt).
Proof.
  destruct (ping_build_default (fetching (pong (Some "3.0.1") None)) coreService tt)
    as (result & w' & Hrun & _ & _ & _ & Hexact).
  destruct w'.
  destruct (Hexact (pong (Some "3.0.1") None) eq_refl eq_refl eq_refl)
    as (Hok & Hmessage & Hversion & _ & _ & Hbuild & _).
  rewrite Hrun. destruct result as [o v b m]. cbn in Hok, Hmessage.
  cbn [version] in Hversion. cbn [build] in Hbuild.
  rewrite Hok, Hmessage, (Hversion eq_refl), (Hbuild eq_refl eq_refl).
  reflexivity.
Defined.

(** X7: [getHealthStatus] never rejects.  Without a data host or without a
    data client it answers "fail" and sends nothing.  Otherwise it asks the
    health endpoint once: the parsed body of an ok answer is handed back as
    it is, an ok answer whose body cannot be parsed gives "pass", an answer
    that is not ok gives "fail", and so does a request that throws.  The
    service puts "pass" in the place of a body only in that one case. *)
Theorem health_never_rejects {W J}
        (fetch : FetchRequest -> Async W (FetchResponse J))
        (service : BaseConnectionService) (w : W) :
  exists health w',
    getHealthStatus fetch service w = (Ok health, w')
    /\ (absent (getDataHost (config service)) \/ client service = false ->
        w' = w /\ health = Status "fail")
    /\ (present (getDataHost (config service)) -> client service = true ->
        exists answer,
          fetch (probeRequest service "/health") w = (answer, w')
          /\ (forall response body,
                answer = Ok response -> resp_ok response = true ->
                resp_json response = Ok body -> health = HealthData body)
          /\ (forall response,
                answer = Ok response -> resp_ok response = true ->
                raises (resp_json response) -> health = Status "pass")
          /\ (forall response,
                answer = Ok response -> resp_ok response = false ->
                health = Status "fail")
          /\ (forall e, answer = Throw e -> health = Status "fail"))
    /\ (forall body,
          health = HealthData body \/ (health = Status "pass") ->
          exists response,
            fetch (probeRequest service "/health") w = (Ok response, w')
            /\ resp_ok response = true
            /\ (health = HealthData body -> resp_json response = Ok body)
            /\ (health = Status "pass" -> raises (resp_json response))).
Proof.
  unfold getHealthStatus, probeRequest. cbv zeta.
  destruct (truthy (getDataHost (config service))) eqn:Hh; cbn [negb orb];
    [destruct (client service) eqn:Hc; cbn [negb] |].
  - rewrite tryCatch_run, bind_run.
    destruct (fetch _ w) as [[response|e] w'] eqn:F.
    + destruct (resp_ok response) eqn:R;
        [destruct (resp_json response) as [j|e] eqn:Jn |];
        do 2 eexists; (split; [reflexivity|]);
        (split; [intros [Ha | Ha]; unfold absent in Ha; congruence|]); split.
      * intros _ _. eexists. split; [reflexivity|].
        split; [|split; [|split]].
        -- intros r body E _ Hj. injection E as <-. congruence.
        -- intros r E _ [e He]. injection E as <-. congruence.
        -- intros r E Hr. injection E as <-. congruence.
        -- intros e E. discriminate E.
      * intros body [E | E]; [|discriminate E]. injection E as <-.
        exists response. repeat split; try assumption;
          [intros _; assumption | discriminate].
      * intros _ _. eexists. split; [reflexivity|].
        split; [|split; [|split]].
        -- intros r body E _ Hj. injection E as <-. congruence.
        -- intros r E _ _. reflexivity.
        -- intros r E Hr. injection E as <-. congruence.
        -- intros e0 E. discriminate E.
      * intros body [E | E]; [discriminate E|].
        exists response. repeat split; try assumption; try discriminate.
        intros _. now exists e.
      * intros _ _. eexists. split; [reflexivity|].
        split; [|split; [|split]].
        -- intros r body E Hr. injection E as <-. congruence.
        -- intros r E Hr. injection E as <-. congruence.
        -- intros r E _. reflexivity.
        -- intros e E. discriminate E.
      * intros body [E | E]; discriminate E.
    + do 2 eexists. split; [reflexivity|].
      split; [intros [Ha | Ha]; unfold absent in Ha; congruence|]. split.
      * intros _ _. eexists. split; [reflexivity|].
        split; [|split; [|split]].
        -- intros r body E. discriminate E.
        -- intros r E. discriminate E.
        -- intros r E. discriminate E.
        -- intros e0 _. reflexivity.
      * intros body [E | E]; discriminate E.
  - do 2 eexists. split; [reflexivity|]. split; [auto|]. split.
    + intros _ Hf. discriminate Hf.
    + intros body [E | E]; discriminate E.
  - do 2 eexists. split; [reflexivity|]. split; [auto|]. split.
    + intros Hp. unfold present in Hp. congruence.
    + intros body [E | E]; discriminate E.
Qed.

(** *** Headers and base URL ([http-client.service.ts]) *)

Lemma lookupKey_setKey_eq (k v : string) (d : Dict) :
  lookupKey k (setKey k v d) = Some v.
Proof.
  induction d as [|[k' v'] rest IH]; simpl.
  - now rewrite String.eqb_refl.
  - destruct (k' =? k)%string eqn:E; simpl.
    + now rewrite String.eqb_refl.
    + now rewrite E.
Qed.

Lemma lookupKey_setKey_neq (k k0 v : string) (d : Dict) :
  k0 <> k -> lookupKey k0 (setKey k v d) = lookupKey k0 d.
Proof.
  intros Hne. induction d as [|[k' v'] rest IH]; simpl.
  - apply not_eq_sym, String.eqb_neq in Hne. now rewrite Hne.
  - destruct (k' =? k)%string eqn:E; simpl.
    + apply String.eqb_eq in E. subst k'.
      apply not_eq_sym, String.eqb_neq in Hne. now rewrite Hne.
    + now rewrite IH.
Qed.

(** White space that [dropSpace] removes holds no visible ASCII character,
    and removing it shortens the string. *)
Lemma dropSpace_visible (s rest : string) :
  dropSpace s = Some rest ->
  anyChar visible s = anyChar visible rest
  /\ (String.length rest < String.length s)%nat.
Proof.
  unfold dropSpace.
  destruct s as [|c s1]; [discriminate|].
  destruct ((9 <=? N_of_ascii c) && (N_of_ascii c <=? 13)
            || (N_of_ascii c =? 32))%N eqn:C1.
  - intros E. injection E as <-. simpl. split; [|lia].
    assert (visible c = false) as ->; [|reflexivity].
    unfold visible.
    rewrite orb_true_iff, andb_true_iff, !N.leb_le, N.eqb_eq in C1.
    apply andb_false_iff.
    destruct (N.leb_spec 33 (N_of_ascii c)); [right | now left].
    apply N.leb_gt. lia.
  - destruct s1 as [|d s2]; [discriminate|].
    destruct ((N_of_ascii c =? 194) && (N_of_ascii d =? 160))%N eqn:C2.
    + intros E. injection E as <-. simpl. split; [|lia].
      rewrite andb_true_iff, !N.eqb_eq in C2. destruct C2 as [Hc Hd].
      unfold visible. now rewrite Hc, Hd.
    + destruct s2 as [|e s3]; [discriminate|].
      match goal with
      | |- (if ?b then _ else _) = _ -> _ => destruct b eqn:C3
      end; [|discriminate].
      intros E. injection E as <-. simpl. split; [|lia].
      assert (H : (128 <= N_of_ascii c /\ 128 <= N_of_ascii d
                   /\ 128 <= N_of_ascii e)%N).
      { repeat rewrite ?orb_true_iff, ?andb_true_iff, ?N.eqb_eq, ?N.leb_le in C3.
        lia. }
      destruct H as (Hc & Hd & He).
      assert (V : forall x, (128 <= N_of_ascii x)%N -> visible x = false).
      { intros x Hx. unfold visible. apply andb_false_iff. right.
        apply N.leb_gt. lia. }
      now rewrite (V c Hc), (V d Hd), (V e He).
Qed.

(** A string with a visible ASCII character in it is not blank. *)
Lemma nonBlankFuel_visible (fuel : nat) :
  forall s, (String.length s <= fuel)%nat ->
            anyChar visible s = true -> nonBlankFuel fuel s = true.
Proof.
  induction fuel as [|fuel IH]; intros s Hlen Hv.
  - destruct s; [discriminate Hv | simpl in Hlen; lia].
  - destruct s as [|c s1]; [discriminate Hv|].
    cbn [nonBlankFuel].
    destruct (dropSpace (String c s1)) as [rest|] eqn:D; [|reflexivity].
    apply dropSpace_visible in D as [Hsame Hshort].
    apply IH; [lia | congruence].
Qed.

(** A string of ASCII white space is blank. *)
Lemma nonBlankFuel_spaces (fuel : nat) :
  forall s, allChars asciiSpace s = true -> nonBlankFuel fuel s = false.
Proof.
  induction fuel as [|fuel IH]; intros s Hs;
    (destruct s as [|c s1]; [reflexivity|]);
    simpl in Hs; apply andb_true_iff in Hs as [Hc Hrest];
    cbn [nonBlankFuel]; unfold dropSpace; unfold asciiSpace in Hc;
    rewrite Hc; [reflexivity | now apply IH].
Qed.

(** X8: the headers of a client always hold the JSON content type and accept
    headers.  A token that is missing, empty or made of ASCII white space
    gives no Authorization header; a token with a visible ASCII character in
    it is sent whole, white space around it included, after "Token " for
    Cloud Serverless and after "Bearer " for every other product type. *)
Theorem auth_headers (token : option string) (influxType : option InfluxProductType) :
  lookupKey "Content-Type" (createAuthHeaders token influxType)
  = Some "application/json"
  /\ lookupKey "Accept" (createAuthHeaders token influxType)
     = Some "application/json"
  /\ (token = None \/ (exists tok, token = Some tok /\ allChars asciiSpace tok = true) ->
      lookupKey "Authorization" (createAuthHeaders token influxType) = None)
  /\ (forall tok, token = Some tok -> anyChar visible tok = true ->
        lookupKey "Authorization" (createAuthHeaders token influxType)
        = Some (scheme influxType ++ tok)).
Proof.
  unfold createAuthHeaders.
  assert (Hct : forall v,
    lookupKey "Content-Type"
      (setKey "Authorization" v
         [("Content-Type", "application/json"); ("Accept", "application/json")])
    = Some "application/json") by reflexivity.
  assert (Hac : forall v,
    lookupKey "Accept"
      (setKey "Authorization" v
         [("Content-Type", "application/json"); ("Accept", "application/json")])
    = Some "application/json") by reflexivity.
  repeat split.
  - destruct token as [tok|]; [|reflexivity].
    destruct (trimTruthy tok); [|reflexivity].
    destruct influxType as [[]|]; apply Hct.
  - destruct token as [tok|]; [|reflexivity].
    destruct (trimTruthy tok); [|reflexivity].
    destruct influxType as [[]|]; apply Hac.
  - intros [-> | (tok & -> & Hs)]; [reflexivity|].
    unfold trimTruthy. now rewrite (nonBlankFuel_spaces _ tok Hs).
  - intros tok -> Hv. unfold trimTruthy.
    rewrite (nonBlankFuel_visible _ tok (le_n _) Hv).
    destruct influxType as [[]|]; apply lookupKey_setKey_eq.
Qed.

(** X9: the options of a delete always carry [Connection: close], whatever
    Connection header the caller asked for; every other header and every
    other option of the caller is passed on unchanged. *)
Theorem delete_config_headers (config : option RequestConfig) :
  exists sent,
    req_headers (deleteConfig config) = Some sent
    /\ lookupKey "Connection" sent = Some "close"
    /\ (forall k, k <> "Connection" ->
          lookupKey k sent
          = lookupKey k (match config with
                         | Some c => match req_headers c with
                                     | Some h => h
                                     | None => []
                                     end
                         | None => []
                         end))
    /\ req_rest (deleteConfig config)
       = match config with Some c => req_rest c | None => [] end.
Proof.
  unfold deleteConfig. cbn [req_headers req_rest]. eexists.
  split; [reflexivity|]. split; [apply lookupKey_setKey_eq|].
  split; [|reflexivity].
  intros k Hk. now apply lookupKey_setKey_neq.
Qed.

(** X10: the base URL of a client is the host without one trailing slash:
    a host written with a final slash and the same host written without it
    give the same base URL, and only one slash is ever removed. *)
Theorem base_url_trailing_slash (host token : string)
        (influxType : option InfluxProductType) :
  baseURL (axiosInstance (createInfluxClient (host ++ "/") token influxType))
  = Some host
  /\ (~ endsWithSlash host ->
      baseURL (axiosInstance (createInfluxClient host token influxType))
      = Some host)
  /\ stripTrailingSlash ((host ++ "/") ++ "/") = (host ++ "/")%string.
Proof.
  assert (S1 : forall s, stripTrailingSlash (s ++ "/") = s).
  { induction s as [|c s IH]; [reflexivity|].
    cbn [append stripTrailingSlash]. rewrite IH.
    now destruct s. }
  assert (S2 : forall s, ~ endsWithSlash s -> stripTrailingSlash s = s).
  { induction s as [|c s IH]; [reflexivity|]. intros Hn.
    cbn [stripTrailingSlash]. destruct s as [|d s].
    - destruct (Ascii.eqb_spec c "/"); [|reflexivity].
      subst c. exfalso. apply Hn. now exists "".
    - rewrite IH; [reflexivity|].
      intros [p Hp]. apply Hn. exists (String c p). simpl. now rewrite Hp. }
  unfold createInfluxClient, HttpClient.new. cbn [axiosInstance baseURL option_map].
  repeat split.
  - now rewrite S1.
  - intros Hn. now rewrite S2.
  - apply S1.
Qed.

(** *** Entry points and strategies ([database-management.service.ts]) *)

(** X11: the entry points fail before anything is sent.  An empty name is
    refused first; then a configuration whose management validation raises
    makes list, create, delete and (for the product types that support it)
    update raise that same error, with the state of the network untouched,
    whatever the network is. *)
Theorem invalid_configuration_sends_nothing {W}
        (axios : Request Payload -> Async W Body)
        (service : BaseConnectionService) (name : string)
        (config : option DatabaseConfig) (update : DatabaseConfig) (w : W)
        (e : Error) :
  validateManagementCapabilities (BaseConnection.config service) = Throw e ->
  listDatabases axios service w = (Throw e, w)
  /\ (name <> "" ->
      createDatabase axios service name config w = (Throw e, w)
      /\ deleteDatabase axios service name w = (Throw e, w)
      /\ (In (type (BaseConnection.config service))
             [CloudDedicated; CloudServerless; Clustered] ->
          updateDatabase axios service name update w = (Throw e, w)))
  /\ createDatabase axios service "" config w
     = (Throw (newError "Database name is required"), w)
  /\ updateDatabase axios service "" update w
     = (Throw (newError "Database name is required"), w)
  /\ deleteDatabase axios service "" w
     = (Throw (newError "Database name is required"), w).
Proof.
  intros Hv.
  unfold listDatabases, createDatabase, updateDatabase, deleteDatabase.
  rewrite !bind_run. unfold lift. rewrite Hv.
  split; [reflexivity|]. split; [|repeat split].
  intros Hname. apply String.eqb_neq in Hname. rewrite Hname. cbv iota.
  rewrite !bind_run. cbv beta. repeat split.
  intros Hin.
  destruct (validateOperationSupport_cases (BaseConnection.config service)
              "update_database" [CloudDedicated; CloudServerless; Clustered])
    as [[_ ->] | [Hnot _]]; [reflexivity | contradiction].
Qed.

Lemma invalid_configuration_sends_nothing_witness :
  listDatabases
    (recording (fun _ => Ok BNotObject))
    (BaseConnection.new clusteredNoToken true) []
  = (Throw (newError
       "Cloud Dedicated/Clustered management operations require: management_token"),
     []).
Proof.
  exact (proj1 (invalid_configuration_sends_nothing
                  (recording (fun _ => Ok BNotObject))
                  (BaseConnection.new clusteredNoToken true) "db" None noConfig []
                  (newError
                     "Cloud Dedicated/Clustered management operations require: management_token")
                  eq_refl)).
Defined.

(** X12: on Core and Enterprise an update is refused by the operation-support
    check, before the management validation and before anything is sent; the
    refusal written in the dispatch of [updateDatabase] itself is never the
    one raised. *)
Theorem update_unsupported {W} (axios : Request Payload -> Async W Body)
        (service : BaseConnectionService) (name : string)
        (update : DatabaseConfig) (w : W) :
  type (BaseConnection.config service) = Core
  \/ type (BaseConnection.config service) = Enterprise ->
  name <> "" ->
  updateDatabase axios service name update w
  = (Throw (newError
       ("Operation 'update_database' is not supported for "
        ++ supportedName (type (BaseConnection.config service))
        ++ ". Supported types: Cloud Dedicated, Cloud Serverless, Clustered")), w)
  /\ updateDatabase axios service name update w
     <> (Throw (newError
           "Database update is not supported for core/enterprise InfluxDB"), w).
Proof.
  intros Ht Hname. apply String.eqb_neq in Hname.
  assert (E : updateDatabase axios service name update w
              = (Throw (newError
                   ("Operation 'update_database' is not supported for "
                    ++ supportedName (type (BaseConnection.config service))
                    ++ ". Supported types: Cloud Dedicated, Cloud Serverless, Clustered")), w)).
  { unfold updateDatabase. rewrite Hname, bind_run.
    unfold lift, validateOperationSupport.
    destruct Ht as [-> | ->]; reflexivity. }
  split; [exact E|]. rewrite E.
  destruct Ht as [-> | ->]; discriminate.
Qed.

Lemma update_unsupported_witness :
  updateDatabase (recording (fun _ => Ok BNotObject)) coreService "db"
    (withRetention (Some 0) noConfig) []
  = (Throw (newError
       "Operation 'update_database' is not supported for Core. Supported types: Cloud Dedicated, Cloud Serverless, Clustered"),
     []).
Proof.
  refine (proj1 (update_unsupported (recording (fun _ => Ok BNotObject))
                   coreService "db" (withRetention (Some 0) noConfig) []
                   (or_introl eq_refl) _)).
  discriminate.
Defined.

(** An error that the service raised itself is reported as a failure of the
    operation. *)
Lemma handleDatabaseError_own (m operation : string) :
  handleDatabaseError (newError m) operation
  = newError ("Failed to " ++ operation ++ ": " ++ m).
Proof. reflexivity. Qed.

Lemma knownStatus_cases (s : Z) :
  knownStatus s = true ->
  s = 400 \/ s = 401 \/ s = 403 \/ s = 404 \/ s = 409 \/ s = 500.
Proof.
  unfold knownStatus. rewrite !orb_true_iff, !Z.eqb_eq. tauto.
Qed.

(** X13: for a response with status 400, 401, 403, 404, 409 or 500 the error
    that [handleDatabaseError] makes depends on the response alone: not on the
    operation, nor on the code or message of the error (a connection-refused
    code is looked at only for other statuses).  Its text starts with
    "HTTP ", the status and " - ", and the error made is a plain one, with no
    response or code left on it. *)
Theorem known_status_errors (e : Error) (r : ErrorResponse) (s : Z)
        (operation : string) :
  response e = Some r -> Js.status r = Some s -> knownStatus s = true ->
  (forall operation' message' code',
     handleDatabaseError
       {| message := message'; code := code'; response := Some r |} operation'
     = handleDatabaseError e operation)
  /\ (exists rest,
        handleDatabaseError e operation
        = newError ("HTTP " ++ showNum s ++ " - " ++ rest)).
Proof.
  destruct e as [m c re]. cbn [response]. intros -> Hs Hk.
  apply knownStatus_cases in Hk.
  unfold handleDatabaseError. cbn [response]. rewrite Hs.
  destruct Hk as [-> | [-> | [-> | [-> | [-> | ->]]]]];
    (split; [reflexivity|]);
    match goal with
    | |- context [if ?b then _ else _] => destruct b
    end; eexists; reflexivity.
Qed.

Lemma known_status_errors_witness :
  (forall operation' message' code',
     handleDatabaseError
       {| message := message'; code := code'; response := Some notFoundResponse |}
       operation'
     = handleDatabaseError notFoundError "delete database 'db'")
  /\ (exists rest,
        handleDatabaseError notFoundError "delete database 'db'"
        = newError ("HTTP " ++ showNum 404 ++ " - " ++ rest)).
Proof.
  exact (known_status_errors notFoundError notFoundResponse 404
           "delete database 'db'" eq_refl eq_refl eq_refl).
Defined.

(** X14: an update under Cloud Dedicated that names none of maxTables,
    maxColumnsPerTable and retentionPeriod sends nothing and fails with "No
    configuration parameters provided for update"; one that names any of them
    sends a single PATCH to the database's endpoint whose body holds exactly
    the fields named, a 0 included. *)
Theorem dedicated_update_payload {W} (axios : Request Payload -> Async W Body)
        (service : BaseConnectionService) (name : string)
        (config : DatabaseConfig) (w : W) :
  (cfg_maxTables config = None /\ cfg_maxColumnsPerTable config = None
   /\ cfg_retentionPeriod config = None ->
   updateDatabaseCloudDedicated axios service name config w
   = (Throw (newError
        ("Failed to update database '" ++ name
         ++ "': No configuration parameters provided for update")), w))
  /\ (~ (cfg_maxTables config = None /\ cfg_maxColumnsPerTable config = None
         /\ cfg_retentionPeriod config = None) ->
      updateDatabaseCloudDedicated axios service name config w
      = match axios (patchRequest
                       (getInfluxHttpClient (BaseConnection.config service) true)
                       (clusterDatabasesEndpoint (BaseConnection.config service)
                        ++ "/" ++ encodeURIComponent name)
                       (DedicatedUpdate (cfg_maxTables config)
                          (cfg_maxColumnsPerTable config)
                          (cfg_retentionPeriod config))) w with
        | (Ok _, w') => (Ok true, w')
        | (Throw e, w') =>
            (Throw (handleDatabaseError e ("update database '" ++ name ++ "'")),
             w')
        end).
Proof.
  unfold updateDatabaseCloudDedicated. cbv zeta. rewrite tryCatch_run.
  split.
  - intros (-> & -> & ->). unfold throw.
    rewrite handleDatabaseError_own, !append_assoc. reflexivity.
  - intros Hsome. unfold patchRequest.
    destruct (cfg_maxTables config), (cfg_maxColumnsPerTable config),
      (cfg_retentionPeriod config);
      try (exfalso; apply Hsome; repeat split; reflexivity);
      rewrite bind_run, patch_run;
      now destruct (axios _ w) as [[b|e] w'].
Qed.

(** The two digits that [encodeURIComponent] writes for a byte are
    unreserved characters, and the byte can be read back from them. *)
Lemma hexDigit_unreserved (c : ascii) :
  unreserved (hexDigit (N_of_ascii c / 16)) = true
  /\ unreserved (hexDigit (N_of_ascii c mod 16)) = true.
Proof. destruct c as [[] [] [] [] [] [] [] []]; vm_compute; split; reflexivity. Qed.

Lemma hexDigit_decode (c : ascii) :
  ascii_of_N (16 * hexValue (hexDigit (N_of_ascii c / 16))
              + hexValue (hexDigit (N_of_ascii c mod 16))) = c.
Proof. destruct c as [[] [] [] [] [] [] [] []]; vm_compute; reflexivity. Qed.

Lemma allChars_occursIn (p : ascii -> bool) (c : ascii) (s : string) :
  allChars p s = true -> occursIn (String c "") s -> p c = true.
Proof.
  intros Hall (before & after & ->). revert Hall.
  induction before as [|b before IH]; simpl; intros H;
    apply andb_true_iff in H as [H1 H2]; [exact H1 | now apply IH].
Qed.

(** X15: whatever the name, its encoding holds only unreserved characters and
    percent signs; no slash, question mark, hash, ampersand or space of a
    name reaches the path or the query string of a request. *)
Theorem encoded_name_is_safe (name : string) :
  allChars urlSafe (encodeURIComponent name) = true
  /\ (forall c, urlSafe c = false ->
        ~ occursIn (String c "") (encodeURIComponent name))
  /\ ~ occursIn "/" (encodeURIComponent name)
  /\ ~ occursIn "?" (encodeURIComponent name)
  /\ ~ occursIn "#" (encodeURIComponent name)
  /\ ~ occursIn "&" (encodeURIComponent name)
  /\ ~ occursIn " " (encodeURIComponent name).
Proof.
  assert (Hall : allChars urlSafe (encodeURIComponent name) = true).
  { induction name as [|c rest IH]; [reflexivity|].
    cbn [encodeURIComponent]. destruct (unreserved c) eqn:U.
    - cbn [allChars]. unfold urlSafe at 1. now rewrite U, IH.
    - destruct (hexDigit_unreserved c) as [H1 H2].
      cbn [allChars]. unfold urlSafe at 1 2 3. now rewrite H1, H2, IH. }
  assert (Hno : forall c, urlSafe c = false ->
                          ~ occursIn (String c "") (encodeURIComponent name)).
  { intros c Hc Hocc.
    rewrite (allChars_occursIn urlSafe c _ Hall Hocc) in Hc. discriminate. }
  split; [exact Hall|]. split; [exact Hno|].
  repeat split; apply Hno; reflexivity.
Qed.

Lemma encodeURIComponent_injective (a b : string) :
  encodeURIComponent a = encodeURIComponent b -> a = b.
Proof.
  revert b. induction a as [|c a IH]; intros [|d b]; cbn [encodeURIComponent].
  - reflexivity.
  - destruct (unreserved d); discriminate.
  - destruct (unreserved c); discriminate.
  - destruct (unreserved c) eqn:Uc, (unreserved d) eqn:Ud; intros E.
    + injection E as -> E. now rewrite (IH b E).
    + injection E as -> _. discriminate Uc.
    + injection E as <- _. discriminate Ud.
    + injection E as H1 H2 E.
      rewrite (IH b E). f_equal.
      rewrite <- (hexDigit_decode c), <- (hexDigit_decode d).
      now rewrite H1, H2.
Qed.

Lemma append_cancel_l (p a b : string) : (p ++ a = p ++ b)%string -> a = b.
Proof.
  induction p as [|c p IH]; simpl; intros H; [exact H|].
  injection H as H. now apply IH.
Qed.

(** X16: two different database names never share an endpoint: the encoding
    of the name is injective, so the path that the Cloud Dedicated update and
    delete address, and the query string of the Core/Enterprise delete, name
    one database only. *)
Theorem encoded_names_distinct (influx : InfluxConfig) (a b : string) :
  (encodeURIComponent a = encodeURIComponent b -> a = b)
  /\ ((clusterDatabasesEndpoint influx ++ "/" ++ encodeURIComponent a)%string
      = (clusterDatabasesEndpoint influx ++ "/" ++ encodeURIComponent b)%string ->
      a = b)
  /\ (("/api/v3/configure/database?db=" ++ encodeURIComponent a)%string
      = ("/api/v3/configure/database?db=" ++ encodeURIComponent b)%string ->
      a = b).
Proof.
  split; [apply encodeURIComponent_injective|]. split; intros H.
  - apply append_cancel_l in H. apply (append_cancel_l "/") in H.
    now apply encodeURIComponent_injective.
  - apply (append_cancel_l "/api/v3/configure/database?db=") in H.
    now apply encodeURIComponent_injective.
Qed.



(** What [findBucket] finds is a bucket of the listing with the name asked
    for and not of type "system". *)
Lemma findBucket_sound (name : string) (items : list Item) (o : Entry) :
  findBucket name items = Ok (Some o) ->
  In (IObject o) items /\ e_name o = Some name /\ e_type o <> Some "system".
Proof.
  induction items as [|b rest IH]; cbn [findBucket]; [discriminate|].
  destruct b as [|s|o'|shown]; [discriminate | | |];
    try (intros H; destruct (IH H) as (Hin & Hr); split; [now right | exact Hr]).
  destruct (match e_name o' with
            | Some n => (n =? name)%string
            | None => false
            end && notSystem (e_type o')) eqn:M.
  - intros H. injection H as <-. apply andb_true_iff in M as [Hn Ht].
    split; [now left|]. split.
    + destruct (e_name o') as [n|]; [|discriminate].
      apply String.eqb_eq in Hn. now subst.
    + intros Hs. rewrite Hs in Ht. discriminate.
  - intros H. destruct (IH H) as (Hin & Hr). split; [now right | exact Hr].
Qed.

(** Without a null in the listing, [findBucket] finds nothing only when every
    bucket of that name is of type "system". *)
Lemma findBucket_none (name : string) (items : list Item) :
  ~ In INull items ->
  (forall o, In (IObject o) items -> e_name o = Some name ->
             e_type o = Some "system") ->
  findBucket name items = Ok None.
Proof.
  induction items as [|b rest IH]; cbn [findBucket]; intros Hnull Hsys;
    [reflexivity|].
  assert (IH' : findBucket name rest = Ok None).
  { apply IH; [intros H; apply Hnull; now right|].
    intros o Hin. apply Hsys. now right. }
  destruct b as [|s|o|shown]; try exact IH'.
  - exfalso. apply Hnull. now left.
  - destruct (e_name o) as [n|] eqn:En; [|exact IH'].
    destruct (String.eqb_spec n name) as [->|Hne]; [|exact IH'].
    rewrite (Hsys o (or_introl eq_refl) En). exact IH'.
Qed.

(** X18: [deleteDatabaseCloudServerless] never deletes a system bucket.  When
    the listing [{ buckets: items }] holds no bucket of the name other than
    system ones, it fails with "not found" right after the listing, with no
    further request; when it does send a DELETE, the id in the path is that
    of a bucket of the listing bearing the name and not of type "system". *)
Theorem serverless_delete_target {W} (axios : Request Payload -> Async W Body)
        (service : BaseConnectionService) (name : string) (w w1 : W)
        (env : Envelope) (items : list Item) :
  axios (getRequest (getInfluxHttpClient (BaseConnection.config service) true)
           "/api/v2/buckets") w
  = (Ok (BObject env), w1) ->
  buckets env = SArray items ->
  ~ In INull items ->
  ((forall o, In (IObject o) items -> e_name o = Some name ->
              e_type o = Some "system") ->
   deleteDatabaseCloudServerless axios service name w
   = (Throw (newError
        ("Failed to delete database (bucket) '" ++ name
         ++ "': Database (bucket) '" ++ name ++ "' not found")), w1))
  /\ (forall o id,
        findBucket name items = Ok (Some o) -> e_id o = Some id -> id <> "" ->
        In (IObject o) items /\ e_name o = Some name
        /\ e_type o <> Some "system"
        /\ deleteDatabaseCloudServerless axios service name w
           = match HttpClient.delete axios
                     (getInfluxHttpClient (BaseConnection.config service) true)
                     ("/api/v2/buckets/" ++ id) None w1 with
             | (Ok _, w2) => (Ok true, w2)
             | (Throw e, w2) =>
                 (Throw (handleDatabaseError e
                           ("delete database (bucket) '" ++ name ++ "'")), w2)
             end).
Proof.
  intros Hget Hb Hnull.
  unfold deleteDatabaseCloudServerless. cbv zeta.
  rewrite tryCatch_run, bind_run, get_run.
  unfold getRequest in Hget. rewrite Hget.
  rewrite bind_run. unfold lift, lookupBucket. rewrite Hb.
  split.
  - intros Hsys. rewrite (findBucket_none name items Hnull Hsys).
    cbn [truthy negb]. unfold throw.
    rewrite handleDatabaseError_own, !append_assoc. reflexivity.
  - intros o id Hfind Hid Hne.
    destruct (findBucket_sound name items o Hfind) as (Hin & Hn & Ht).
    repeat split; try assumption.
    rewrite Hfind, Hid. cbn [truthy interp].
    apply String.eqb_neq in Hne. rewrite Hne. cbn [negb].
    rewrite bind_run.
    now destruct (HttpClient.delete axios _ _ None w1) as [[r|e] w2].
Qed.

Lemma serverless_delete_target_witness :
  deleteDatabaseCloudServerless
    (answering
       (BObject (bucketsEnvelope
                   [IObject (bucket "_monitoring" (Some "system") None)])))
    serverlessService "_monitoring" tt
  = (Throw (newError
       "Failed to delete database (bucket) '_monitoring': Database (bucket) '_monitoring' not found"),
     tt).
Proof.
  refine (proj1 (serverless_delete_target
                   (answering
                      (BObject (bucketsEnvelope
                                  [IObject (bucket "_monitoring" (Some "system") None)])))
                   serverlessService "_monitoring" tt tt
                   (bucketsEnvelope
                      [IObject (bucket "_monitoring" (Some "system") None)])
                   [IObject (bucket "_monitoring" (Some "system") None)]
                   eq_refl eq_refl _) _).
  - intros [H | []]. discriminate H.
  - intros o [H | []] _. now injection H as <-.
Defined.

(** X19: creating a bucket needs an organization.  When the answer to the
    organization lookup holds no organization, the create fails with "Could
    not find organization ID for bucket creation" and nothing is posted; when
    it holds some, the bucket is posted under the id of the first one, the
    others are not looked at. *)
Theorem serverless_create_needs_organization {W}
        (axios : Request Payload -> Async W Body)
        (service : BaseConnectionService) (name : string)
        (config : option DatabaseConfig) (w w1 : W) (body : Body) :
  axios (getRequest (getInfluxHttpClient (BaseConnection.config service) true)
           "/api/v2/orgs") w
  = (Ok body, w1) ->
  ((forall env, body = BObject env ->
      slotTruthy (orgs env) = false \/ orgs env = SArray []) ->
   createDatabaseCloudServerless axios service name config w
   = (Throw (newError
        ("Failed to create database (bucket) '" ++ name
         ++ "': Could not find organization ID for bucket creation")), w1))
  /\ (forall env org others,
        body = BObject env -> orgs env = SArray (IObject org :: others) ->
        createDatabaseCloudServerless axios service name config w
        = match axios (postRequest
                         (getInfluxHttpClient (BaseConnection.config service) true)
                         "/api/v2/buckets"
                         (bucketCreatePayload name (e_id org) config)) w1 with
          | (Ok _, w2) => (Ok true, w2)
          | (Throw e, w2) =>
              (Throw (handleDatabaseError e
                        ("create database (bucket) '" ++ name ++ "'")), w2)
          end).
Proof.
  intros Hget.
  unfold createDatabaseCloudServerless. cbv zeta.
  rewrite tryCatch_run, bind_run, get_run.
  unfold getRequest in Hget. rewrite Hget. rewrite bind_run. unfold lift.
  split.
  - intros Hnone.
    assert (E : firstOrgId body
                = Throw (newError
                           "Could not find organization ID for bucket creation")).
    { destruct body as [| items | env]; try reflexivity.
      destruct (Hnone env eq_refl) as [Hf | Hempty]; unfold firstOrgId.
      - destruct (orgs env) as [| s | | l]; try discriminate Hf; try reflexivity.
        simpl in Hf. apply negb_false_iff in Hf. now rewrite Hf.
      - now rewrite Hempty. }
    rewrite E. unfold throw.
    rewrite handleDatabaseError_own, !append_assoc. reflexivity.
  - intros env org others -> Horgs. unfold firstOrgId. rewrite Horgs.
    rewrite bind_run, post_run. unfold postRequest.
    now destruct (axios _ w1) as [[b|e] w2].
Qed.

Lemma serverless_create_needs_organization_witness :
  createDatabaseCloudServerless
    (recording (fun _ => Ok (BObject (orgsEnvelope []))))
    serverlessService "metrics" None []
  = (Throw (newError
       "Failed to create database (bucket) 'metrics': Could not find organization ID for bucket creation"),
     [getRequest (getInfluxHttpClient (config serverlessService) true)
        "/api/v2/orgs"]).
Proof.
  refine (proj1 (serverless_create_needs_organization
                   (recording (fun _ => Ok (BObject (orgsEnvelope []))))
                   serverlessService "metrics" None []
                   [getRequest (getInfluxHttpClient (config serverlessService) true)
                      "/api/v2/orgs"]
                   (BObject (orgsEnvelope [])) eq_refl) _).
  intros env H. injection H as <-. now right.
Defined.

(** X20: the body of a bucket update always holds a retention rule.  A
    retention given by the caller is sent as [Math.floor(ns / 1000000000)]
    seconds, which for every safe whole number of nanoseconds is the floored
    quotient; a retention of 0 is sent as 0 seconds (where a create would
    send the 30-day default); without one the rules of the bucket are sent
    back, or the 30-day default when the bucket has none.  A new name is sent
    only when it is not empty and differs from the name of the bucket. *)
Theorem bucket_update_payload (bucket : Entry) (config : DatabaseConfig) :
  exists newName rules,
    bucketUpdatePayload bucket config
    = BucketUpdate newName (cfg_description config) rules
    /\ rules <> []
    /\ (forall ns, cfg_retentionPeriod config = Some ns ->
          rules = [expire (nanosecondsToSeconds ns)]
          /\ (safeInteger ns -> rules = [expire (ns / 1000000000)]))
    /\ (cfg_retentionPeriod config = Some 0 ->
        rules = [expire 0] /\ createEverySeconds (Some config) = 2592000)
    /\ (forall kept, cfg_retentionPeriod config = None ->
          e_retentionRules bucket = Some kept -> kept <> [] -> rules = kept)
    /\ (cfg_retentionPeriod config = None ->
        e_retentionRules bucket = None \/ e_retentionRules bucket = Some [] ->
        rules = [expire 2592000])
    /\ (forall n, newName = Some n ->
          cfg_name config = Some n /\ n <> "" /\ e_name bucket <> Some n)
    /\ (cfg_name config = e_name bucket -> newName = None).
Proof.
  unfold bucketUpdatePayload. do 2 eexists. split; [reflexivity|].
  split; [|split; [|split; [|split; [|split; [|split]]]]].
  - destruct (cfg_retentionPeriod config); [discriminate|].
    destruct (e_retentionRules bucket) as [[|r l]|]; discriminate.
  - intros ns ->. split; [reflexivity|].
    intros Hsafe. unfold nanosecondsToSeconds.
    rewrite floorDivide_exact; [reflexivity|].
    unfold safeInteger in Hsafe. lia.
  - intros H. unfold createEverySeconds. rewrite H. split; reflexivity.
  - intros kept -> -> Hne. destruct kept; [contradiction | reflexivity].
  - intros -> [-> | ->]; reflexivity.
  - intros n.
    destruct (cfg_name config) as [cn|]; cbn [truthy interp andb];
      [|discriminate].
    destruct (String.eqb_spec cn ""); cbn [negb andb]; [discriminate|].
    destruct (e_name bucket) as [bn|]; cbn [negb andb].
    + destruct (String.eqb_spec cn bn); cbn [negb]; [discriminate|].
      intros H. injection H as <-. repeat split; congruence.
    + intros H. injection H as <-. repeat split; congruence.
  - intros H. rewrite H.
    destruct (e_name bucket) as [bn|]; cbn [truthy interp];
      [|reflexivity].
    rewrite String.eqb_refl. cbn [negb]. now rewrite andb_false_r.
Qed.

(** X21: the tolerance of [delete] for an aborted connection reaches the
    callers: when the DELETE of a database throws an error whose message
    contains "aborted", the Cloud Dedicated and the Core/Enterprise delete
    report success. *)
Theorem delete_strategies_tolerate_aborted {W}
        (axios : Request Payload -> Async W Body)
        (service : BaseConnectionService) (name : string) (w w' : W)
        (e : Error) (m : string) :
  message e = Some m -> occursIn "aborted" m ->
  (axios (deleteRequest
            (getInfluxHttpClient (BaseConnection.config service) true)
            (clusterDatabasesEndpoint (BaseConnection.config service)
             ++ "/" ++ encodeURIComponent name) None) w
   = (Throw e, w') ->
   deleteDatabaseCloudDedicated axios service name w = (Ok true, w'))
  /\ (axios (deleteRequest
               (getInfluxHttpClient (BaseConnection.config service) false)
               ("/api/v3/configure/database?db=" ++ encodeURIComponent name)
               None) w
      = (Throw e, w') ->
      deleteDatabaseCoreEnterprise axios service name w = (Ok true, w')).
Proof.
  intros Hm Hocc. apply includes_spec in Hocc.
  unfold deleteDatabaseCloudDedicated, deleteDatabaseCoreEnterprise. cbv zeta.
  split; intros Hreq;
    rewrite tryCatch_run, bind_run, delete_run, Hreq, Hm, Hocc; reflexivity.
Qed.

Lemma delete_strategies_tolerate_aborted_witness :
  deleteDatabaseCoreEnterprise (failing aborted) coreService "db" tt
  = (Ok true, tt).
Proof.
  refine (proj2 (delete_strategies_tolerate_aborted
                   (failing aborted) coreService "db" tt tt aborted
                   "Request aborted" eq_refl _) eq_refl).
  apply includes_spec. reflexivity.
Defined.

(** *** Schema operations ([serverless-schema-management.service.ts]) *)

(** X22: schema operations are refused for every product type other than
    Cloud Serverless, whatever credentials are configured, with a message
    that ends in the current type; for Cloud Serverless they are allowed
    exactly when url and token are present. *)
Theorem schema_support (typeValue : InfluxProductType -> string)
        (service : BaseConnectionService) :
  (type (config service) <> CloudServerless ->
   raisesWith (SchemaManagement.validateSchemaOperationSupport typeValue service)
     ("Schema management is only supported for Cloud Serverless. Current type: "
      ++ typeValue (type (config service))))
  /\ (type (config service) = CloudServerless ->
      (SchemaManagement.validateSchemaOperationSupport typeValue service = Ok tt
       <-> present (url (config service)) /\ present (token (config service)))).
Proof.
  unfold SchemaManagement.validateSchemaOperationSupport, raisesWith, getConnectionInfo.
  cbn [ci_type]. split.
  - intros Hne. destruct (type (config service)); try reflexivity. contradiction.
  - intros Ht. rewrite Ht. cbn [InfluxProductType_eqb negb].
    unfold validateManagementCapabilities, hasManagementCapabilities, present.
    rewrite Ht. cbn [InfluxProductType_eqb orb].
    destruct (truthy (url (config service))), (truthy (token (config service)));
      cbn [andb negb]; split; try tauto; try discriminate;
      intros [H1 H2]; discriminate.
Qed.

(** X23: a null among the buckets makes the whole Cloud Serverless listing
    fail, the other buckets with it, while the Cloud Dedicated listing turns a
    null among its databases into a database named "null". *)
Theorem null_items {W} (axios : Request Payload -> Async W Body)
        (service : BaseConnectionService) (w w' : W) (env : Envelope)
        (items : list Item) :
  In INull items ->
  (axios (getRequest (getInfluxHttpClient (BaseConnection.config service) true)
            "/api/v2/buckets") w
   = (Ok (BObject env), w') ->
   buckets env = SArray items ->
   exists e, listDatabasesCloudServerless axios service w = (Throw e, w'))
  /\ (axios (getRequest (getInfluxHttpClient (BaseConnection.config service) true)
               (clusterDatabasesEndpoint (BaseConnection.config service))) w
      = (Ok (BObject env), w') ->
      databases env = SArray items ->
      exists listed,
        listDatabasesCloudDedicated axios service w = (Ok listed, w')
        /\ length listed = length items
        /\ In (named "null") listed).
Proof.
  intros Hnull. split; intros Hget Hslot.
  - unfold listDatabasesCloudServerless. cbv zeta.
    rewrite tryCatch_run, bind_run, get_run.
    unfold getRequest in Hget. rewrite Hget, Hslot.
    unfold lift, bucketsToDatabases.
    rewrite (filterBuckets_null items Hnull). eexists. reflexivity.
  - unfold listDatabasesCloudDedicated. cbv zeta.
    rewrite tryCatch_run, bind_run, get_run.
    unfold getRequest in Hget. rewrite Hget, Hslot.
    eexists. split; [reflexivity|]. split; [apply length_map|].
    change (named "null") with (dedicatedItem INull). now apply in_map.
Qed.

Lemma null_items_witness :
  exists e,
    listDatabasesCloudServerless
      (answering
         (BObject (bucketsEnvelope [IObject (bucket "a" (Some "user") None); INull])))
      serverlessService tt
    = (Throw e, tt).
Proof.
  refine (proj1 (null_items
                   (answering
                      (BObject (bucketsEnvelope
                                  [IObject (bucket "a" (Some "user") None); INull])))
                   serverlessService tt tt
                   (bucketsEnvelope [IObject (bucket "a" (Some "user") None); INull])
                   [IObject (bucket "a" (Some "user") None); INull] _)
            eq_refl eq_refl).
  right. now left.
Defined.

(** X24: an update under Cloud Serverless patches the bucket that the lookup
    found, at the path of its id, with the body of [bucketUpdatePayload].
    Unlike the delete it does not ask that the bucket has an id: for a bucket
    without one the path ends in "undefined". *)
Theorem serverless_update_target {W} (axios : Request Payload -> Async W Body)
        (service : BaseConnectionService) (name : string)
        (config : DatabaseConfig) (w w1 : W) (env : Envelope)
        (items : list Item) (found : Entry) :
  axios (getRequest (getInfluxHttpClient (BaseConnection.config service) true)
           "/api/v2/buckets") w
  = (Ok (BObject env), w1) ->
  buckets env = SArray items ->
  findBucket name items = Ok (Some found) ->
  updateDatabaseCloudServerless axios service name config w
  = match axios (patchRequest
                   (getInfluxHttpClient (BaseConnection.config service) true)
                   ("/api/v2/buckets/" ++ interp (e_id found))
                   (bucketUpdatePayload found config)) w1 with
    | (Ok _, w2) => (Ok true, w2)
    | (Throw e, w2) =>
        (Throw (handleDatabaseError e
                  ("update database (bucket) '" ++ name ++ "'")), w2)
    end
  /\ (e_id found = None ->
      ("/api/v2/buckets/" ++ interp (e_id found))%string
      = "/api/v2/buckets/undefined"
      /\ deleteDatabaseCloudServerless axios service name w
         = (Throw (newError
              ("Failed to delete database (bucket) '" ++ name
               ++ "': Database (bucket) '" ++ name ++ "' not found")), w1)).
Proof.
  intros Hget Hb Hfind. split.
  - unfold updateDatabaseCloudServerless. cbv zeta.
    rewrite tryCatch_run, bind_run, get_run.
    unfold getRequest in Hget. rewrite Hget.
    rewrite bind_run. unfold lift, lookupBucket. rewrite Hb, Hfind.
    rewrite bind_run, patch_run. unfold patchRequest.
    now destruct (axios _ w1) as [[b|e] w2].
  - intros Hid. rewrite Hid. split; [reflexivity|].
    unfold deleteDatabaseCloudServerless. cbv zeta.
    rewrite tryCatch_run, bind_run, get_run.
    unfold getRequest in Hget. rewrite Hget.
    rewrite bind_run. unfold lift, lookupBucket. rewrite Hb, Hfind, Hid.
    cbn [truthy negb]. unfold throw.
    rewrite handleDatabaseError_own, !append_assoc. reflexivity.
Qed.

Lemma serverless_update_target_witness :
  updateDatabaseCloudServerless
    (recording (fun _ => Ok (BObject (bucketsEnvelope
                                        [IObject (bucket "a" (Some "user") None)]))))
    serverlessService "a" (withRetention (Some 0) noConfig) []
  = (Ok true,
     [getRequest (getInfluxHttpClient (config serverlessService) true)
        "/api/v2/buckets";
      patchRequest (getInfluxHttpClient (config serverlessService) true)
        "/api/v2/buckets/undefined"
        (BucketUpdate None None [expire 0])]).
Proof.
  exact (proj1 (serverless_update_target
                  (recording (fun _ => Ok (BObject (bucketsEnvelope
                                        [IObject (bucket "a" (Some "user") None)]))))
                  serverlessService "a" (withRetention (Some 0) noConfig) []
                  [getRequest (getInfluxHttpClient (config serverlessService) true)
                     "/api/v2/buckets"]
                  (bucketsEnvelope [IObject (bucket "a" (Some "user") None)])
                  [IObject (bucket "a" (Some "user") None)]
                  (bucket "a" (Some "user") None)
                  eq_refl eq_refl eq_refl)).
Defined.

(** X25: an error that carries no response (the request never got an answer)
    is told apart by its code: ECONNREFUSED becomes "Connection refused",
    ENOTFOUND becomes "Host not found", and anything else is reported as a
    failure of the operation with the message of the error. *)
Theorem transport_errors (e : Error) (operation : string) :
  response e = None ->
  (code e = Some "ECONNREFUSED" ->
   handleDatabaseError e operation
   = newError "Connection refused: Check if InfluxDB is running and URL is correct")
  /\ (code e = Some "ENOTFOUND" ->
      handleDatabaseError e operation
      = newError "Host not found: Check your InfluxDB URL")
  /\ (code e <> Some "ECONNREFUSED" -> code e <> Some "ENOTFOUND" ->
      handleDatabaseError e operation
      = newError ("Failed to " ++ operation ++ ": " ++ interp (message e))).
Proof.
  intros Hr. unfold handleDatabaseError. rewrite Hr. cbv zeta.
  repeat split.
  - intros ->. reflexivity.
  - intros ->. reflexivity.
  - intros H1 H2. destruct (code e) as [c|]; [|reflexivity].
    destruct (String.eqb_spec c "ECONNREFUSED"); [congruence|].
    destruct (String.eqb_spec c "ENOTFOUND"); [congruence|].
    reflexivity.
Qed.

Lemma transport_errors_witness :
  handleDatabaseError
    {| message := Some "connect ECONNREFUSED 127.0.0.1:8181";
       code := Some "ECONNREFUSED"; response := None |} "list databases"
  = newError "Connection refused: Check if InfluxDB is running and URL is correct".
Proof.
  exact (proj1 (transport_errors
                  {| message := Some "connect ECONNREFUSED 127.0.0.1:8181";
                     code := Some "ECONNREFUSED"; response := None |}
                  "list databases" eq_refl) eq_refl).
Defined.

(** *** Requests sent *)

Section Sends.
Variable P : Request Payload -> Prop.
Variable respond : Request Payload -> Outcome Body.

Lemma sends_nothing {A} (k : nat) (o : Outcome A) :
  sends P k (fun w => (o, w)).
Proof.
  intros log. exists []. cbn [snd]. rewrite app_nil_r.
  repeat split; [simpl; lia | constructor].
Qed.

Lemma sends_request (k : nat) (r : Request Payload) :
  P r -> sends P (S k) (recording respond r).
Proof.
  intros Hr log. exists [r]. unfold recording. cbn [snd].
  repeat split; [simpl; lia | now constructor].
Qed.

Lemma sends_bind {A B} (k1 k2 : nat) (p : Async (list (Request Payload)) A)
      (f : A -> Async (list (Request Payload)) B) :
  sends P k1 p -> (forall a, sends P k2 (f a)) ->
  sends P (k1 + k2) (Js.bind p f).
Proof.
  intros Hp Hf log. unfold Js.bind.
  destruct (Hp log) as (s1 & E1 & L1 & F1).
  destruct (p log) as [[a|e] w1]; cbn [snd] in E1; subst w1.
  - destruct (Hf a (log ++ s1)%list) as (s2 & E2 & L2 & F2).
    exists (s1 ++ s2)%list. rewrite E2, app_assoc, length_app.
    repeat split; [lia | now apply Forall_app].
  - exists s1. cbn [snd]. repeat split; [lia | assumption].
Qed.

Lemma sends_tryCatch {A} (k1 k2 : nat) (body : Async (list (Request Payload)) A)
      (handler : Error -> Async (list (Request Payload)) A) :
  sends P k1 body -> (forall e, sends P k2 (handler e)) ->
  sends P (k1 + k2) (tryCatch body handler).
Proof.
  intros Hb Hh log. unfold tryCatch.
  destruct (Hb log) as (s1 & E1 & L1 & F1).
  destruct (body log) as [[a|e] w1]; cbn [snd] in E1; subst w1.
  - exists s1. cbn [snd]. repeat split; [lia | assumption].
  - destruct (Hh e (log ++ s1)%list) as (s2 & E2 & L2 & F2).
    exists (s1 ++ s2)%list. rewrite E2, app_assoc, length_app.
    repeat split; [lia | now apply Forall_app].
Qed.

(** A strategy: a body that sends at most [k] requests, inside a handler that
    sends none. *)
Lemma sends_guarded {A} (k : nat) (body : Async (list (Request Payload)) A)
      (wrap : Error -> Error) :
  sends P k body ->
  sends P k (tryCatch body (fun error => throw (wrap error))).
Proof.
  intros Hb. rewrite <- (Nat.add_0_r k).
  apply sends_tryCatch; [exact Hb|]. intros e. apply sends_nothing.
Qed.

Lemma sends_get (k : nat) (self : HttpClientService) (url : string) :
  P (getRequest self url) ->
  sends P (S k) (HttpClient.get (recording respond) self url None).
Proof.
  intros Hr. unfold HttpClient.get. rewrite <- (Nat.add_0_r (S k)).
  apply sends_bind; [now apply sends_request | intros a; apply sends_nothing].
Qed.

Lemma sends_post (k : nat) (self : HttpClientService) (url : string)
      (payload : Payload) :
  P (postRequest self url payload) ->
  sends P (S k) (HttpClient.post (recording respond) self url (Some payload) None).
Proof.
  intros Hr. unfold HttpClient.post. rewrite <- (Nat.add_0_r (S k)).
  apply sends_bind; [now apply sends_request | intros a; apply sends_nothing].
Qed.

Lemma sends_patch (k : nat) (self : HttpClientService) (url : string)
      (payload : Payload) :
  P (patchRequest self url payload) ->
  sends P (S k) (HttpClient.patch (recording respond) self url (Some payload) None).
Proof.
  intros Hr. unfold HttpClient.patch. rewrite <- (Nat.add_0_r (S k)).
  apply sends_bind; [now apply sends_request | intros a; apply sends_nothing].
Qed.

Lemma sends_delete (k : nat) (self : HttpClientService) (url : string) :
  P (deleteRequest self url None) ->
  sends P (S k) (HttpClient.delete (recording respond) self url None).
Proof.
  intros Hr. unfold HttpClient.delete. rewrite <- (Nat.add_0_r (S k)).
  apply sends_tryCatch.
  - rewrite <- (Nat.add_0_r (S k)).
    apply sends_bind; [now apply sends_request | intros a; apply sends_nothing].
  - intros e. destruct (message e) as [m|]; [destruct (includes "aborted" m)|];
      apply sends_nothing.
Qed.
End Sends.

Section Budget.
Variable respond : Request Payload -> Outcome Body.
Variable service : BaseConnectionService.

Lemma budget_list_dedicated :
  sends (verbIn [GET]) 1 (listDatabasesCloudDedicated (recording respond) service).
Proof.
  unfold listDatabasesCloudDedicated. cbv zeta. apply sends_guarded.
  apply (sends_bind _ 1 0); [apply sends_get; now left|].
  intros response.
  repeat match goal with
    | |- sends _ _ (match ?x with _ => _ end) => destruct x
    end; unfold ret, throw; apply sends_nothing.
Qed.

Lemma budget_list_core :
  sends (verbIn [GET]) 1 (listDatabasesCoreEnterprise (recording respond) service).
Proof.
  unfold listDatabasesCoreEnterprise. cbv zeta. apply sends_guarded.
  apply (sends_bind _ 1 0); [apply sends_get; now left|].
  intros response.
  repeat match goal with
    | |- sends _ _ (match ?x with _ => _ end) => destruct x
    end; unfold ret, throw; apply sends_nothing.
Qed.

Lemma budget_list_serverless :
  sends (verbIn [GET]) 1 (listDatabasesCloudServerless (recording respond) service).
Proof.
  unfold listDatabasesCloudServerless. cbv zeta. apply sends_guarded.
  apply (sends_bind _ 1 0); [apply sends_get; now left|].
  intros response.
  repeat match goal with
    | |- sends _ _ (match ?x with _ => _ end) => destruct x
    end; unfold ret, throw, lift; apply sends_nothing.
Qed.

Lemma budget_create_dedicated (name : string) (config : option DatabaseConfig) :
  sends (verbIn [GET; POST]) 2
    (createDatabaseCloudDedicated (recording respond) service name config).
Proof.
  unfold createDatabaseCloudDedicated. cbv zeta. apply sends_guarded.
  apply (sends_bind _ 2 0); [apply sends_post; right; now left|].
  intros _. unfold ret. apply sends_nothing.
Qed.

Lemma budget_create_core (name : string) :
  sends (verbIn [GET; POST]) 2
    (createDatabaseCoreEnterprise (recording respond) service name).
Proof.
  unfold createDatabaseCoreEnterprise. cbv zeta. apply sends_guarded.
  apply (sends_bind _ 2 0); [apply sends_post; right; now left|].
  intros _. unfold ret. apply sends_nothing.
Qed.

Lemma budget_create_serverless (name : string) (config : option DatabaseConfig) :
  sends (verbIn [GET; POST]) 2
    (createDatabaseCloudServerless (recording respond) service name config).
Proof.
  unfold createDatabaseCloudServerless. cbv zeta. apply sends_guarded.
  apply (sends_bind _ 1 1); [apply sends_get; now left|].
  intros orgsResponse.
  apply (sends_bind _ 0 1); [unfold lift; apply sends_nothing|].
  intros orgID.
  apply (sends_bind _ 1 0); [apply sends_post; right; now left|].
  intros _. unfold ret. apply sends_nothing.
Qed.

Lemma budget_update_dedicated (name : string) (config : DatabaseConfig) :
  sends (verbIn [GET; PATCH]) 2
    (updateDatabaseCloudDedicated (recording respond) service name config).
Proof.
  unfold updateDatabaseCloudDedicated. cbv zeta. apply sends_guarded.
  destruct (cfg_maxTables config), (cfg_maxColumnsPerTable config),
    (cfg_retentionPeriod config);
    try (unfold throw; apply sends_nothing);
    (apply (sends_bind _ 2 0);
     [apply sends_patch; right; now left
     | intros _; unfold ret; apply sends_nothing]).
Qed.

Lemma budget_update_serverless (name : string) (config : DatabaseConfig) :
  sends (verbIn [GET; PATCH]) 2
    (updateDatabaseCloudServerless (recording respond) service name config).
Proof.
  unfold updateDatabaseCloudServerless. cbv zeta. apply sends_guarded.
  apply (sends_bind _ 1 1); [apply sends_get; now left|].
  intros bucketsResponse.
  apply (sends_bind _ 0 1); [unfold lift; apply sends_nothing|].
  intros [found|]; [|unfold throw; apply sends_nothing].
  apply (sends_bind _ 1 0); [apply sends_patch; right; now left|].
  intros _. unfold ret. apply sends_nothing.
Qed.

Lemma budget_delete_dedicated (name : string) :
  sends (verbIn [GET; DELETE]) 2
    (deleteDatabaseCloudDedicated (recording respond) service name).
Proof.
  unfold deleteDatabaseCloudDedicated. cbv zeta. apply sends_guarded.
  apply (sends_bind _ 2 0); [apply sends_delete; right; now left|].
  intros _. unfold ret. apply sends_nothing.
Qed.

Lemma budget_delete_core (name : string) :
  sends (verbIn [GET; DELETE]) 2
    (deleteDatabaseCoreEnterprise (recording respond) service name).
Proof.
  unfold deleteDatabaseCoreEnterprise. cbv zeta. apply sends_guarded.
  apply (sends_bind _ 2 0); [apply sends_delete; right; now left|].
  intros _. unfold ret. apply sends_nothing.
Qed.

Lemma budget_delete_serverless (name : string) :
  sends (verbIn [GET; DELETE]) 2
    (deleteDatabaseCloudServerless (recording respond) service name).
Proof.
  unfold deleteDatabaseCloudServerless. cbv zeta. apply sends_guarded.
  apply (sends_bind _ 1 1); [apply sends_get; now left|].
  intros bucketsResponse.
  apply (sends_bind _ 0 1); [unfold lift; apply sends_nothing|].
  intros found.
  destruct (negb (truthy match found with
                         | Some b => e_id b
                         | None => None
                         end)); [unfold throw; apply sends_nothing|].
  apply (sends_bind _ 1 0); [apply sends_delete; right; now left|].
  intros _. unfold ret. apply sends_nothing.
Qed.

(** X26: nothing is retried and nothing else is touched.  Whatever the
    backend answers, and whatever the product type, a listing sends at most
    one request, a GET; a create at most two, GETs or POSTs; an update at
    most two, GETs or PATCHes; a delete at most two, GETs or DELETEs. *)
Theorem request_budget (name : string) (config : option DatabaseConfig)
        (update : DatabaseConfig) :
  sends (verbIn [GET]) 1 (listDatabases (recording respond) service)
  /\ sends (verbIn [GET; POST]) 2
       (createDatabase (recording respond) service name config)
  /\ sends (verbIn [GET; PATCH]) 2
       (updateDatabase (recording respond) service name update)
  /\ sends (verbIn [GET; DELETE]) 2
       (deleteDatabase (recording respond) service name).
Proof.
  unfold listDatabases, createDatabase, updateDatabase, deleteDatabase.
  split; [|split; [|split]].
  - apply (sends_bind _ 0 1); [unfold lift; apply sends_nothing|].
    intros _. destruct (ci_type (getConnectionInfo service)).
    + apply budget_list_core.
    + apply budget_list_core.
    + apply budget_list_dedicated.
    + apply budget_list_serverless.
    + apply budget_list_dedicated.
  - destruct (name =? "")%string; [unfold throw; apply sends_nothing|].
    apply (sends_bind _ 0 2); [unfold lift; apply sends_nothing|].
    intros _. destruct (ci_type (getConnectionInfo service)).
    + apply budget_create_core.
    + apply budget_create_core.
    + apply budget_create_dedicated.
    + apply budget_create_serverless.
    + apply budget_create_dedicated.
  - destruct (name =? "")%string; [unfold throw; apply sends_nothing|].
    apply (sends_bind _ 0 2); [unfold lift; apply sends_nothing|].
    intros _.
    apply (sends_bind _ 0 2); [unfold lift; apply sends_nothing|].
    intros _. destruct (ci_type (getConnectionInfo service)).
    + unfold throw. apply sends_nothing.
    + unfold throw. apply sends_nothing.
    + apply budget_update_dedicated.
    + apply budget_update_serverless.
    + apply budget_update_dedicated.
  - destruct (name =? "")%string; [unfold throw; apply sends_nothing|].
    apply (sends_bind _ 0 2); [unfold lift; apply sends_nothing|].
    intros _. destruct (ci_type (getConnectionInfo service)).
    + apply budget_delete_core.
    + apply budget_delete_core.
    + apply budget_delete_dedicated.
    + apply budget_delete_serverless.
    + apply budget_delete_dedicated.
Qed.
End Budget.
